(** * PyLorentz: the staged image pipeline of [DefocusedDataset]

    A shallow embedding of [PyLorentz/dataset/defocused_dataset.py].

    The Python object is a record of attributes, each of them optional
    (an attribute that was never assigned is absent: [hasattr] is false and
    reading it raises [AttributeError]).  numpy arrays live in a store and
    attributes hold references into it, so that an in-place assignment
    [a[i] = x] is seen through every reference to [a] and [.copy()] /
    [np.array(..)] allocate.  A method is a function from the object to an
    outcome that carries the object as the method left it, also when it
    raises.

    Outside the model: floating point arithmetic (numbers are rationals;
    the conversion [float(val)] of an integer is modelled, with its
    rounding and its [OverflowError]), dtypes, the
    spatial shape rules of numpy assignment (an image written into a slot
    replaces it), failures of the image functions of scipy and
    [PyLorentz.utils.filter] (they are total functions here), plotting, and
    the bookkeeping of file paths.

    The class method [load] is modelled up to its call of the class: the
    metadata and the keyword arguments are finite maps from names to
    values, the readers of files are parameters, and the result is the
    arguments of the call. *)

From Stdlib Require Import ZArith QArith Bool String Lia.
From stdpp Require Import base list strings gmap.

#[local] Open Scope Z_scope.
#[local] Close Scope Q_scope.

Module DefocusedDataset.

(** ** Python values *)

(** The exceptions the module raises, by class. *)
Inductive exn : Type :=
| ValueError
| TypeError
| IndexError
| AttributeError
| OverflowError.

(** Arguments of dynamic type: the values [energy] may be assigned. *)
Inductive pyval : Type :=
| PyNone
| PyBool (b : bool)
| PyInt (z : Z)
| PyFloat (q : Q)
| PyStr (s : string).

(** [_transforms]: the rotation angle and the crop rectangle. *)
Record transforms : Type := {
  rotation : Q;
  top : Z;
  bottom : Z;
  left : Z;
  right : Z
}.

(** [_filters]: the options recorded by [preprocess] and [filter]. *)
Record filters : Type := {
  hotpix : bool;
  median : option Z;
  q_lowpass : option Q;
  q_highpass : option Q;
  filter_type : string;
  butterworth_order : Z
}.

(** The four arguments [_bandpass_filter] takes after the image. *)
Record bandpass_args : Type := {
  bp_lowpass : option Q;
  bp_highpass : option Q;
  bp_type : string;
  bp_order : Z
}.

(** The collaborators that are not part of the module: the image functions
    of scipy and of [PyLorentz.utils.filter], and the primitives inherited
    from [BaseDataset]. All of them are pure functions of their image. *)
Class Externals : Type := {
  px : Type;
  (** the zero of the pixel type, for [np.zeros_like] *)
  zero : px;
  (** [ndi.rotate(img, angle, reshape=False)] *)
  ndi_rotate : Q -> list (list px) -> list (list px);
  (** [filter_hotpix(img, fast=fast, **kwargs)] *)
  kwargs : Type;
  filter_hotpix : bool -> kwargs -> list (list px) -> list (list px);
  (** what [ndi.median_filter(stack, size=(1, k, k))] does to one image of
      the stack: with extent 1 along the stack axis no image sees another *)
  median_filter : Z -> list (list px) -> list (list px);
  (** [BaseDataset._bandpass_filter(img, q_lowpass, q_highpass, filter_type,
      butterworth_order)] *)
  _bandpass_filter : list (list px) -> bandpass_args -> list (list px);
  (** [BaseDataset._select_ROI(img)]: the rectangle the user draws on [img],
      written into [_transforms] *)
  _select_ROI : list (list px) -> transforms -> transforms;
  (** the [_filters] dictionary as [BaseDataset.__init__] leaves it *)
  base_filters : filters
}.

Section Model.
Context {E : Externals}.

(** An image is a list of rows of pixels, a stack a list of images. *)
Abbreviation image := (list (list px)) (only parsing).
Abbreviation stack := (list (list (list px))) (only parsing).

(** A numpy array held by the object: a stack of images, or the
    0-dimensional array that [np.zeros_like(None)] returns. *)
Inductive ndarray : Type :=
| Nd0
| Nd3 (s : stack).

(** What the caller passes for [images]: one 2-D image or a 3-D stack. *)
Inductive array_like : Type :=
| Img (im : image)
| Stack (s : stack).

(** What the caller passes for [defvals]. *)
Inductive defvals_like : Type :=
| DvNone
| DvNum (x : Q)
| DvSeq (l : list Q).

(** A cache attribute: Python's [None] or a reference to an array. *)
Inductive cache : Type :=
| CNone
| CArr (l : nat).

(** The object. [store] is the memory of arrays; every other field is an
    attribute of [self], [None] while it has not been assigned. *)
Record dataset : Type := {
  store : list ndarray;
  _images : option nat;
  _defvals : option defvals_like;
  _orig_images : option nat;
  _orig_shape : option (nat * nat);
  _orig_images_preprocessed : option cache;
  _images_cropped : option cache;
  _images_filtered : option cache;
  beam_energy : option pyval;
  _beam_energy : option Q;
  _preprocessed : option bool;
  _cropped : option bool;
  _filtered : option bool;
  _transforms : option transforms;
  _filters : option filters;
  _transforms_modified : option bool
}.


(** The object before [__init__] has run: no attribute, no array. *)
Definition blank : dataset :=
  {| store := []; _images := None; _defvals := None; _orig_images := None;
     _orig_shape := None; _orig_images_preprocessed := None;
     _images_cropped := None; _images_filtered := None; beam_energy := None;
     _beam_energy := None; _preprocessed := None; _cropped := None;
     _filtered := None; _transforms := None; _filters := None;
     _transforms_modified := None |}.

(** Assignment to one attribute. *)
Definition set_store (v : list ndarray) (d : dataset) : dataset :=
  {| store := v; _images := _images d; _defvals := _defvals d;
     _orig_images := _orig_images d; _orig_shape := _orig_shape d;
     _orig_images_preprocessed := _orig_images_preprocessed d;
     _images_cropped := _images_cropped d;
     _images_filtered := _images_filtered d; beam_energy := beam_energy d;
     _beam_energy := _beam_energy d; _preprocessed := _preprocessed d;
     _cropped := _cropped d; _filtered := _filtered d;
     _transforms := _transforms d; _filters := _filters d;
     _transforms_modified := _transforms_modified d |}.
Definition set__images (v : option nat) (d : dataset) : dataset :=
  {| store := store d; _images := v; _defvals := _defvals d;
     _orig_images := _orig_images d; _orig_shape := _orig_shape d;
     _orig_images_preprocessed := _orig_images_preprocessed d;
     _images_cropped := _images_cropped d;
     _images_filtered := _images_filtered d; beam_energy := beam_energy d;
     _beam_energy := _beam_energy d; _preprocessed := _preprocessed d;
     _cropped := _cropped d; _filtered := _filtered d;
     _transforms := _transforms d; _filters := _filters d;
     _transforms_modified := _transforms_modified d |}.
Definition set__defvals (v : option defvals_like) (d : dataset) : dataset :=
  {| store := store d; _images := _images d; _defvals := v;
     _orig_images := _orig_images d; _orig_shape := _orig_shape d;
     _orig_images_preprocessed := _orig_images_preprocessed d;
     _images_cropped := _images_cropped d;
     _images_filtered := _images_filtered d; beam_energy := beam_energy d;
     _beam_energy := _beam_energy d; _preprocessed := _preprocessed d;
     _cropped := _cropped d; _filtered := _filtered d;
     _transforms := _transforms d; _filters := _filters d;
     _transforms_modified := _transforms_modified d |}.
Definition set__orig_images (v : option nat) (d : dataset) : dataset :=
  {| store := store d; _images := _images d; _defvals := _defvals d;
     _orig_images := v; _orig_shape := _orig_shape d;
     _orig_images_preprocessed := _orig_images_preprocessed d;
     _images_cropped := _images_cropped d;
     _images_filtered := _images_filtered d; beam_energy := beam_energy d;
     _beam_energy := _beam_energy d; _preprocessed := _preprocessed d;
     _cropped := _cropped d; _filtered := _filtered d;
     _transforms := _transforms d; _filters := _filters d;
     _transforms_modified := _transforms_modified d |}.
Definition set__orig_shape (v : option (nat * nat)) (d : dataset) : dataset :=
  {| store := store d; _images := _images d; _defvals := _defvals d;
     _orig_images := _orig_images d; _orig_shape := v;
     _orig_images_preprocessed := _orig_images_preprocessed d;
     _images_cropped := _images_cropped d;
     _images_filtered := _images_filtered d; beam_energy := beam_energy d;
     _beam_energy := _beam_energy d; _preprocessed := _preprocessed d;
     _cropped := _cropped d; _filtered := _filtered d;
     _transforms := _transforms d; _filters := _filters d;
     _transforms_modified := _transforms_modified d |}.
Definition set__orig_images_preprocessed (v : option cache) (d : dataset) : dataset :=
  {| store := store d; _images := _images d; _defvals := _defvals d;
     _orig_images := _orig_images d; _orig_shape := _orig_shape d;
     _orig_images_preprocessed := v; _images_cropped := _images_cropped d;
     _images_filtered := _images_filtered d; beam_energy := beam_energy d;
     _beam_energy := _beam_energy d; _preprocessed := _preprocessed d;
     _cropped := _cropped d; _filtered := _filtered d;
     _transforms := _transforms d; _filters := _filters d;
     _transforms_modified := _transforms_modified d |}.
Definition set__images_cropped (v : option cache) (d : dataset) : dataset :=
  {| store := store d; _images := _images d; _defvals := _defvals d;
     _orig_images := _orig_images d; _orig_shape := _orig_shape d;
     _orig_images_preprocessed := _orig_images_preprocessed d;
     _images_cropped := v; _images_filtered := _images_filtered d;
     beam_energy := beam_energy d; _beam_energy := _beam_energy d;
     _preprocessed := _preprocessed d; _cropped := _cropped d;
     _filtered := _filtered d; _transforms := _transforms d;
     _filters := _filters d;
     _transforms_modified := _transforms_modified d |}.
Definition set__images_filtered (v : option cache) (d : dataset) : dataset :=
  {| store := store d; _images := _images d; _defvals := _defvals d;
     _orig_images := _orig_images d; _orig_shape := _orig_shape d;
     _orig_images_preprocessed := _orig_images_preprocessed d;
     _images_cropped := _images_cropped d; _images_filtered := v;
     beam_energy := beam_energy d; _beam_energy := _beam_energy d;
     _preprocessed := _preprocessed d; _cropped := _cropped d;
     _filtered := _filtered d; _transforms := _transforms d;
     _filters := _filters d;
     _transforms_modified := _transforms_modified d |}.
Definition set_beam_energy (v : option pyval) (d : dataset) : dataset :=
  {| store := store d; _images := _images d; _defvals := _defvals d;
     _orig_images := _orig_images d; _orig_shape := _orig_shape d;
     _orig_images_preprocessed := _orig_images_preprocessed d;
     _images_cropped := _images_cropped d;
     _images_filtered := _images_filtered d; beam_energy := v;
     _beam_energy := _beam_energy d; _preprocessed := _preprocessed d;
     _cropped := _cropped d; _filtered := _filtered d;
     _transforms := _transforms d; _filters := _filters d;
     _transforms_modified := _transforms_modified d |}.
Definition set__beam_energy (v : option Q) (d : dataset) : dataset :=
  {| store := store d; _images := _images d; _defvals := _defvals d;
     _orig_images := _orig_images d; _orig_shape := _orig_shape d;
     _orig_images_preprocessed := _orig_images_preprocessed d;
     _images_cropped := _images_cropped d;
     _images_filtered := _images_filtered d; beam_energy := beam_energy d;
     _beam_energy := v; _preprocessed := _preprocessed d;
     _cropped := _cropped d; _filtered := _filtered d;
     _transforms := _transforms d; _filters := _filters d;
     _transforms_modified := _transforms_modified d |}.
Definition set__preprocessed (v : option bool) (d : dataset) : dataset :=
  {| store := store d; _images := _images d; _defvals := _defvals d;
     _orig_images := _orig_images d; _orig_shape := _orig_shape d;
     _orig_images_preprocessed := _orig_images_preprocessed d;
     _images_cropped := _images_cropped d;
     _images_filtered := _images_filtered d; beam_energy := beam_energy d;
     _beam_energy := _beam_energy d; _preprocessed := v;
     _cropped := _cropped d; _filtered := _filtered d;
     _transforms := _transforms d; _filters := _filters d;
     _transforms_modified := _transforms_modified d |}.
Definition set__cropped (v : option bool) (d : dataset) : dataset :=
  {| store := store d; _images := _images d; _defvals := _defvals d;
     _orig_images := _orig_images d; _orig_shape := _orig_shape d;
     _orig_images_preprocessed := _orig_images_preprocessed d;
     _images_cropped := _images_cropped d;
     _images_filtered := _images_filtered d; beam_energy := beam_energy d;
     _beam_energy := _beam_energy d; _preprocessed := _preprocessed d;
     _cropped := v; _filtered := _filtered d; _transforms := _transforms d;
     _filters := _filters d;
     _transforms_modified := _transforms_modified d |}.
Definition set__filtered (v : option bool) (d : dataset) : dataset :=
  {| store := store d; _images := _images d; _defvals := _defvals d;
     _orig_images := _orig_images d; _orig_shape := _orig_shape d;
     _orig_images_preprocessed := _orig_images_preprocessed d;
     _images_cropped := _images_cropped d;
     _images_filtered := _images_filtered d; beam_energy := beam_energy d;
     _beam_energy := _beam_energy d; _preprocessed := _preprocessed d;
     _cropped := _cropped d; _filtered := v; _transforms := _transforms d;
     _filters := _filters d;
     _transforms_modified := _transforms_modified d |}.
Definition set__transforms (v : option transforms) (d : dataset) : dataset :=
  {| store := store d; _images := _images d; _defvals := _defvals d;
     _orig_images := _orig_images d; _orig_shape := _orig_shape d;
     _orig_images_preprocessed := _orig_images_preprocessed d;
     _images_cropped := _images_cropped d;
     _images_filtered := _images_filtered d; beam_energy := beam_energy d;
     _beam_energy := _beam_energy d; _preprocessed := _preprocessed d;
     _cropped := _cropped d; _filtered := _filtered d; _transforms := v;
     _filters := _filters d;
     _transforms_modified := _transforms_modified d |}.
Definition set__filters (v : option filters) (d : dataset) : dataset :=
  {| store := store d; _images := _images d; _defvals := _defvals d;
     _orig_images := _orig_images d; _orig_shape := _orig_shape d;
     _orig_images_preprocessed := _orig_images_preprocessed d;
     _images_cropped := _images_cropped d;
     _images_filtered := _images_filtered d; beam_energy := beam_energy d;
     _beam_energy := _beam_energy d; _preprocessed := _preprocessed d;
     _cropped := _cropped d; _filtered := _filtered d;
     _transforms := _transforms d; _filters := v;
     _transforms_modified := _transforms_modified d |}.
Definition set__transforms_modified (v : option bool) (d : dataset) : dataset :=
  {| store := store d; _images := _images d; _defvals := _defvals d;
     _orig_images := _orig_images d; _orig_shape := _orig_shape d;
     _orig_images_preprocessed := _orig_images_preprocessed d;
     _images_cropped := _images_cropped d;
     _images_filtered := _images_filtered d; beam_energy := beam_energy d;
     _beam_energy := _beam_energy d; _preprocessed := _preprocessed d;
     _cropped := _cropped d; _filtered := _filtered d;
     _transforms := _transforms d; _filters := _filters d;
     _transforms_modified := v |}.

(** ** Methods as state transformers that may raise *)

(** What a call leaves behind: a value or an exception, and in both cases
    the object as it is at that point. *)
Inductive outcome (A : Type) : Type :=
| Ret (a : A) (d : dataset)
| Raise (e : exn) (d : dataset).
Arguments Ret {A} a d.
Arguments Raise {A} e d.

Definition M (A : Type) : Type := dataset -> outcome A.

Definition ret {A : Type} (a : A) : M A := fun d => Ret a d.

Definition raise {A : Type} (e : exn) : M A := fun d => Raise e d.

Definition bind {A B : Type} (m : M A) (k : A -> M B) : M B :=
  fun d =>
    match m d with
    | Ret a d' => k a d'
    | Raise e d' => Raise e d'
    end.

Notation "x <- m ;; k" := (bind m (fun x => k))
  (at level 100, m at next level, right associativity).
Notation "m ;; k" := (bind m (fun _ => k))
  (at level 100, right associativity).

(** The object a call leaves, whether it returned or raised. *)
Definition final {A : Type} (o : outcome A) : dataset :=
  match o with
  | Ret _ d => d
  | Raise _ d => d
  end.

(** A pure computation that may raise. *)
Definition lift {A : Type} (r : exn + A) : M A :=
  fun d =>
    match r with
    | inl e => Raise e d
    | inr a => Ret a d
    end.

(** [self.<name>] read: [AttributeError] when the attribute is absent. *)
Definition attr {A : Type} (f : dataset -> option A) : M A :=
  fun d =>
    match f d with
    | Some a => Ret a d
    | None => Raise AttributeError d
    end.

(** [hasattr(self, "<name>")] *)
Definition hasattr {A : Type} (f : dataset -> option A) : M bool :=
  fun d =>
    match f d with
    | Some _ => Ret true d
    | None => Ret false d
    end.

(** [self.<name> = v] *)
Definition modify (f : dataset -> dataset) : M unit :=
  fun d => Ret tt (f d).

(** A new array: [.copy()], [np.array(..)], [np.zeros_like(..)]. The
    reference it gets is the next free cell of the store. *)
Definition alloc (a : ndarray) : M nat :=
  fun d => Ret (length (store d)) (set_store (store d ++ [a]) d).

(** The array behind a reference. A reference held by an attribute always
    points into the store, so the default is never read. *)
Definition deref (l : nat) : M ndarray :=
  fun d => Ret (default Nd0 (store d !! l)) d.

(** The array behind a cache attribute. On [None], subscripting raises
    [TypeError] and [.copy()] raises [AttributeError]: [e] says which. *)
Definition deref_cache (e : exn) (c : cache) : M ndarray :=
  match c with
  | CNone => raise e
  | CArr l => deref l
  end.

(** In-place change of the array behind a reference. *)
Definition update (l : nat) (f : ndarray -> ndarray) : M unit :=
  modify (fun d => set_store (alter f l (store d)) d).

(** ** numpy *)

(** [len(a)] *)
Definition py_len (a : ndarray) : exn + nat :=
  match a with
  | Nd0 => inl TypeError
  | Nd3 s => inr (length s)
  end.

(** The images of an array that is a stack. *)
Definition as_stack (a : ndarray) : exn + stack :=
  match a with
  | Nd0 => inl IndexError
  | Nd3 s => inr s
  end.

(** [len(dfs)] for the object given as defocus values. *)
Definition len_defvals (dfs : defvals_like) : exn + nat :=
  match dfs with
  | DvNone => inl TypeError
  | DvNum _ => inl TypeError
  | DvSeq l => inr (length l)
  end.

(** [np.array(ims)], a 2-D image promoted by [ims[None]]. *)
Definition promote (ims : array_like) : stack :=
  match ims with
  | Img im => [im]
  | Stack s => s
  end.

(** A number given as defocus values becomes an array of length one
    ([np.array([dfs])]). *)
Definition promote_defvals (dfs : defvals_like) : defvals_like :=
  match dfs with
  | DvNum x => DvSeq [x]
  | _ => dfs
  end.

(** [im.shape] of a 2-D image. *)
Definition shape (im : image) : nat * nat :=
  (length im, length (hd [] im)).

(** [images.shape[1:]] of a stack (of an empty stack the model does not
    keep the shape). *)
Definition stack_shape (s : stack) : nat * nat :=
  shape (hd [] s).

Definition shape_eqb (a b : nat * nat) : bool :=
  Nat.eqb (fst a) (fst b) && Nat.eqb (snd a) (snd b).

(** [np.zeros_like(a)]; of [None] it is a 0-dimensional array. *)
Definition zeros_like_image (im : image) : image :=
  map (map (fun _ => zero)) im.

Definition zeros_like (a : option ndarray) : ndarray :=
  match a with
  | None => Nd0
  | Some Nd0 => Nd0
  | Some (Nd3 s) => Nd3 (map zeros_like_image s)
  end.

(** An integer index into an axis of length [n]: negative indices count
    from the end, anything outside [-n, n) is an [IndexError]. *)
Definition norm_index (n : nat) (i : Z) : exn + nat :=
  if (0 <=? i) && (i <? Z.of_nat n) then inr (Z.to_nat i)
  else if (- Z.of_nat n <=? i) && (i <? 0) then inr (Z.to_nat (i + Z.of_nat n))
  else inl IndexError.

Fixpoint norm_indices (n : nat) (ix : list Z) : exn + list nat :=
  match ix with
  | [] => inr []
  | i :: ix' =>
      match norm_index n i with
      | inl e => inl e
      | inr k =>
          match norm_indices n ix' with
          | inl e => inl e
          | inr ks => inr (k :: ks)
          end
      end
  end.

(** [a[i]] with an integer [i]. *)
Definition getitem (a : ndarray) (i : Z) : exn + image :=
  match a with
  | Nd0 => inl IndexError
  | Nd3 s =>
      match norm_index (length s) i with
      | inl e => inl e
      | inr k => inr (default [] (s !! k))
      end
  end.

(** The images of a stack at the given places, in the order given. *)
Definition selected (s : stack) (ks : list nat) : stack :=
  map (fun k => default [] (s !! k)) ks.

(** [a[indices]] with a list of integers: a new array with the chosen
    images, in the order of the list. *)
Definition getitem_list (a : ndarray) (ix : list Z) : exn + stack :=
  match a with
  | Nd0 => inl IndexError
  | Nd3 s =>
      match norm_indices (length s) ix with
      | inl e => inl e
      | inr ks => inr (selected s ks)
      end
  end.

(** The writes of [a[indices] = vs], one slot after the other. *)
Fixpoint put (s : stack) (ks : list nat) (vs : stack) : stack :=
  match ks, vs with
  | k :: ks', v :: vs' => put (<[k := v]> s) ks' vs'
  | _, _ => s
  end.

(** [a[indices] = vs] with a list of integers and one image per index. *)
Definition setitem_list (a : ndarray) (ix : list Z) (vs : stack)
  : exn + ndarray :=
  match a with
  | Nd0 => inl IndexError
  | Nd3 s =>
      match norm_indices (length s) ix with
      | inl e => inl e
      | inr ks => inr (Nd3 (put s ks vs))
      end
  end.

(** One bound of a slice [lo:hi] over an axis of length [n]. *)
Definition slice_bound (n : Z) (i : Z) : Z :=
  if i <? 0 then Z.max (i + n) 0 else Z.min i n.

(** [l[lo:hi]] *)
Definition py_slice {A : Type} (lo hi : Z) (l : list A) : list A :=
  let n := Z.of_nat (length l) in
  let a := slice_bound n lo in
  let b := slice_bound n hi in
  take (Z.to_nat (b - a)) (drop (Z.to_nat a) l).

(** [im[top:bottom, left:right]] *)
Definition crop (t : transforms) (im : image) : image :=
  map (py_slice (left t) (right t)) (py_slice (top t) (bottom t) im).

(** [_bandpass_filter] over every image of a stack. *)
Definition bandpassed (a : bandpass_args) (s : stack) : stack :=
  map (fun im => _bandpass_filter im a) s.

(** ** What [BaseDataset] provides *)

(** Modelled from the spec: [BaseDataset] is not among the sources. Its
    transform record defaults to no rotation and the full frame as crop
    rectangle ("crop box reset to full frame, rotation reset to zero"). *)
Definition default_transforms (sh : nat * nat) : transforms :=
  {| rotation := 0%Q; top := 0; bottom := Z.of_nat (fst sh);
     left := 0; right := Z.of_nat (snd sh) |}.

(** Modelled from the spec: [BaseDataset.__init__(imshape, ..)] creates the
    transform record with its defaults, the filter record and the
    "transforms modified" bit. *)
Definition BaseDataset__init__ (imshape : nat * nat) : M unit :=
  modify (set__transforms (Some (default_transforms imshape))) ;;
  modify (set__filters (Some base_filters)) ;;
  modify (set__transforms_modified (Some false)).

(** Modelled from the spec: [BaseDataset._reset_transforms()] puts the
    defaults back; the image shape it was built with is the one
    [__init__] keeps as [_orig_shape]. *)
Definition _reset_transforms : M unit :=
  sh <- attr _orig_shape ;;
  modify (set__transforms (Some (default_transforms sh))).

(** The arguments of [_bandpass_filter] as [_filters] records them. *)
Definition recorded (f : filters) : bandpass_args :=
  {| bp_lowpass := q_lowpass f; bp_highpass := q_highpass f;
     bp_type := filter_type f; bp_order := butterworth_order f |}.

(** [_filters["q_lowpass"] = ..] and the three assignments after it. *)
Definition record_bandpass (a : bandpass_args) (f : filters) : filters :=
  {| hotpix := hotpix f; median := median f;
     q_lowpass := bp_lowpass a; q_highpass := bp_highpass a;
     filter_type := bp_type a; butterworth_order := bp_order a |}.

(** [_filters["hotpix"] = ..; _filters["median"] = ..] *)
Definition record_preprocess (h : bool) (m : option Z) (f : filters)
  : filters :=
  {| hotpix := h; median := m;
     q_lowpass := q_lowpass f; q_highpass := q_highpass f;
     filter_type := filter_type f;
     butterworth_order := butterworth_order f |}.

(** ** Properties *)

(** [images] (getter): the array itself, by reference. *)
Definition images : M nat := attr _images.

(** [defvals] (getter) *)
Definition defvals : M defvals_like := attr _defvals.

(** [images] (setter), lines 152-162. The array stored is a new one. *)
Definition set_images (ims : array_like) : M unit :=
  let ims := promote ims in
  has <- hasattr _defvals ;;
  (if has : bool then
     dfs <- defvals ;;
     n <- lift (len_defvals dfs) ;;
     if negb (Nat.eqb (length ims) n) then raise ValueError else ret tt
   else ret tt) ;;
  l <- alloc (Nd3 ims) ;;
  modify (set__images (Some l)).

(** [defvals] (setter), lines 172-181. The object given is stored as it
    is, a number as an array of length one. *)
Definition set_defvals (dfs : defvals_like) : M unit :=
  let dfs := promote_defvals dfs in
  has <- hasattr _images ;;
  (if has : bool then
     n <- lift (len_defvals dfs) ;;
     l <- images ;;
     a <- deref l ;;
     m <- lift (py_len a) ;;
     if negb (Nat.eqb n m) then raise ValueError else ret tt
   else ret tt) ;;
  modify (set__defvals (Some dfs)).

(** [__len__] *)
Definition __len__ : M nat :=
  l <- images ;;
  a <- deref l ;;
  lift (py_len a).

(** [isinstance(val, (float, int))], with the number [val] is; [bool] is a
    subclass of [int]. *)
Definition numeric (val : pyval) : option Q :=
  match val with
  | PyBool b => Some (if b then 1%Q else 0%Q)
  | PyInt z => Some (inject_Z z)
  | PyFloat q => Some q
  | PyNone | PyStr _ => None
  end.

(** [energy] (getter), lines 190-192 *)
Definition energy : M Q := attr _beam_energy.

(** [float(z)] of an integer: the nearest double, a tie going to the
    even significand of 53 bits; [OverflowError] when that is [2^1024] or
    more. An integer of at most 53 bits is its own double. *)
Definition float_of_int (z : Z) : exn + Q :=
  let a := Z.abs z in
  let e := Z.log2 a - 52 in
  if e <=? 0 then inr (inject_Z z)
  else
    let m := Z.shiftr a e in
    let r := Z.land a (Z.ones e) in
    let half := Z.shiftl 1 (e - 1) in
    let m' :=
      if (half <? r) || ((r =? half) && Z.odd m) then m + 1 else m in
    let x := Z.shiftl m' e in
    if Z.shiftl 1 1024 <=? x then inl OverflowError
    else inr (inject_Z (Z.sgn z * x)).

(** [float(val)] of a value that passed the [isinstance] test of line
    196, [q] being its value: a float is itself, [True] is [1.0]. *)
Definition float (val : pyval) (q : Q) : exn + Q :=
  match val with
  | PyInt z => float_of_int z
  | _ => inr q
  end.

(** [energy] (setter), lines 194-200 *)
Definition set_energy (val : pyval) : M unit :=
  match numeric val with
  | None => raise TypeError
  | Some q =>
      if Qle_bool q 0%Q then raise ValueError
      else
        x <- lift (float val q) ;;
        modify (set__beam_energy (Some x))
  end.

(** ** Stage methods *)

(** [select_ROI(idx, image)], lines 202-232 *)
Definition select_ROI (idx : Z) (image : option image) : M unit :=
  im <- match image with
        | Some im =>
            sh <- attr _orig_shape ;;
            if shape_eqb (shape im) sh then ret im else raise ValueError
        | None =>
            pre <- attr _preprocessed ;;
            im <- (if pre : bool then
                     c <- attr _orig_images_preprocessed ;;
                     a <- deref_cache TypeError c ;;
                     lift (getitem a idx)
                   else
                     l <- attr _orig_images ;;
                     a <- deref l ;;
                     lift (getitem a idx)) ;;
            fl <- attr _filtered ;;
            if fl : bool then
              f <- attr _filters ;;
              ret (_bandpass_filter im (recorded f))
            else ret im
        end ;;
  t <- attr _transforms ;;
  modify (set__transforms (Some (_select_ROI im t))).

(** [apply_transforms()], lines 234-267. The local [images] is a copy that
    no attribute refers to, so it is a value here; an array is allocated
    where the method stores a copy of it. *)
Definition apply_transforms : M unit :=
  pre <- attr _preprocessed ;;
  a <- (if pre : bool then
          c <- attr _orig_images_preprocessed ;;
          deref_cache AttributeError c
        else
          l <- attr _orig_images ;;
          deref l) ;;
  t <- attr _transforms ;;
  a <- (if negb (Qeq_bool (rotation t) 0%Q) then
          n <- lift (py_len a) ;;
          s <- lift (as_stack a) ;;
          ret (Nd3 (map (ndi_rotate (rotation t)) s))
        else ret a) ;;
  s <- lift (as_stack a) ;;
  let images := map (crop t) s in
  lc <- alloc (Nd3 images) ;;
  modify (set__images_cropped (Some (CArr lc))) ;;
  fl <- attr _filtered ;;
  images <- (if fl : bool then
               f <- attr _filters ;;
               let images := bandpassed (recorded f) images in
               lf <- alloc (Nd3 images) ;;
               modify (set__images_filtered (Some (CArr lf))) ;;
               ret images
             else ret images) ;;
  set_images (Stack images) ;;
  modify (set__transforms_modified (Some false)) ;;
  modify (set__cropped (Some true)).

(** Line 284, the first statement of [preprocess]:
    [self.images = self._orig_images.copy()]. *)
Definition view_from_raw : M unit :=
  lo <- attr _orig_images ;;
  a <- deref lo ;;
  s <- lift (as_stack a) ;;
  set_images (Stack s).

(** Lines 286-300, the rest of [preprocess]. The loop over
    [self.images[i]] writes into the array behind [_images]. *)
Definition preprocess_view (hotpix : bool) (median_filter_size : option Z)
    (fast : bool) (kw : kwargs) : M unit :=
  (if hotpix then
     n <- __len__ ;;
     l <- images ;;
     update l (fun a =>
       match a with
       | Nd0 => Nd0
       | Nd3 s => Nd3 (map (filter_hotpix fast kw) s)
       end)
   else ret tt) ;;
  (match median_filter_size with
   | Some k =>
       l <- images ;;
       a <- deref l ;;
       s <- lift (as_stack a) ;;
       set_images (Stack (map (median_filter k) s))
   | None => ret tt
   end) ;;
  modify (set__preprocessed (Some true)) ;;
  l <- images ;;
  a <- deref l ;;
  lp <- alloc a ;;
  modify (set__orig_images_preprocessed (Some (CArr lp))) ;;
  apply_transforms ;;
  f <- attr _filters ;;
  modify (set__filters (Some (record_preprocess hotpix median_filter_size f))).

(** [preprocess(hotpix, median_filter_size, fast, **kwargs)],
    lines 269-300. *)
Definition preprocess (hotpix : bool) (median_filter_size : option Z)
    (fast : bool) (kw : kwargs) : M unit :=
  view_from_raw ;;
  preprocess_view hotpix median_filter_size fast kw.

(** [reset_transforms()], lines 305-310 *)
Definition reset_transforms : M unit :=
  _reset_transforms ;;
  apply_transforms.

(** What the caller passes for [idx]: [None], an integer, a list (or
    array) of integers, or an object of another type. *)
Inductive index_like : Type :=
| IdxNone
| IdxInt (i : Z)
| IdxList (l : list Z)
| IdxOther.

(** [a[indices] = vs] on the array an attribute holds. *)
Definition setitem (c : cache) (ix : list Z) (vs : stack) : M unit :=
  match c with
  | CNone => raise TypeError
  | CArr l =>
      a <- deref l ;;
      a' <- lift (setitem_list a ix vs) ;;
      update l (fun _ => a')
  end.

(** [filter(q_lowpass, q_highpass, filter_type, butterworth_order, idx)],
    lines 355-436; the plots of [show] are left out. *)
Definition filter (args : bandpass_args) (idx : index_like) : M unit :=
  indices <- match idx with
             | IdxNone => n <- __len__ ;; ret (map Z.of_nat (seq 0 n))
             | IdxInt i => ret [i]
             | IdxList l => ret l
             | IdxOther => raise TypeError
             end ;;
  cr <- attr _cropped ;;
  input_ims <- (if cr : bool then
                  c <- attr _images_cropped ;;
                  a <- deref_cache TypeError c ;;
                  lift (getitem_list a indices)
                else
                  pre <- attr _preprocessed ;;
                  if pre : bool then
                    c <- attr _orig_images_preprocessed ;;
                    a <- deref_cache TypeError c ;;
                    lift (getitem_list a indices)
                  else
                    l <- attr _orig_images ;;
                    a <- deref l ;;
                    lift (getitem_list a indices)) ;;
  let filtered_ims := bandpassed args input_ims in
  modify (set__filtered (Some true)) ;;
  f <- attr _filters ;;
  modify (set__filters (Some (record_bandpass args f))) ;;
  c <- attr _images_filtered ;;
  match c with
  | CNone =>
      cc <- attr _images_cropped ;;
      z <- match cc with
           | CNone => ret (zeros_like None)
           | CArr l => a <- deref l ;; ret (zeros_like (Some a))
           end ;;
      l <- alloc z ;;
      modify (set__images_filtered (Some (CArr l)))
  | CArr _ => ret tt
  end ;;
  c <- attr _images_filtered ;;
  setitem c indices filtered_ims ;;
  l <- images ;;
  setitem (CArr l) indices filtered_ims.

(** ** Construction *)

(** [__init__(images, scale, defvals, beam_energy, ..)], lines 32-78.
    The attributes that only describe files, verbosity and the mask are
    left out. *)
Definition __init__ (images : array_like) (defvals : defvals_like)
    (beam_energy : pyval) : M unit :=
  let images := promote images in
  let defvals := promote_defvals defvals in
  BaseDataset__init__ (stack_shape images) ;;
  set_images (Stack images) ;;
  lo <- alloc (Nd3 images) ;;
  modify (set__orig_images (Some lo)) ;;
  modify (set__orig_shape (Some (stack_shape images))) ;;
  modify (set__orig_images_preprocessed (Some CNone)) ;;
  modify (set__images_cropped (Some CNone)) ;;
  modify (set__images_filtered (Some CNone)) ;;
  set_defvals defvals ;;
  modify (set_beam_energy (Some beam_energy)) ;;
  modify (set__preprocessed (Some false)) ;;
  modify (set__cropped (Some false)) ;;
  modify (set__filtered (Some false)).

(** [DefocusedDataset(images, defvals=.., beam_energy=..)]: [__init__] run
    on a new object. *)
Definition new (images : array_like) (defvals : defvals_like)
    (beam_energy : pyval) : outcome unit :=
  __init__ images defvals beam_energy blank.

(** ** Callers *)

(** What a caller may do with a dataset: call a stage method, assign to a
    property, or edit the transform record. *)
Inductive call : Type :=
| Preprocess (hotpix : bool) (median_filter_size : option Z) (fast : bool)
    (kw : kwargs)
| ApplyTransforms
| Filter (args : bandpass_args) (idx : index_like)
| ResetTransforms
| SelectROI (idx : Z) (image : option image)
| AssignImages (ims : array_like)
| AssignDefvals (dfs : defvals_like)
| AssignEnergy (val : pyval)
| AssignTransforms (t : transforms).

Definition run (c : call) : M unit :=
  match c with
  | Preprocess h m f kw => preprocess h m f kw
  | ApplyTransforms => apply_transforms
  | Filter args idx => filter args idx
  | ResetTransforms => reset_transforms
  | SelectROI idx image => select_ROI idx image
  | AssignImages ims => set_images ims
  | AssignDefvals dfs => set_defvals dfs
  | AssignEnergy val => set_energy val
  | AssignTransforms t => modify (set__transforms (Some t))
  end.

(** A caller that goes on after an exception, with the object as the
    failed call left it. *)
Fixpoint run_all (cs : list call) (d : dataset) : dataset :=
  match cs with
  | [] => d
  | c :: cs' => run_all cs' (final (run c d))
  end.

(** The stage methods among the calls. *)
Definition is_stage (c : call) : bool :=
  match c with
  | Preprocess _ _ _ _ | ApplyTransforms | Filter _ _ | ResetTransforms
  | SelectROI _ _ => true
  | _ => false
  end.

(** ** The arrays of the spec *)

Definition array_of (d : dataset) (c : option cache) : option ndarray :=
  match c with
  | Some (CArr l) => store d !! l
  | _ => None
  end.

(** Current View: the array behind [images]. *)
Definition CurrentView (d : dataset) : option ndarray :=
  match _images d with
  | Some l => store d !! l
  | None => None
  end.

(** Raw: the array behind [_orig_images]. *)
Definition Raw (d : dataset) : option ndarray :=
  match _orig_images d with
  | Some l => store d !! l
  | None => None
  end.

Definition Preprocessed (d : dataset) : option ndarray :=
  array_of d (_orig_images_preprocessed d).

Definition Cropped (d : dataset) : option ndarray :=
  array_of d (_images_cropped d).

Definition Filtered (d : dataset) : option ndarray :=
  array_of d (_images_filtered d).

(** The number of defocus values. *)
Definition n_defvals (d : dataset) : option nat :=
  match _defvals d with
  | Some (DvSeq l) => Some (length l)
  | _ => None
  end.

(** The number of images of an array. *)
Definition n_images (a : option ndarray) : option nat :=
  match a with
  | Some (Nd3 s) => Some (length s)
  | _ => None
  end.

(** ** The results the stages are to produce *)

(** Rotation (when the angle is not zero), then the crop. *)
Definition transformed (t : transforms) (s : stack) : stack :=
  map (crop t)
    (if negb (Qeq_bool (rotation t) 0%Q)
     then map (ndi_rotate (rotation t)) s
     else s).

(** Hot pixel removal and median filter, each if asked for. *)
Definition cleaned (hotpix : bool) (median_filter_size : option Z)
    (fast : bool) (kw : kwargs) (s : stack) : stack :=
  let s := if hotpix then map (filter_hotpix fast kw) s else s in
  match median_filter_size with
  | Some k => map (median_filter k) s
  | None => s
  end.

(** The cache the stage flags name as the one produced last. *)
Definition latest (d : dataset) : option ndarray :=
  match _filtered d, _cropped d, _preprocessed d with
  | Some true, _, _ => Filtered d
  | _, Some true, _ => Cropped d
  | _, _, Some true => Preprocessed d
  | _, _, _ => Raw d
  end.

(** The stack the transform stage starts from: Preprocessed when its
    flag is set, Raw otherwise. *)
Definition transform_base (d : dataset) : option ndarray :=
  match _preprocessed d with
  | Some true => Preprocessed d
  | _ => Raw d
  end.

(** The stack the filter stage reads: Cropped, Preprocessed or Raw, by the
    flags. *)
Definition filter_base (d : dataset) : option ndarray :=
  match _cropped d, _preprocessed d with
  | Some true, _ => Cropped d
  | _, Some true => Preprocessed d
  | _, _ => Raw d
  end.

(** The array the filter stage writes into: Filtered, or when that is
    [None] what [np.zeros_like(self._images_cropped)] gives. *)
Definition filter_target (d : dataset) : option ndarray :=
  match _images_filtered d with
  | Some CNone => Some (zeros_like (Cropped d))
  | _ => Filtered d
  end.

(** The indices [idx] stands for, in a dataset of [n] images. *)
Definition indices_of (n : nat) (idx : index_like) : exn + list Z :=
  match idx with
  | IdxNone => inr (map Z.of_nat (seq 0 n))
  | IdxInt i => inr [i]
  | IdxList l => inr l
  | IdxOther => inl TypeError
  end.

(** ** Frames *)

(** The attributes only [__init__] and the property setters assign. *)
Definition same_inputs (d d' : dataset) : Prop :=
  _defvals d' = _defvals d /\ _orig_images d' = _orig_images d /\
  _orig_shape d' = _orig_shape d /\ beam_energy d' = beam_energy d /\
  _beam_energy d' = _beam_energy d.

(** No array was assigned to in place: the store only got new arrays. *)
Definition grown (d d' : dataset) : Prop :=
  exists new, store d' = store d ++ new.

(** No array was assigned to in place but those behind [images] and
    [_images_filtered]. *)
Definition others_kept (d d' : dataset) : Prop :=
  forall l a,
    _images d <> Some l -> _images_filtered d <> Some (CArr l) ->
    store d !! l = Some a -> store d' !! l = Some a.

(** ** The state of a dataset that was constructed *)

Definition stack_at (n : nat) (d : dataset) (l : nat) : Prop :=
  exists s, store d !! l = Some (Nd3 s) /\ length s = n.

(** A cache that is only read: absent, or a stack of [n] images that is
    neither the array behind [images] nor the one behind
    [_images_filtered], the two arrays that are assigned to in place. *)
Definition frozen (n : nat) (d : dataset) (c : cache) : Prop :=
  match c with
  | CNone => True
  | CArr l =>
      stack_at n d l /\ _images d <> Some l /\
      _images_filtered d <> Some (CArr l)
  end.

(** What holds of a dataset of [n] images between two calls: every
    attribute of [__init__] is there, [images] and the caches are stacks
    of [n] images, there are [n] defocus values, a stage flag that is set
    has its cache, [_images_filtered] holds an array only when the filtered
    flag is set (the 0-dimensional array only while the cropped flag is
    not), and the arrays behind [images] and [_images_filtered] are shared
    with no other attribute. *)
Record inv (n : nat) (d : dataset) : Prop := {
  inv_images : exists l, _images d = Some l /\ stack_at n d l;
  inv_defvals : exists dv, _defvals d = Some (DvSeq dv) /\ length dv = n;
  inv_orig : exists l, _orig_images d = Some l /\ frozen n d (CArr l);
  inv_pre :
    exists b c, _preprocessed d = Some b /\
      _orig_images_preprocessed d = Some c /\ frozen n d c /\
      (b = true -> c <> CNone);
  inv_crop :
    exists b c, _cropped d = Some b /\
      _images_cropped d = Some c /\ frozen n d c /\
      (b = true -> c <> CNone);
  inv_filt :
    exists b c, _filtered d = Some b /\ _images_filtered d = Some c /\
      match c with
      | CNone => True
      | CArr l =>
          b = true /\
          (store d !! l = Some Nd0 /\ _cropped d = Some false \/
           stack_at n d l) /\
          _images d <> Some l
      end;
  inv_transforms : is_Some (_transforms d);
  inv_filters : is_Some (_filters d);
  inv_shape : is_Some (_orig_shape d)
}.

(** The dataset as it would be had the filter stage not run: the flag
    cleared, no Filtered cache. *)
Definition unfiltered (d : dataset) : dataset :=
  set__images_filtered (Some CNone) (set__filtered (Some false) d).

(** What one call, failed or not, leaves of the dataset: the invariant,
    the reference to Raw, and every array but the two that are assigned
    to in place. *)
Definition kept_by (n : nat) (d d' : dataset) : Prop :=
  inv n d' /\ _orig_images d' = _orig_images d /\ others_kept d d'.

(** The datasets a caller can hold: constructed, then used. *)
Definition reachable (d : dataset) : Prop :=
  exists ims dfs e d0 cs, new ims dfs e = Ret tt d0 /\ d = run_all cs d0.

(** The calls that run the transform stage, and the assignment to
    [images]. *)
Definition is_transform (c : call) : bool :=
  match c with
  | Preprocess _ _ _ _ | ApplyTransforms | ResetTransforms => true
  | _ => false
  end.

Definition assigns_images (c : call) : bool :=
  match c with
  | AssignImages _ => true
  | _ => false
  end.

(** The datasets whose Current View is the work of the stages: the
    transform stage has run, and the caller has not assigned [images]
    since. The array behind [images] then has the spatial shape of
    Cropped, which is what numpy asks of the assignment
    [self.images[indices] = filtered_ims]. *)
Definition settled (d : dataset) : Prop :=
  exists d0 c cs,
    reachable d0 /\ is_transform c = true /\
    forallb (fun c' => negb (assigns_images c')) cs = true /\
    d = run_all (c :: cs) d0.

(** ** More of the class, and of what the stages produce *)

(** [image] (property), lines 164-166, under the name [image_] since
    [image] is the type of images here. A property is read without
    arguments, so [idx] is always its default and the value is
    [self.images[0]]. *)
Definition image_ : M image :=
  l <- images ;;
  a <- deref l ;;
  lift (getitem a 0).

(** The pixel in row [i] and column [j] of an image. *)
Definition pixel (im : image) (i j : nat) : option px :=
  im !! i ≫= (.!! j).

(** The image [apply_transforms] crops: rotated when the angle is not
    zero (lines 243-245). *)
Definition rotated (t : transforms) (im : image) : image :=
  if negb (Qeq_bool (rotation t) 0%Q) then ndi_rotate (rotation t) im
  else im.

(** What slot [k] of an array that held [old] holds after [filter] with
    the arguments [a] over the indices [ks], [crop] being the stack the
    stage reads. *)
Definition slot_after (a : bandpass_args) (crop : stack) (ks : list nat)
    (old : stack) (k : nat) : option image :=
  if decide (k ∈ ks)
  then Some (_bandpass_filter (default [] (crop !! k)) a)
  else old !! k.

End Model.

Arguments Ret {E A} a d.
Arguments Raise {E A} e d.

Abbreviation image := (list (list px)) (only parsing).
Abbreviation stack := (list (list (list px))) (only parsing).

Notation "x <- m ;; k" := (bind m (fun x => k))
  (at level 100, m at next level, right associativity).
Notation "m ;; k" := (bind m (fun _ => k))
  (at level 100, right associativity).

(** ** The loader *)

(** The values of a metadata dictionary and of keyword arguments. *)
Inductive pyobj : Type :=
| ONone
| OBool (b : bool)
| OInt (z : Z)
| OFloat (q : Q)
| OStr (s : string)
| ONums (l : list Q)
| OStrs (l : list string).

(** A [dict] with string keys. *)
Abbreviation pydict := (gmap string pyobj).

(** [m.get(k)] and [m.get(k, default)] *)
Definition get (m : pydict) (k : string) : pyobj := default ONone (m !! k).

Definition get_or (m : pydict) (k : string) (dflt : pyobj) : pyobj :=
  default dflt (m !! k).

(** [kwargs.pop(k, default)]: the value, and the dictionary without [k]. *)
Definition pop (kwargs : pydict) (k : string) (dflt : pyobj)
  : pyobj * pydict :=
  (default dflt (kwargs !! k), delete k kwargs).

(** [a | b]: the keys of both, the values of [b] where both have one. *)
Definition dict_or (a b : pydict) : pydict := b ∪ a.

(** What [load] raises: an exception of the classes above, or
    [NotImplementedError]. *)
Inductive load_error : Type :=
| Builtin (e : exn)
| NotImplementedError.

(** What the caller passes for [metadata]: [None], a dictionary, a path,
    or an object of another type. *)
Inductive metadata_arg : Type :=
| MetaNone
| MetaDict (m : pydict)
| MetaPath (p : string)
| MetaOther.

(** The names [load] takes out of [kwargs], and [verbose], the one
    parameter of [__init__] it does not give by name. *)
Definition keywords : list string :=
  ["defvals"; "scale"; "beam_energy"; "data_files"; "simulated";
   "verbose"]%string.

(** The keywords [load] may pass on to [__init__] with [**kwargs]: the
    other parameters of [__init__] are given by name in the call, so any
    key but [verbose] makes the call a [TypeError]. *)
Definition passes_on (kwargs : pydict) : bool :=
  bool_decide (delete "verbose"%string kwargs = ∅).

(** The value an argument gets: the keyword, else the metadata given,
    else the metadata of the file. *)
Definition resolved (kwargs given file : pydict) (kw key : string)
    (dflt : pyobj) : pyobj :=
  match kwargs !! kw with
  | Some v => v
  | None =>
      match given !! key with
      | Some v => v
      | None => default dflt (file !! key)
      end
  end.

(** The [data_files] argument: the keyword, else [data_files] of the
    metadata, else its [filepath]. *)
Definition resolved_files (kwargs mdata : pydict) : pyobj :=
  match kwargs !! "data_files"%string with
  | Some v => v
  | None =>
      match mdata !! "data_files"%string with
      | Some v => v
      | None => get mdata "filepath"
      end
  end.

(** The defocus values and the beam energy as [__init__] takes them; a
    string or a list of strings is not a value of the model. *)
Definition as_defvals (v : pyobj) : option defvals_like :=
  match v with
  | ONone => Some DvNone
  | OBool b => Some (DvNum (if b then 1%Q else 0%Q))
  | OInt z => Some (DvNum (inject_Z z))
  | OFloat q => Some (DvNum q)
  | ONums l => Some (DvSeq l)
  | OStr _ | OStrs _ => None
  end.

Definition as_pyval (v : pyobj) : option pyval :=
  match v with
  | ONone => Some PyNone
  | OBool b => Some (PyBool b)
  | OInt z => Some (PyInt z)
  | OFloat q => Some (PyFloat q)
  | OStr s => Some (PyStr s)
  | ONums _ | OStrs _ => None
  end.

Definition and_then {A B : Type} (r : load_error + A)
    (k : A -> load_error + B) : load_error + B :=
  match r with
  | inl e => inl e
  | inr a => k a
  end.

Definition builtin {A : Type} (r : exn + A) : load_error + A :=
  match r with
  | inl e => inl (Builtin e)
  | inr a => inr a
  end.

Section Loader.
Context {E : Externals}.

(** What the caller passes for [images]: an array (or a list of arrays),
    a list of paths, or one path. *)
Inductive images_arg : Type :=
| ImagesArray (a : array_like)
| ImagesPaths (ps : list string)
| ImagesPath (p : string).

(** The readers [load] calls, none of them part of the module:
    [BaseDataset._parse_mdata], and [read_image] and [read_json] of
    [PyLorentz.io]. *)
Class Readers : Type := {
  _parse_mdata : metadata_arg -> exn + pydict;
  read_image : string -> exn + (array_like * pydict);
  read_json : string -> exn + pydict
}.

Context {R : Readers}.

(** The arguments [load] calls the class with. *)
Record init_args : Type := {
  arg_images : array_like;
  arg_scale : pyobj;
  arg_defvals : pyobj;
  arg_beam_energy : pyobj;
  arg_data_files : pyobj;
  arg_simulated : pyobj;
  arg_verbose : option pyobj
}.

(** Lines 104-107 (and again 115-118):
    [mdata = cls._parse_mdata(metadata)] unless [metadata] is [None]. *)
Definition parsed (metadata : metadata_arg) : load_error + pydict :=
  match metadata with
  | MetaNone => inr ∅
  | _ => builtin (_parse_mdata metadata)
  end.

(** [images[0]] of an array is there unless the array is empty. *)
Definition has_first_item (a : array_like) : bool :=
  match a with
  | Img [] | Stack [] => false
  | _ => true
  end.

(** Lines 109-129: the images and the metadata [load] goes on with. *)
Definition resolve (images : images_arg) (metadata : metadata_arg)
  : load_error + (array_like * pydict) :=
  match images with
  | ImagesArray a =>
      if has_first_item a
      then and_then (parsed metadata) (fun mdata => inr (a, mdata))
      else inl (Builtin IndexError)
  | ImagesPaths [] => inl (Builtin IndexError)
  | ImagesPaths (_ :: _) => inl NotImplementedError
  | ImagesPath p =>
      and_then (builtin (read_image p)) (fun '(a, mdata) =>
        match metadata with
        | MetaNone => inr (a, mdata)
        | MetaDict mdata_l => inr (a, dict_or mdata mdata_l)
        | MetaPath q =>
            and_then (builtin (read_json q)) (fun mdata_l =>
              inr (a, dict_or mdata mdata_l))
        | MetaOther => inl (Builtin ValueError)
        end)
  end.

(** [load(images, metadata, **kwargs)], lines 88-146, up to the call of
    the class: the arguments of that call. *)
Definition load (images : images_arg) (metadata : metadata_arg)
    (kwargs : pydict) : load_error + init_args :=
  and_then (parsed metadata) (fun _ =>
  and_then (resolve images metadata) (fun '(images, mdata) =>
    let '(defvals, kwargs) :=
      pop kwargs "defvals" (get mdata "defocus_values") in
    match defvals with
    | ONone => inl (Builtin ValueError)
    | _ =>
        let filepaths := get_or mdata "data_files" (get mdata "filepath") in
        let '(scale, kwargs) := pop kwargs "scale" (get mdata "scale") in
        let '(beam_energy, kwargs) :=
          pop kwargs "beam_energy" (get mdata "beam_energy") in
        let '(data_files, kwargs) := pop kwargs "data_files" filepaths in
        let '(simulated, kwargs) :=
          pop kwargs "simulated" (get_or mdata "simulated" (OBool false)) in
        if passes_on kwargs
        then inr {| arg_images := images; arg_scale := scale;
                    arg_defvals := defvals; arg_beam_energy := beam_energy;
                    arg_data_files := data_files;
                    arg_simulated := simulated;
                    arg_verbose := kwargs !! "verbose"%string |}
        else inl (Builtin TypeError)
    end)).

(** The call of the class with the arguments of [load]: [__init__] on a
    new object. *)
Definition construct (a : init_args) : option (outcome unit) :=
  dfs ← as_defvals (arg_defvals a);
  e ← as_pyval (arg_beam_energy a);
  Some (new (arg_images a) dfs e).

End Loader.

(** ** A concrete set of collaborators, to run the model on *)

(** Integer pixels; the bandpass filter adds 1 to every pixel, the hot
    pixel filter doubles them, the median filter adds its size, rotation
    reverses the rows, and the ROI primitive leaves the rectangle alone. *)
Definition Demo : Externals :=
  {| px := Z;
     zero := 0;
     ndi_rotate := fun _ im => rev im;
     kwargs := unit;
     filter_hotpix := fun _ _ im => map (map (Z.mul 2)) im;
     median_filter := fun k im => map (map (Z.add k)) im;
     _bandpass_filter := fun im _ => map (map (Z.add 1)) im;
     _select_ROI := fun _ t => t;
     base_filters :=
       {| hotpix := false; median := None; q_lowpass := None;
          q_highpass := None; filter_type := EmptyString;
          butterworth_order := 0 |} |}.

(** Three 2x2 images and the arguments of the spec's scenario. *)
Definition demo_stack : list (list (list (@px Demo))) :=
  [ [[1; 2]; [3; 4]]; [[5; 6]; [7; 8]]; [[9; 10]; [11; 12]] ].

Definition demo_args : bandpass_args :=
  {| bp_lowpass := Some (1 # 10)%Q; bp_highpass := None;
     bp_type := "butterworth"%string; bp_order := 2 |}.

(** The defocus values of the scenario, and one value short. *)
Definition demo_defvals : defvals_like :=
  DvSeq [(-10 # 1)%Q; 0%Q; (10 # 1)%Q].

Definition demo_defvals_short : defvals_like :=
  DvSeq [(-10 # 1)%Q; 0%Q].

(** The dataset of the scenario as [__init__] leaves it, and after
    [apply_transforms()]. *)
Definition demo_new : @dataset Demo :=
  Eval vm_compute in
    final (new (E := Demo) (Stack demo_stack) demo_defvals PyNone).

Definition demo_cropped : @dataset Demo :=
  Eval vm_compute in final (apply_transforms (E := Demo) demo_new).

(** A few calls of every kind, one of them failing (two images for three
    defocus values). *)
Definition demo_calls : list (@call Demo) :=
  [ @Preprocess Demo true (Some 3) false tt;
    Filter demo_args (IdxInt 1);
    AssignImages (Stack (take 2 demo_stack));
    AssignTransforms
      {| rotation := (90 # 1)%Q; top := 0; bottom := 1; left := 0;
         right := 2 |};
    ApplyTransforms;
    SelectROI 0 None;
    ResetTransforms ].

(** The scenario after [apply_transforms()] and [filter] over all
    indices; the options it has recorded; and a crop to the upper row
    after a rotation. *)
Definition demo_filtered : @dataset Demo :=
  Eval vm_compute in
    run_all [ApplyTransforms; Filter demo_args IdxNone] demo_new.

Definition demo_filters : filters :=
  Eval vm_compute in record_bandpass demo_args (@base_filters Demo).

Definition demo_transforms : transforms :=
  {| rotation := (90 # 1)%Q; top := 0; bottom := 1; left := 0; right := 2 |}.

(** The scenario after [apply_transforms()] and [filter] on the image of
    index 1 alone. *)
Definition demo_subset : @dataset Demo :=
  Eval vm_compute in final (filter demo_args (IdxInt 1) demo_cropped).

(** What the constructor leaves of the object when it is given three
    images and two defocus values. *)
Definition demo_failed : @dataset Demo :=
  Eval vm_compute in
    final (new (E := Demo) (Stack demo_stack) demo_defvals_short PyNone).

(** What [filter] on the image of index 1 leaves of the dataset as
    constructed. *)
Definition demo_slipped : @dataset Demo :=
  Eval vm_compute in final (filter demo_args (IdxInt 1) demo_new).

(** The scenario with a rectangle of one row after a rotation; with a
    rectangle without rows; and other filter arguments. *)
Definition demo_roi : @dataset Demo :=
  Eval vm_compute in run_all [AssignTransforms demo_transforms] demo_new.

Definition demo_no_rows : transforms :=
  {| rotation := 0%Q; top := 1; bottom := 1; left := 0; right := 2 |}.

Definition demo_flat : @dataset Demo :=
  Eval vm_compute in run_all [AssignTransforms demo_no_rows] demo_new.

Definition demo_args_2 : bandpass_args :=
  {| bp_lowpass := None; bp_highpass := Some (1 # 100)%Q;
     bp_type := "gaussian"%string; bp_order := 2 |}.

(** An image file with its own metadata, a metadata dictionary and
    keyword arguments for [load]; readers that find the file under every
    path and take a dictionary as it is. *)
Definition demo_file_metadata : pydict :=
  <["defocus_values"%string := ONums [(-10 # 1)%Q; 0%Q; (10 # 1)%Q]]>
    (<["scale"%string := OFloat (5 # 1)%Q]>
       (<["filepath"%string := OStr "stack.tif"]>
          (<["beam_energy"%string := OInt 200000]> ∅))).

Definition demo_metadata : pydict :=
  <["scale"%string := OFloat (2 # 1)%Q]>
    (<["simulated"%string := OBool true]> ∅).

Definition demo_kwargs : pydict :=
  <["beam_energy"%string := OInt 300000]>
    (<["verbose"%string := OInt 0]> ∅).

Definition DemoReaders : @Readers Demo :=
  {| _parse_mdata := fun m =>
       match m with
       | MetaNone => inr ∅
       | MetaDict m => inr m
       | MetaPath _ => inr demo_metadata
       | MetaOther => inl TypeError
       end;
     read_image := fun _ => inr (Stack demo_stack, demo_file_metadata);
     read_json := fun _ => inr demo_metadata |}.

(** What [load] calls the class with on these. *)
Definition demo_loaded : @init_args Demo :=
  {| arg_images := Stack demo_stack;
     arg_scale := OFloat (2 # 1)%Q;
     arg_defvals := ONums [(-10 # 1)%Q; 0%Q; (10 # 1)%Q];
     arg_beam_energy := OInt 300000;
     arg_data_files := OStr "stack.tif";
     arg_simulated := OBool true;
     arg_verbose := Some (OInt 0) |}.

(** * Proofs *)

Section Proofs.
Context {E : Externals}.

(** *** Indices and in-place assignment *)

Lemma length_put (s : stack) (ks : list nat) (vs : stack) :
  length (put s ks vs) = length s.
Proof.
  revert s vs. induction ks as [|k ks IH]; intros s [|v vs]; cbn;
    try reflexivity.
  rewrite IH. apply length_insert.
Qed.

(** A slot that is not among the indices keeps its image. *)
Lemma put_lookup_notin (s : stack) (ks : list nat) (vs : stack) (k : nat) :
  k ∉ ks -> put s ks vs !! k = s !! k.
Proof.
  revert s vs. induction ks as [|a ks IH]; intros s [|v vs] Hk; cbn;
    try reflexivity.
  apply not_elem_of_cons in Hk as [Hne Hk].
  rewrite IH by assumption. apply list_lookup_insert_ne. congruence.
Qed.

(** A slot among the indices gets the image computed for it, also when
    the index is listed more than once. *)
Lemma put_lookup_in (g : nat -> list (list px)) (s : stack) (ks : list nat)
    (k : nat) :
  Forall (fun i => (i < length s)%nat) ks -> k ∈ ks ->
  put s ks (map g ks) !! k = Some (g k).
Proof.
  revert s. induction ks as [|a ks IH]; intros s Hlt Hk.
  - by apply elem_of_nil in Hk.
  - apply Forall_cons in Hlt as [Ha Hlt]. cbn.
    destruct (decide (k ∈ ks)) as [Hin|Hnin].
    + apply IH; [|assumption]. by rewrite length_insert.
    + apply elem_of_cons in Hk as [->|Hk]; [|contradiction].
      rewrite put_lookup_notin by assumption.
      by apply list_lookup_insert_eq.
Qed.

(** The comparisons of [norm_index], decided. *)
Ltac zcases :=
  repeat match goal with
  | |- context [Z.leb ?a ?b] => destruct (Z.leb_spec a b)
  | |- context [Z.ltb ?a ?b] => destruct (Z.ltb_spec a b)
  end; cbn [andb].

Lemma norm_index_lt (n : nat) (i : Z) (k : nat) :
  norm_index n i = inr k -> (k < n)%nat.
Proof. unfold norm_index. zcases; intros ?; simplify_eq; lia. Qed.

Lemma norm_indices_lt (n : nat) (ix : list Z) (ks : list nat) :
  norm_indices n ix = inr ks -> Forall (fun k => (k < n)%nat) ks.
Proof.
  revert ks. induction ix as [|i ix IH]; intros ks H; cbn in H.
  - simplify_eq. constructor.
  - destruct (norm_index n i) as [e|k] eqn:Hk; [discriminate|].
    destruct (norm_indices n ix) as [e|ks'] eqn:Hks; [discriminate|].
    simplify_eq. constructor; [by eapply norm_index_lt|by apply IH].
Qed.

Lemma norm_index_nat (n k : nat) :
  (k < n)%nat -> norm_index n (Z.of_nat k) = inr k.
Proof.
  intros Hk. unfold norm_index. zcases; try lia. by rewrite Nat2Z.id.
Qed.

Lemma norm_indices_seq_from (n a len : nat) :
  (a + len <= n)%nat ->
  norm_indices n (map Z.of_nat (seq a len)) = inr (seq a len).
Proof.
  revert a. induction len as [|len IH]; intros a Hle; cbn; [reflexivity|].
  rewrite norm_index_nat by lia. rewrite IH by lia. reflexivity.
Qed.

(** [np.arange(n)] indexes every image once, in order. *)
Lemma norm_indices_seq (n : nat) :
  norm_indices n (map Z.of_nat (seq 0 n)) = inr (seq 0 n).
Proof. apply norm_indices_seq_from. lia. Qed.

Lemma selected_seq (s : stack) : selected s (seq 0 (length s)) = s.
Proof.
  unfold selected. apply list_eq. intros k.
  rewrite list_lookup_fmap.
  destruct (decide (k < length s)%nat) as [Hk|Hk].
  - rewrite lookup_seq_lt by assumption. cbn.
    destruct (lookup_lt_is_Some_2 s k Hk) as [x Hx]. by rewrite Hx.
  - rewrite lookup_seq_ge by lia. cbn. symmetry. apply lookup_ge_None. lia.
Qed.

(** Assignment at every index replaces the whole stack. *)
Lemma put_seq (s vs : stack) :
  length vs = length s -> put s (seq 0 (length s)) vs = vs.
Proof.
  intros Hlen.
  assert (Hvs : vs = map (fun k => default [] (vs !! k)) (seq 0 (length s))).
  { rewrite <- Hlen. symmetry. apply (selected_seq vs). }
  rewrite Hvs at 1. apply list_eq. intros k.
  destruct (decide (k < length s)%nat) as [Hk|Hk].
  - rewrite put_lookup_in.
    + destruct (lookup_lt_is_Some_2 vs k) as [x Hx]; [lia|]. by rewrite Hx.
    + apply Forall_forall. intros i Hi. apply elem_of_seq in Hi. lia.
    + apply elem_of_seq. lia.
  - rewrite put_lookup_notin.
    + rewrite !lookup_ge_None_2 by lia. reflexivity.
    + intros Hi. apply elem_of_seq in Hi. lia.
Qed.

Lemma bandpassed_selected (a : bandpass_args) (s : stack) (ks : list nat) :
  bandpassed a (selected s ks) =
  map (fun k => _bandpass_filter (default [] (s !! k)) a) ks.
Proof. unfold bandpassed, selected. by rewrite map_map. Qed.

Lemma length_bandpassed (a : bandpass_args) (s : stack) :
  length (bandpassed a s) = length s.
Proof. apply length_map. Qed.

(** *** Running the model by rewriting *)

Lemma bind_bind {A B C : Type} (m : M A) (k : A -> M B) (k' : B -> M C)
    (d : dataset) :
  bind (bind m k) k' d = bind m (fun a => bind (k a) k') d.
Proof. unfold bind. destruct (m d); reflexivity. Qed.

Lemma bind_ret {A B : Type} (a : A) (k : A -> M B) (d : dataset) :
  bind (ret a) k d = k a d.
Proof. reflexivity. Qed.

Lemma bind_raise {A B : Type} (e : exn) (k : A -> M B) (d : dataset) :
  bind (raise e) k d = Raise e d.
Proof. reflexivity. Qed.

Lemma bind_modify {B : Type} (g : dataset -> dataset) (k : unit -> M B)
    (d : dataset) :
  bind (modify g) k d = k tt (g d).
Proof. reflexivity. Qed.

Lemma bind_attr {A B : Type} (f : dataset -> option A) (k : A -> M B)
    (d : dataset) :
  bind (attr f) k d =
  match f d with Some a => k a d | None => Raise AttributeError d end.
Proof. unfold bind, attr. destruct (f d); reflexivity. Qed.

Lemma bind_hasattr {A B : Type} (f : dataset -> option A) (k : bool -> M B)
    (d : dataset) :
  bind (hasattr f) k d =
  match f d with Some _ => k true d | None => k false d end.
Proof. unfold bind, hasattr. destruct (f d); reflexivity. Qed.

Lemma bind_lift {A B : Type} (r : exn + A) (k : A -> M B) (d : dataset) :
  bind (lift r) k d =
  match r with inl e => Raise e d | inr a => k a d end.
Proof. unfold bind, lift. destruct r; reflexivity. Qed.

Lemma bind_alloc {B : Type} (a : ndarray) (k : nat -> M B) (d : dataset) :
  bind (alloc a) k d =
  k (length (store d)) (set_store (store d ++ [a]) d).
Proof. reflexivity. Qed.

Lemma bind_deref {B : Type} (l : nat) (k : ndarray -> M B) (d : dataset) :
  bind (deref l) k d = k (default Nd0 (store d !! l)) d.
Proof. reflexivity. Qed.

Lemma bind_update {B : Type} (l : nat) (f : ndarray -> ndarray)
    (k : unit -> M B) (d : dataset) :
  bind (update l f) k d = k tt (set_store (alter f l (store d)) d).
Proof. reflexivity. Qed.

Lemma bind_ret_r {A : Type} (m : M A) (d : dataset) : m d = bind m ret d.
Proof. unfold bind, ret. destruct (m d); reflexivity. Qed.

(** Assignment in place to the array that was allocated last. *)
Lemma alter_last (f : ndarray -> ndarray) (S : list ndarray) (a : ndarray) :
  alter f (length S) (S ++ [a]) = S ++ [f a].
Proof.
  rewrite alter_app_r_alt by lia. by rewrite Nat.sub_diag.
Qed.

Lemma promote_defvals_idem (dfs : defvals_like) :
  promote_defvals (promote_defvals dfs) = promote_defvals dfs.
Proof. destruct dfs; reflexivity. Qed.

(** Attribute reads on a state that is given by its fields, and the
    operations on values that are given by their constructor. *)
Ltac fields :=
  cbn [set_store set__images set__defvals set__orig_images set__orig_shape
       set__orig_images_preprocessed set__images_cropped
       set__images_filtered set_beam_energy set__beam_energy
       set__preprocessed set__cropped set__filtered set__transforms
       set__filters set__transforms_modified
       store _images _defvals _orig_images _orig_shape
       _orig_images_preprocessed _images_cropped _images_filtered
       beam_energy _beam_energy _preprocessed _cropped _filtered
       _transforms _filters _transforms_modified final
       promote promote_defvals py_len as_stack len_defvals zeros_like
       negb].

(** The same in the hypotheses. *)
Ltac fields_all :=
  cbn [set_store set__images set__defvals set__orig_images set__orig_shape
       set__orig_images_preprocessed set__images_cropped
       set__images_filtered set_beam_energy set__beam_energy
       set__preprocessed set__cropped set__filtered set__transforms
       set__filters set__transforms_modified
       store _images _defvals _orig_images _orig_shape
       _orig_images_preprocessed _images_cropped _images_filtered
       beam_energy _beam_energy _preprocessed _cropped _filtered
       _transforms _filters _transforms_modified final
       promote py_len as_stack len_defvals zeros_like negb] in *.

(** The methods as chains of [bind]. *)
Ltac methods :=
  unfold new, run, __init__, BaseDataset__init__, reset_transforms,
    _reset_transforms, preprocess, view_from_raw, preprocess_view,
    apply_transforms, filter, select_ROI,
    set_images, set_defvals, set_energy, __len__, energy, images, defvals,
    setitem, deref_cache.

(** One step of the method at the head of the goal. *)
Ltac step :=
  first
    [ rewrite bind_bind
    | rewrite bind_ret
    | rewrite bind_raise
    | rewrite bind_modify
    | rewrite bind_attr
    | rewrite bind_hasattr
    | rewrite bind_lift
    | rewrite bind_alloc
    | rewrite bind_deref
    | rewrite bind_update ];
  fields; rewrite ?promote_defvals_idem, ?alter_last.

(** *** Arrays in the store *)

Lemma default_lookup (S : list ndarray) (l : nat) (a : ndarray) :
  S !! l = Some a -> default Nd0 (S !! l) = a.
Proof. intros ->. reflexivity. Qed.

Lemma lookup_alter_Some (f : ndarray -> ndarray) (S : list ndarray)
    (i : nat) (a b : ndarray) :
  S !! i = Some a -> b = f a -> alter f i S !! i = Some b.
Proof. intros H ->. rewrite list_lookup_alter_eq, H. reflexivity. Qed.

Lemma lookup_alter_ne_Some (f : ndarray -> ndarray) (S : list ndarray)
    (i j : nat) (a : ndarray) :
  i <> j -> S !! j = Some a -> alter f i S !! j = Some a.
Proof. intros Hne H. rewrite list_lookup_alter_ne; done. Qed.

(** Two references are not the same number. *)
Ltac neq :=
  let H := fresh in
  intros H;
  rewrite ?length_app in *; cbn [length] in *;
  first [lia | congruence].

(** A lookup in a store that grew by allocation and whose arrays were
    assigned to in place. *)
Ltac lk :=
  first
    [ eassumption
    | reflexivity
    | apply list_lookup_middle; reflexivity
    | apply lookup_app_l_Some; lk
    | eapply lookup_alter_Some; [lk | reflexivity]
    | apply lookup_alter_ne_Some; [neq | lk] ].

Ltac lookups := repeat (erewrite default_lookup by lk).

(** Steps, as far as the data at hand decides them. *)
Ltac go := repeat first [step | progress lookups; fields | progress fields].

(** The state as one record. *)
Ltac flat :=
  cbv beta iota zeta delta
      [set_store set__images set__defvals set__orig_images set__orig_shape
       set__orig_images_preprocessed set__images_cropped
       set__images_filtered set_beam_energy set__beam_energy
       set__preprocessed set__cropped set__filtered set__transforms
       set__filters set__transforms_modified
       store _images _defvals _orig_images _orig_shape
       _orig_images_preprocessed _images_cropped _images_filtered
       beam_energy _beam_energy _preprocessed _cropped _filtered
       _transforms _filters _transforms_modified].

(** The invariant, opened: the state by its fields, [images] and Raw by
    name and with their bounds; the caches stay as they are. *)
Ltac inv_open H d :=
  destruct H as
    [(li & Hli & v & Hv & Hvn) (dv & Hdv & Hdvn)
     (lo & Hlo & (raw & Hraw & Hrawn) & Hlo_i & Hlo_f)
     (pre & cp & Hbp & Hcp & Hpre & Hpre_flag)
     (crp & cc & Hbc & Hcc & Hcrop & Hcrop_flag)
     (flt & cf & Hbf & Hcf & Hfilt)
     [tr Htr] [fi Hfi] [shp Hshp]];
  destruct d as [st ? ? ? ? ? ? ? ? be ? ? ? ? ? ?];
  unfold frozen, stack_at in *;
  cbn [store _images _defvals _orig_images _orig_shape
       _orig_images_preprocessed _images_cropped _images_filtered
       beam_energy _beam_energy _preprocessed _cropped _filtered
       _transforms _filters _transforms_modified] in *;
  subst;
  pose proof (lookup_lt_Some _ _ _ Hv) as Hli_lt;
  pose proof (lookup_lt_Some _ _ _ Hraw) as Hlo_lt.

(** What the invariant says of a cache, once it is known to be there or
    not. *)
Ltac cache_facts :=
  cbv beta iota in *;
  repeat match goal with
  | H : (exists s, _ !! _ = Some (Nd3 s) /\ _) /\ _ /\ _ |- _ =>
      let s := fresh "s" in
      let Hs := fresh "Hs" in
      let Hn := fresh "Hn" in
      let Hi := fresh "Hi" in
      let Hf := fresh "Hf" in
      destruct H as ((s & Hs & Hn) & Hi & Hf);
      pose proof (lookup_lt_Some _ _ _ Hs)
  | H : _ = true /\
        (_ !! _ = Some Nd0 /\ _ \/ exists s, _ !! _ = Some (Nd3 s) /\ _) /\
        _
    |- _ =>
      let s := fresh "s" in
      let Hs := fresh "Hs" in
      let Hn := fresh "Hn" in
      let Hi := fresh "Hi" in
      let Hb := fresh "Hb" in
      let Hc := fresh "Hc" in
      destruct H as (Hb & [(Hs & Hc)|(s & Hs & Hn)] & Hi);
      pose proof (lookup_lt_Some _ _ _ Hs)
  end;
  simplify_eq.

(** Case analysis on a cache. *)
Ltac cache c := destruct c as [|?l]; cache_facts.

(** A cache whose flag is set is there. *)
Ltac known c Hflag := cache c; try (exfalso; by apply Hflag).

(** Two references differ: one is older than the other, or the invariant
    keeps them apart. *)
Ltac refs :=
  first
    [ assumption
    | congruence
    | let H := fresh in
      intros H; simplify_eq; cache_facts;
      rewrite ?length_app in *; cbn [length] in *;
      first [lia | congruence] ].

(** A reference points to a stack of the right length. *)
Ltac points :=
  eexists; split;
  [lk | rewrite ?length_put, ?length_bandpassed, ?length_map; cbn [length];
        first [lia | congruence | reflexivity]].

(** What the invariant asks of a cache: of one that was kept, it follows
    from what was known of it. *)
Ltac frozen_solve :=
  match goal with
  | |- match ?c with CNone => _ | CArr _ => _ end => is_var c; cache c
  | |- _ => idtac
  end;
  first
    [ exact I
    | split; [points | split; refs]
    | split;
      [ first [reflexivity | congruence]
      | split;
        [ first [left; split; [lk | first [reflexivity | congruence]]
                | right; points]
        | refs] ] ].

(** The invariant of a state given by its fields. *)
Ltac inv_parts :=
  flat; split; unfold frozen, stack_at; fields;
  [ eexists; split; [reflexivity | points]
  | eexists; split;
      [reflexivity | cbn [length]; first [lia | congruence | reflexivity]]
  | eexists; split; [reflexivity | frozen_solve]
  | do 2 eexists; split; [reflexivity | split; [reflexivity | split;
      [frozen_solve | done]]]
  | do 2 eexists; split; [reflexivity | split; [reflexivity | split;
      [frozen_solve | done]]]
  | do 2 eexists; split; [reflexivity | split; [reflexivity | frozen_solve]]
  | eexists; reflexivity
  | eexists; reflexivity
  | eexists; reflexivity ].

Ltac inv_solve := solve [inv_parts].

(** The length test of the [images] setter, when the lengths agree. *)
Ltac len_test :=
  match goal with
  | |- context [Nat.eqb ?a ?b] =>
      replace (Nat.eqb a b) with true
        by (symmetry; apply Nat.eqb_eq;
            rewrite ?length_bandpassed, ?length_map; lia)
  end.

(** An array that is not assigned to in place is still there. *)
Ltac kept :=
  let Hk := fresh in
  intros ? ? ? ? Hk; pose proof (lookup_lt_Some _ _ _ Hk); lk.

(** The store only grew. *)
Ltac grow :=
  first
    [ eexists; rewrite <- ?app_assoc; reflexivity
    | exists []; symmetry; apply app_nil_r ].

(** What a state given by its fields has in its arrays. *)
Ltac arrays :=
  unfold transform_base, filter_base, filter_target, latest, n_defvals,
    n_images in *;
  unfold CurrentView, Raw, Preprocessed, Cropped, Filtered, array_of in *;
  cbn [store _images _defvals _orig_images _orig_shape
       _orig_images_preprocessed _images_cropped _images_filtered
       beam_energy _beam_energy _preprocessed _cropped _filtered
       _transforms _filters _transforms_modified] in *.

Lemma apply_transforms_spec (n : nat) (d : dataset) (t : transforms)
    (f : filters) (bf : bool) (base : stack) :
  inv n d ->
  _transforms d = Some t -> _filters d = Some f ->
  _filtered d = Some bf -> transform_base d = Some (Nd3 base) ->
  exists d',
    apply_transforms d = Ret tt d' /\ inv n d' /\
    same_inputs d d' /\ grown d d' /\
    _orig_images_preprocessed d' = _orig_images_preprocessed d /\
    _preprocessed d' = _preprocessed d /\
    _filtered d' = Some bf /\ _filters d' = Some f /\
    _transforms d' = Some t /\ _cropped d' = Some true /\
    Cropped d' = Some (Nd3 (transformed t base)) /\
    CurrentView d' =
      Some (Nd3 (if bf then bandpassed (recorded f) (transformed t base)
                 else transformed t base)) /\
    if bf
    then Filtered d' =
           Some (Nd3 (bandpassed (recorded f) (transformed t base)))
    else _images_filtered d' = _images_filtered d.
Proof.
  intros H Et Ef Ebf Ebase. inv_open H d. arrays. simplify_eq.
  unfold transformed.
  methods; rewrite bind_ret_r; repeat step.
  destruct pre; [known cp Hpre_flag|].
  all: simplify_eq.
  all: repeat step; lookups.
  all: destruct (negb (Qeq_bool (rotation t) 0)); repeat step.
  all: destruct bf; repeat step.
  all: len_test; repeat step.
  all: unfold ret; (eexists; split; [reflexivity|]).
  all: split; [inv_solve|].
  all: unfold same_inputs, grown; arrays; flat.
  all: repeat split; try reflexivity.
  all: solve [lk | grow].
Qed.

(** *** The property setters *)

Lemma set_images_atomic (ims : array_like) (d d' : dataset) (e : exn) :
  set_images ims d = Raise e d' -> d' = d.
Proof.
  destruct d as [st im [dfs|] oi os op ic ifl be' be pre crp flt tr fi tm].
  all: methods; rewrite bind_ret_r; repeat step; try discriminate.
  destruct (len_defvals dfs) as [e'|m]; repeat step; [congruence|].
  destruct (negb (length (promote ims) =? m)%nat); repeat step;
    [congruence|discriminate].
Qed.

Lemma set_defvals_atomic (dfs : defvals_like) (d d' : dataset) (e : exn) :
  set_defvals dfs d = Raise e d' -> d' = d.
Proof.
  destruct d as [st [l|] dv oi os op ic ifl be' be pre crp flt tr fi tm].
  all: methods; rewrite bind_ret_r; repeat step; try discriminate.
  destruct (len_defvals (promote_defvals dfs)) as [e'|m]; repeat step;
    [congruence|].
  destruct (py_len (default Nd0 (st !! l))) as [e'|k]; repeat step;
    [congruence|].
  destruct (negb (m =? k)%nat); repeat step; [congruence|discriminate].
Qed.

(** An integer of at most 53 bits is converted exactly. *)
Lemma float_of_int_exact (z : Z) :
  Z.abs z < 2 ^ 53 -> float_of_int z = inr (inject_Z z).
Proof.
  intros Hz. unfold float_of_int. cbv zeta.
  destruct (Z.leb_spec (Z.log2 (Z.abs z) - 52) 0) as [_|He]; [reflexivity|].
  exfalso. assert (Z.log2 (Z.abs z) < 53); [|lia].
  destruct (decide (Z.abs z = 0)) as [->|Hne]; [cbn; lia|].
  apply Z.log2_lt_pow2; lia.
Qed.

(** An integer of [2^1024] or more has no double. *)
Lemma float_of_int_overflow (z : Z) :
  2 ^ 1024 <= z -> float_of_int z = inl OverflowError.
Proof.
  intros Hz. unfold float_of_int. cbv zeta.
  assert (Hpos : 0 < 2 ^ 1024) by (apply Z.pow_pos_nonneg; lia).
  rewrite (Z.abs_eq z) by lia.
  assert (Hl : 1024 <= Z.log2 z) by (apply Z.log2_le_pow2; lia).
  destruct (Z.leb_spec (Z.log2 z - 52) 0) as [?|He]; [lia|].
  set (e := Z.log2 z - 52) in *.
  set (m := Z.shiftr z e).
  assert (Hm : 2 ^ 52 <= m).
  { unfold m. rewrite Z.shiftr_div_pow2 by lia.
    apply Z.div_le_lower_bound; [apply Z.pow_pos_nonneg; lia|].
    rewrite <- Z.pow_add_r by lia.
    replace (e + 52) with (Z.log2 z) by (unfold e; lia).
    apply Z.log2_spec. lia. }
  match goal with
  | |- context [Z.shiftl ?m' e] =>
      assert (Hx : 2 ^ 1024 <= Z.shiftl m' e)
  end.
  { rewrite Z.shiftl_mul_pow2 by lia.
    assert (He' : 0 < 2 ^ e) by (apply Z.pow_pos_nonneg; lia).
    assert (H52 : 2 ^ 1024 <= 2 ^ 52 * 2 ^ e).
    { rewrite <- Z.pow_add_r by lia. apply Z.pow_le_mono_r; lia. }
    destruct (_ || _); nia. }
  rewrite Z.shiftl_1_l.
  match goal with
  | |- context [2 ^ 1024 <=? ?x] =>
      destruct (Z.leb_spec (2 ^ 1024) x) as [_|Hlt]; [reflexivity|lia]
  end.
Qed.

Lemma Qle_bool_inject_Z_pos (z : Z) :
  0 < z -> Qle_bool (inject_Z z) 0 = false.
Proof.
  intros Hz. unfold Qle_bool. cbn [Qnum Qden inject_Z].
  apply Z.leb_gt. lia.
Qed.

Lemma set_energy_atomic (val : pyval) (d d' : dataset) (e : exn) :
  set_energy val d = Raise e d' -> d' = d.
Proof.
  unfold set_energy. destruct (numeric val) as [q|].
  - destruct (Qle_bool q 0); [unfold raise; congruence|].
    unfold bind, lift, modify. destruct (float val q);
      [congruence|discriminate].
  - unfold raise. congruence.
Qed.

(** The setter of [energy]: of a number above zero, the float is
    stored. *)
Lemma set_energy_accepts (val : pyval) (q x : Q) (d : dataset) :
  numeric val = Some q -> Qle_bool q 0 = false -> float val q = inr x ->
  set_energy val d = Ret tt (set__beam_energy (Some x) d).
Proof.
  intros Hq Hpos Hx. unfold set_energy, bind, lift.
  rewrite Hq, Hpos, Hx. reflexivity.
Qed.

(** A number above zero that has no float: the exception of [float] is
    raised and nothing is assigned. *)
Lemma set_energy_no_float (val : pyval) (q : Q) (e : exn) (d : dataset) :
  numeric val = Some q -> Qle_bool q 0 = false -> float val q = inl e ->
  set_energy val d = Raise e d.
Proof.
  intros Hq Hpos Hx. unfold set_energy, bind, lift.
  rewrite Hq, Hpos, Hx. reflexivity.
Qed.

(** When the setter returns, the value was a number above zero and its
    float is what [_beam_energy] holds. *)
Lemma set_energy_returned (val : pyval) (d d' : dataset) :
  set_energy val d = Ret tt d' ->
  exists q x,
    numeric val = Some q /\ Qle_bool q 0 = false /\ float val q = inr x /\
    d' = set__beam_energy (Some x) d.
Proof.
  unfold set_energy. destruct (numeric val) as [q|]; [|discriminate].
  destruct (Qle_bool q 0) eqn:Hpos; [discriminate|].
  unfold bind, lift, modify. destruct (float val q) as [e|x] eqn:Hx;
    [discriminate|].
  intros Hd. exists q, x. split; [reflexivity|].
  do 2 (split; [assumption|]). congruence.
Qed.

Lemma set_energy_float (q : Q) (d : dataset) :
  Qle_bool q 0 = false ->
  set_energy (PyFloat q) d = Ret tt (set__beam_energy (Some q) d).
Proof. intros Hpos. by apply (set_energy_accepts _ q q). Qed.

Lemma set_energy_int (z : Z) (d : dataset) :
  0 < z < 2 ^ 53 ->
  set_energy (PyInt z) d = Ret tt (set__beam_energy (Some (inject_Z z)) d).
Proof.
  intros Hz. apply (set_energy_accepts _ (inject_Z z)); [reflexivity| |].
  - apply Qle_bool_inject_Z_pos. lia.
  - apply float_of_int_exact. lia.
Qed.

Lemma set_energy_overflow (z : Z) (d : dataset) :
  2 ^ 1024 <= z -> set_energy (PyInt z) d = Raise OverflowError d.
Proof.
  intros Hz.
  assert (Hpos : 0 < 2 ^ 1024) by (apply Z.pow_pos_nonneg; lia).
  apply (set_energy_no_float _ (inject_Z z)); [reflexivity| |].
  - apply Qle_bool_inject_Z_pos. lia.
  - by apply float_of_int_overflow.
Qed.

Lemma set_energy_not_numeric (val : pyval) (d : dataset) :
  numeric val = None -> set_energy val d = Raise TypeError d.
Proof. intros Hq. unfold set_energy. rewrite Hq. reflexivity. Qed.

Lemma set_energy_not_positive (val : pyval) (q : Q) (d : dataset) :
  numeric val = Some q -> Qle_bool q 0 = true ->
  set_energy val d = Raise ValueError d.
Proof. intros Hq Hneg. unfold set_energy. rewrite Hq, Hneg. reflexivity. Qed.

Lemma set_images_mismatch (ims : array_like) (d : dataset) (m : nat) :
  n_defvals d = Some m -> length (promote ims) <> m ->
  set_images ims d = Raise ValueError d.
Proof.
  destruct d as [st im dv oi os op ic ifl be' be pre crp flt tr fi tm].
  arrays. intros Hm Hne. destruct dv as [[| |dv]|]; simplify_eq.
  methods; rewrite bind_ret_r; repeat step.
  apply Nat.eqb_neq in Hne. rewrite Hne. reflexivity.
Qed.

Lemma set_defvals_mismatch (dfs : defvals_like) (d : dataset) (m k : nat) :
  len_defvals (promote_defvals dfs) = inr m ->
  n_images (CurrentView d) = Some k -> m <> k ->
  set_defvals dfs d = Raise ValueError d.
Proof.
  destruct d as [st im dv oi os op ic ifl be' be pre crp flt tr fi tm].
  arrays. intros Hm Hk Hne. destruct im as [l|]; [|discriminate].
  destruct (st !! l) as [[|s]|] eqn:Hs; simplify_eq.
  methods; rewrite bind_ret_r; repeat step.
  rewrite Hm. go.
  apply Nat.eqb_neq in Hne. rewrite Hne. reflexivity.
Qed.

Lemma set_images_spec (n : nat) (d : dataset) (ims : array_like) :
  inv n d -> length (promote ims) = n ->
  exists d',
    set_images ims d = Ret tt d' /\ inv n d' /\
    same_inputs d d' /\ grown d d' /\
    CurrentView d' = Some (Nd3 (promote ims)) /\ _cropped d' = _cropped d.
Proof.
  intros H Hn. inv_open H d. arrays.
  methods; rewrite bind_ret_r; repeat step.
  len_test; repeat step.
  unfold ret; (eexists; split; [reflexivity|]).
  split; [inv_solve|].
  unfold same_inputs, grown; arrays; flat.
  repeat split; try reflexivity; solve [lk | grow].
Qed.

Lemma set_defvals_spec (n : nat) (d : dataset) (dfs : defvals_like) :
  inv n d -> len_defvals (promote_defvals dfs) = inr n ->
  exists d',
    set_defvals dfs d = Ret tt d' /\ inv n d' /\
    store d' = store d /\ _orig_images d' = _orig_images d /\
    _beam_energy d' = _beam_energy d /\
    _defvals d' = Some (promote_defvals dfs) /\ _cropped d' = _cropped d.
Proof.
  intros H Hn. inv_open H d. arrays.
  methods; rewrite bind_ret_r; repeat step.
  rewrite Hn. go. len_test. go.
  unfold ret; (eexists; split; [reflexivity|]).
  destruct (promote_defvals dfs) as [| |dv'] eqn:Hdfs; simplify_eq.
  cbn [len_defvals] in Hn. simplify_eq.
  split; [inv_solve|].
  flat. repeat split; reflexivity.
Qed.

(** *** Construction *)

Lemma new_spec (ims : array_like) (dfs : defvals_like) (e : pyval)
    (d : dataset) :
  new ims dfs e = Ret tt d ->
  inv (length (promote ims)) d /\
  Raw d = Some (Nd3 (promote ims)) /\
  CurrentView d = Some (Nd3 (promote ims)) /\
  _defvals d = Some (promote_defvals dfs) /\
  len_defvals (promote_defvals dfs) = inr (length (promote ims)) /\
  beam_energy d = Some e /\ _beam_energy d = None /\
  _preprocessed d = Some false /\ _cropped d = Some false /\
  _filtered d = Some false /\
  _orig_images_preprocessed d = Some CNone /\
  _images_cropped d = Some CNone /\ _images_filtered d = Some CNone.
Proof.
  methods; rewrite bind_ret_r; unfold blank; go.
  destruct dfs as [|x|dv]; go; try discriminate.
  all: cbn [app lookup list_lookup length default from_option id]; go.
  all: match goal with
       | |- context [Nat.eqb ?a ?b] =>
           destruct (Nat.eqb_spec a b) as [Hn|Hn]
       end; go; [|discriminate].
  all: intros [= <-]; (split; [inv_solve|]); arrays; flat.
  all: repeat split; try reflexivity; cbn [len_defvals length]; congruence.
Qed.

Lemma new_ok (ims : array_like) (dfs : defvals_like) (e : pyval) :
  len_defvals (promote_defvals dfs) = inr (length (promote ims)) ->
  exists d, new ims dfs e = Ret tt d.
Proof.
  intros Hn. methods; rewrite bind_ret_r; unfold blank; go.
  rewrite Hn. go.
  cbn [app lookup list_lookup length default from_option id]. go.
  rewrite Nat.eqb_refl. go. eexists. reflexivity.
Qed.

(** A number of defocus values that is not the number of images: the
    setter of [defvals] raises, and by then [images], Raw and the empty
    caches are attributes of the object; the flags are not. *)
Lemma new_mismatch (ims : array_like) (dfs : defvals_like) (e : pyval)
    (m : nat) :
  len_defvals (promote_defvals dfs) = inr m ->
  m <> length (promote ims) ->
  exists d',
    new ims dfs e = Raise ValueError d' /\
    Raw d' = Some (Nd3 (promote ims)) /\
    CurrentView d' = Some (Nd3 (promote ims)) /\
    _orig_images_preprocessed d' = Some CNone /\
    _images_cropped d' = Some CNone /\ _images_filtered d' = Some CNone /\
    _defvals d' = None /\ beam_energy d' = None /\
    _preprocessed d' = None /\ _cropped d' = None /\ _filtered d' = None.
Proof.
  intros Hm Hne. methods; rewrite bind_ret_r; unfold blank; go.
  rewrite Hm. go.
  cbn [app lookup list_lookup length default from_option id]. go.
  apply Nat.eqb_neq in Hne. rewrite Hne. go.
  eexists. split; [reflexivity|]. arrays; flat. repeat split; reflexivity.
Qed.

Lemma new_no_defvals (ims : array_like) (e : pyval) :
  exists d', new ims DvNone e = Raise TypeError d' /\ _defvals d' = None.
Proof.
  methods; rewrite bind_ret_r; unfold blank; go.
  eexists. split; reflexivity.
Qed.

(** *** Edits of the transform and filter records *)

Lemma bind_eq_ret {A B : Type} (m : M A) (k : A -> M B) (d d' : dataset)
    (a : A) :
  m d = Ret a d' -> bind m k d = k a d'.
Proof. unfold bind. intros ->. reflexivity. Qed.

Lemma bind_eq_raise {A B : Type} (m : M A) (k : A -> M B) (d d' : dataset)
    (e : exn) :
  m d = Raise e d' -> bind m k d = Raise e d'.
Proof. unfold bind. intros ->. reflexivity. Qed.

Lemma inv_set_transforms (n : nat) (d : dataset) (t : transforms) :
  inv n d -> inv n (set__transforms (Some t) d).
Proof.
  intros [H1 H2 H3 H4 H5 H6 H7 H8 H9]. split; try assumption.
  eexists. reflexivity.
Qed.

Lemma inv_set_filters (n : nat) (d : dataset) (f : filters) :
  inv n d -> inv n (set__filters (Some f) d).
Proof.
  intros [H1 H2 H3 H4 H5 H6 H7 H8 H9]. split; try assumption.
  eexists. reflexivity.
Qed.

(** *** [select_ROI] *)

Lemma select_ROI_spec (n : nat) (d : dataset) (idx : Z)
    (image : option image) :
  inv n d ->
  (exists e, select_ROI idx image d = Raise e d) \/
  (exists t', select_ROI idx image d = Ret tt (set__transforms (Some t') d)).
Proof.
  intros H. inv_open H d.
  methods; rewrite bind_ret_r; go.
  destruct image as [im|]; go.
  - destruct (shape_eqb (shape im) shp); go; eauto.
  - destruct pre; [known cp Hpre_flag|]; go.
    all: unfold getitem.
    all: match goal with
         | |- context [norm_index ?n ?i] => destruct (norm_index n i)
         end; go; eauto.
    all: destruct flt; go; eauto.
Qed.

(** *** [filter] *)

(** What is known of the array [filter] is to write into. *)
Ltac target_facts :=
  repeat match goal with
  | Hl : ?S !! ?l = Some _, Ht : context [zeros_like (?S !! ?l)] |- _ =>
      rewrite Hl in Ht
  end;
  cbn [zeros_like] in *; simplify_eq; try congruence.

(** The index test of [a[indices]], for an array as long as the dataset. *)
Ltac index_test Hks :=
  unfold getitem_list, setitem_list;
  match type of Hks with
  | norm_indices ?m _ = _ =>
      match goal with
      | |- context [norm_indices (length ?s) ?ix] =>
          replace (length s) with m
            by (rewrite ?length_put, ?length_map; lia);
          rewrite Hks
      end
  end.

Lemma filter_spec (n : nat) (d : dataset) (args : bandpass_args)
    (idx : index_like) (ix : list Z) (ks : list nat)
    (base tgt view : stack) :
  inv n d -> indices_of n idx = inr ix -> norm_indices n ix = inr ks ->
  filter_base d = Some (Nd3 base) -> filter_target d = Some (Nd3 tgt) ->
  CurrentView d = Some (Nd3 view) ->
  exists d',
    filter args idx d = Ret tt d' /\ inv n d' /\
    same_inputs d d' /\ others_kept d d' /\
    _orig_images_preprocessed d' = _orig_images_preprocessed d /\
    _images_cropped d' = _images_cropped d /\
    _preprocessed d' = _preprocessed d /\ _cropped d' = _cropped d /\
    _transforms d' = _transforms d /\ _filtered d' = Some true /\
    (forall f, _filters d = Some f ->
               _filters d' = Some (record_bandpass args f)) /\
    Filtered d' =
      Some (Nd3 (put tgt ks (bandpassed args (selected base ks)))) /\
    CurrentView d' =
      Some (Nd3 (put view ks (bandpassed args (selected base ks)))).
Proof.
  intros H Eix Hks Ebase Etgt Eview. inv_open H d. arrays. simplify_eq.
  methods; rewrite bind_ret_r.
  destruct idx as [|i|l|]; cbn [indices_of] in Eix; simplify_eq; go.
  all: (destruct crp;
        [known cc Hcrop_flag
        |destruct pre; [known cp Hpre_flag|]]).
  all: simplify_eq; go.
  all: index_test Hks; go.
  all: cache cf; [try (is_var cc; cache cc)|..].
  all: target_facts.
  all: go.
  all: try (index_test Hks); go.
  all: try (index_test Hks); go.
  all: unfold ret; (eexists; split; [reflexivity|]).
  all: split; [inv_solve|].
  all: unfold same_inputs, others_kept; arrays; flat.
  all: repeat split; try reflexivity.
  all: solve [lk | kept | intros ? [= <-]; reflexivity].
Qed.

(** An [idx] that is no index at all: [TypeError], nothing done. *)
Lemma filter_bad_idx (args : bandpass_args) (d : dataset) :
  filter args IdxOther d = Raise TypeError d.
Proof. reflexivity. Qed.

Lemma norm_indices_error (n : nat) (ix : list Z) (e : exn) :
  norm_indices n ix = inl e -> e = IndexError.
Proof.
  induction ix as [|i ix IH]; cbn; [discriminate|].
  unfold norm_index. zcases; cbn.
  all: try (destruct (norm_indices n ix); intros; simplify_eq; by auto).
  all: intros; by simplify_eq.
Qed.

(** An index out of range: [IndexError] where the input images are read,
    nothing done. *)
Lemma filter_index_error (n : nat) (d : dataset) (args : bandpass_args)
    (idx : index_like) (ix : list Z) (e : exn) :
  inv n d -> indices_of n idx = inr ix -> norm_indices n ix = inl e ->
  filter args idx d = Raise e d.
Proof.
  intros H Eix Hks. inv_open H d. arrays.
  methods; rewrite bind_ret_r.
  destruct idx as [|i|l|]; cbn [indices_of] in Eix; simplify_eq; go.
  all: (destruct crp;
        [known cc Hcrop_flag
        |destruct pre; [known cp Hpre_flag|]]).
  all: go; index_test Hks; go; reflexivity.
Qed.

(** No array to write into: the flag is set and the arguments are
    recorded, then the assignment to [_images_filtered[indices]] raises
    [IndexError]. *)
Lemma filter_no_target (n : nat) (d : dataset) (args : bandpass_args)
    (idx : index_like) (ix : list Z) (ks : list nat) :
  inv n d -> indices_of n idx = inr ix -> norm_indices n ix = inr ks ->
  filter_target d = Some Nd0 ->
  exists d',
    filter args idx d = Raise IndexError d' /\ inv n d' /\
    same_inputs d d' /\ grown d d' /\
    _images d' = _images d /\
    _orig_images_preprocessed d' = _orig_images_preprocessed d /\
    _images_cropped d' = _images_cropped d /\
    _preprocessed d' = _preprocessed d /\ _cropped d' = _cropped d /\
    _transforms d' = _transforms d /\ _filtered d' = Some true /\
    (forall f, _filters d = Some f ->
               _filters d' = Some (record_bandpass args f)) /\
    Filtered d' = Some Nd0.
Proof.
  intros H Eix Hks Etgt. inv_open H d. arrays.
  methods; rewrite bind_ret_r.
  destruct idx as [|i|l|]; cbn [indices_of] in Eix; simplify_eq; go.
  all: (destruct crp;
        [known cc Hcrop_flag
        |destruct pre; [known cp Hpre_flag|]]).
  all: simplify_eq; go.
  all: index_test Hks; go.
  all: cache cf; [try (is_var cc; cache cc)|..].
  all: target_facts.
  all: go.
  all: (eexists; split; [reflexivity|]).
  all: split; [inv_solve|].
  all: unfold same_inputs, grown; arrays; flat.
  all: repeat split; try reflexivity.
  all: solve [lk | grow | intros ? [= <-]; reflexivity].
Qed.

(** *** [preprocess] and [reset_transforms] *)

Lemma grown_lookup (d d' : dataset) (l : nat) (a : ndarray) :
  grown d d' -> store d !! l = Some a -> store d' !! l = Some a.
Proof. intros [new ->] H. by apply lookup_app_l_Some. Qed.

Lemma grown_trans (d d' d'' : dataset) :
  grown d d' -> grown d' d'' -> grown d d''.
Proof.
  intros [n1 H1] [n2 H2]. exists (n1 ++ n2). by rewrite H2, H1, app_assoc.
Qed.

(** Line 284: Current View becomes a copy of Raw. *)
Lemma view_from_raw_spec (n : nat) (d : dataset) :
  inv n d ->
  exists d',
    view_from_raw d = Ret tt d' /\ inv n d' /\
    same_inputs d d' /\ grown d d' /\
    CurrentView d' = Raw d /\ Raw d' = Raw d.
Proof.
  intros H. inv_open H d. arrays.
  methods; rewrite bind_ret_r; go.
  len_test; go.
  unfold ret; (eexists; split; [reflexivity|]).
  split; [inv_solve|].
  unfold same_inputs, grown; arrays; flat.
  repeat split; try reflexivity; try solve [grow].
  all: rewrite Hraw; lk.
Qed.

Lemma preprocess_spec (n : nat) (d : dataset) (h : bool) (m : option Z)
    (fast : bool) (kw : kwargs) (rawS : stack) (t : transforms)
    (f : filters) (bf : bool) :
  inv n d -> Raw d = Some (Nd3 rawS) ->
  _transforms d = Some t -> _filters d = Some f -> _filtered d = Some bf ->
  let clean := cleaned h m fast kw rawS in
  exists d',
    preprocess h m fast kw d = Ret tt d' /\ inv n d' /\
    same_inputs d d' /\ grown d d' /\
    _preprocessed d' = Some true /\ _cropped d' = Some true /\
    _filtered d' = Some bf /\
    _filters d' = Some (record_preprocess h m f) /\
    _transforms d' = Some t /\
    Preprocessed d' = Some (Nd3 clean) /\
    Cropped d' = Some (Nd3 (transformed t clean)) /\
    CurrentView d' =
      Some (Nd3 (if bf then bandpassed (recorded f) (transformed t clean)
                 else transformed t clean)) /\
    if bf
    then Filtered d' =
           Some (Nd3 (bandpassed (recorded f) (transformed t clean)))
    else _images_filtered d' = _images_filtered d.
Proof.
  intros H Eraw Et Ef Ebf clean. subst clean. inv_open H d. arrays.
  simplify_eq.
  unfold preprocess, preprocess_view. remember apply_transforms as AT.
  methods; rewrite bind_ret_r; go.
  len_test; go.
  destruct h; go; (destruct m as [k|]; go); try (len_test; go).
  all: subst AT.
  all: match goal with
       | |- context [bind apply_transforms ?k ?D] =>
           edestruct (apply_transforms_spec (length v) D t f bf)
             as (d2 & Hrun & Hinv2 & Hsame & Hgrow & Hp2 & Hpf2 & Hf2 &
                 Hfi2 & Ht2 & Hc2 & Hcrop2 & Hview2 & Hfilt2);
           [inv_solve | reflexivity | reflexivity | reflexivity
           | arrays; lk |];
           rewrite (bind_eq_ret _ _ _ _ _ Hrun)
       end.
  all: go; rewrite Hfi2; go.
  all: unfold ret; (eexists; split; [reflexivity|]).
  all: split; [by apply inv_set_filters|].
  all: unfold same_inputs, grown in *; arrays; fields_all; cbn [cleaned].
  all: destruct Hsame as (? & ? & ? & ? & ?); destruct Hgrow as [new Hnew].
  all: repeat split; try congruence.
  all: try solve [rewrite Hnew; grow].
  all: try (rewrite Hp2, Hnew; lk).
  all: destruct bf; congruence.
Qed.

Lemma reset_transforms_eq (d : dataset) (sh : nat * nat) :
  _orig_shape d = Some sh ->
  reset_transforms d =
  apply_transforms (set__transforms (Some (default_transforms sh)) d).
Proof.
  intros Hsh. unfold reset_transforms, _reset_transforms.
  rewrite bind_bind, bind_attr, Hsh, bind_modify. reflexivity.
Qed.

(** *** What the invariant gives *)

Lemma inv_view (n : nat) (d : dataset) :
  inv n d -> exists v, CurrentView d = Some (Nd3 v) /\ length v = n.
Proof. intros H. inv_open H d. arrays. eauto. Qed.

Lemma inv_raw (n : nat) (d : dataset) :
  inv n d -> exists raw, Raw d = Some (Nd3 raw) /\ length raw = n.
Proof. intros H. inv_open H d. arrays. eauto. Qed.

Lemma inv_n_defvals (n : nat) (d : dataset) : inv n d -> n_defvals d = Some n.
Proof. intros H. inv_open H d. arrays. congruence. Qed.

Lemma inv_records (n : nat) (d : dataset) :
  inv n d ->
  exists t f bf sh,
    _transforms d = Some t /\ _filters d = Some f /\
    _filtered d = Some bf /\ _orig_shape d = Some sh.
Proof. intros H. inv_open H d. eauto 10. Qed.

Lemma inv_transform_base (n : nat) (d : dataset) :
  inv n d ->
  exists base, transform_base d = Some (Nd3 base) /\ length base = n.
Proof.
  intros H. inv_open H d. arrays.
  destruct pre; [known cp Hpre_flag|]; eauto.
Qed.

Lemma inv_filter_base (n : nat) (d : dataset) :
  inv n d ->
  exists base, filter_base d = Some (Nd3 base) /\ length base = n.
Proof.
  intros H. inv_open H d. arrays.
  destruct crp; [known cc Hcrop_flag; eauto|].
  destruct pre; [known cp Hpre_flag|]; eauto.
Qed.

Lemma inv_filter_target (n : nat) (d : dataset) :
  inv n d ->
  filter_target d = Some Nd0 \/
  exists tgt, filter_target d = Some (Nd3 tgt) /\ length tgt = n.
Proof.
  intros H. inv_open H d. arrays. cache cf; [cache cc|..]; cbn [zeros_like].
  - by left.
  - rewrite Hs. right. eexists. split; [reflexivity|].
    by rewrite length_map.
  - by left.
  - right. eauto.
Qed.

Lemma inv_set_beam_energy (n : nat) (d : dataset) (q : Q) :
  inv n d -> inv n (set__beam_energy (Some q) d).
Proof. intros [H1 H2 H3 H4 H5 H6 H7 H8 H9]. by split. Qed.

Lemma grown_others_kept (d d' : dataset) : grown d d' -> others_kept d d'.
Proof. intros Hg l a _ _ Hl. by eapply grown_lookup. Qed.

Lemma others_kept_same_store (d d' : dataset) :
  store d' = store d -> others_kept d d'.
Proof. intros Hs l a _ _ Hl. by rewrite Hs. Qed.

Lemma others_kept_refl (d : dataset) : others_kept d d.
Proof. by apply others_kept_same_store. Qed.

(** Raw is behind neither [images] nor [_images_filtered]: a call that
    leaves the other arrays alone leaves Raw alone. *)
Lemma raw_kept (n : nat) (d d' : dataset) :
  inv n d -> others_kept d d' -> _orig_images d' = _orig_images d ->
  Raw d' = Raw d.
Proof.
  intros H Hk Ho. unfold Raw. rewrite Ho.
  destruct H as [_ _ (lo & Hlo & (raw & Hraw & _) & Hi & Hf) _ _ _ _ _ _].
  rewrite Hlo, Hraw. by apply Hk.
Qed.

(** *** Every call keeps the invariant *)

Lemma kept_by_intro (n : nat) (d d' : dataset) :
  inv n d' -> _orig_images d' = _orig_images d -> others_kept d d' ->
  kept_by n d d'.
Proof. by intros H1 H2 H3. Qed.

Lemma kept_by_refl (n : nat) (d : dataset) : inv n d -> kept_by n d d.
Proof.
  intros H. apply kept_by_intro; [assumption|reflexivity|].
  apply others_kept_refl.
Qed.

Lemma filter_kept (n : nat) (d : dataset) (args : bandpass_args)
    (idx : index_like) :
  inv n d ->
  kept_by n d (final (filter args idx d)) /\
  _beam_energy (final (filter args idx d)) = _beam_energy d.
Proof.
  intros H.
  destruct (indices_of n idx) as [e|ix] eqn:Eix.
  { destruct idx; try discriminate. rewrite filter_bad_idx.
    split; [by apply kept_by_refl|reflexivity]. }
  destruct (norm_indices n ix) as [e|ks] eqn:Eks.
  { rewrite (filter_index_error n d args idx ix e) by assumption.
    split; [by apply kept_by_refl|reflexivity]. }
  destruct (inv_filter_target n d H) as [Et|(tgt & Et & _)].
  - destruct (filter_no_target n d args idx ix ks H Eix Eks Et)
      as (d' & -> & Hinv & (_ & Ho & _ & _ & Hb) & Hg & _).
    cbn [final]. split; [|assumption].
    apply kept_by_intro; try assumption. by apply grown_others_kept.
  - destruct (inv_filter_base n d H) as (base & Eb & _).
    destruct (inv_view n d H) as (v & Ev & _).
    destruct (filter_spec n d args idx ix ks base tgt v H Eix Eks Eb Et Ev)
      as (d' & -> & Hinv & (_ & Ho & _ & _ & Hb) & Hk & _).
    cbn [final]. split; [|assumption]. by apply kept_by_intro.
Qed.

Lemma apply_transforms_kept (n : nat) (d : dataset) :
  inv n d ->
  kept_by n d (final (apply_transforms d)) /\
  _beam_energy (final (apply_transforms d)) = _beam_energy d.
Proof.
  intros H.
  destruct (inv_records n d H) as (t & f & bf & sh & Et & Ef & Ebf & _).
  destruct (inv_transform_base n d H) as (base & Eb & _).
  destruct (apply_transforms_spec n d t f bf base H Et Ef Ebf Eb)
    as (d' & -> & Hinv & (_ & Ho & _ & _ & Hb) & Hg & _).
  cbn [final]. split; [|assumption].
  apply kept_by_intro; try assumption. by apply grown_others_kept.
Qed.

Lemma run_kept (n : nat) (d : dataset) (c : call) :
  inv n d ->
  kept_by n d (final (run c d)) /\
  ((forall val, c <> AssignEnergy val) ->
   _beam_energy (final (run c d)) = _beam_energy d).
Proof.
  intros H.
  destruct (inv_records n d H) as (t & f & bf & sh & Et & Ef & Ebf & Esh).
  destruct c as [h m fast kw| |args idx| |idx image|ims|dfs|val|t'];
    cbn [run].
  - destruct (inv_raw n d H) as (raw & Er & _).
    destruct (preprocess_spec n d h m fast kw raw t f bf H Er Et Ef Ebf)
      as (d' & -> & Hinv & (_ & Ho & _ & _ & Hb) & Hg & _).
    cbn [final]. split; [|done].
    apply kept_by_intro; try assumption. by apply grown_others_kept.
  - destruct (apply_transforms_kept n d H) as [Hk Hb]. by split.
  - destruct (filter_kept n d args idx H) as [Hk Hb]. by split.
  - rewrite (reset_transforms_eq d sh Esh).
    destruct (apply_transforms_kept n _ (inv_set_transforms n d
                (default_transforms sh) H)) as [(Hinv & Ho & Hk) Hb].
    split; [|done]. by apply kept_by_intro.
  - destruct (select_ROI_spec n d idx image H) as [[e ->]|[t' ->]];
      cbn [final].
    + split; [by apply kept_by_refl|done].
    + split; [|done].
      apply kept_by_intro;
        [by apply inv_set_transforms|reflexivity
        |by apply others_kept_same_store].
  - destruct (decide (length (promote ims) = n)) as [Hn|Hn].
    + destruct (set_images_spec n d ims H Hn)
        as (d' & -> & Hinv & (_ & Ho & _ & _ & Hb) & Hg & _).
      cbn [final]. split; [|done].
      apply kept_by_intro; try assumption. by apply grown_others_kept.
    + rewrite (set_images_mismatch ims d n (inv_n_defvals n d H) Hn).
      split; [by apply kept_by_refl|done].
  - destruct (set_defvals dfs d) as [[] d'|e d'] eqn:Hrun.
    + destruct (len_defvals (promote_defvals dfs)) as [e|m] eqn:Hlen.
      * exfalso. revert Hrun. inv_open H d.
        methods; rewrite bind_ret_r; go. rewrite Hlen. go. discriminate.
      * destruct (decide (m = n)) as [->|Hne].
        -- destruct (set_defvals_spec n d dfs H Hlen)
             as (d'' & Hrun' & Hinv & Hst & Ho & Hb & _).
           rewrite Hrun in Hrun'. simplify_eq. cbn [final].
           split; [|done]. apply kept_by_intro; try assumption.
           intros l a _ _ Hl. by rewrite Hst.
        -- destruct (inv_view n d H) as (v & Ev & Hv).
           rewrite (set_defvals_mismatch dfs d m n Hlen) in Hrun;
             [discriminate| |assumption].
           unfold n_images. by rewrite Ev, Hv.
    + apply set_defvals_atomic in Hrun as ->.
      split; [by apply kept_by_refl|done].
  - split; [|intros Hne; by destruct (Hne val)].
    unfold set_energy. destruct (numeric val) as [q|];
      [destruct (Qle_bool q 0);
       [|unfold bind, lift; destruct (float val q) as [e'|x]]|];
      cbn [final raise modify];
      try by apply kept_by_refl.
    apply kept_by_intro;
      [by apply inv_set_beam_energy|reflexivity
      |by apply others_kept_same_store].
  - cbn [final modify]. split; [|done].
    apply kept_by_intro;
      [by apply inv_set_transforms|reflexivity
      |by apply others_kept_same_store].
Qed.

(** Any number of calls keeps the invariant, the reference to Raw and the
    array behind it. *)
Lemma run_all_kept (n : nat) (cs : list call) (d : dataset) :
  inv n d ->
  inv n (run_all cs d) /\
  _orig_images (run_all cs d) = _orig_images d /\
  Raw (run_all cs d) = Raw d.
Proof.
  revert d. induction cs as [|c cs IH]; intros d H; cbn [run_all].
  - done.
  - destruct (run_kept n d c H) as [(Hinv & Ho & Hk) _].
    destruct (IH _ Hinv) as (Hinv' & Ho' & Hr').
    split; [assumption|]. split; [congruence|].
    rewrite Hr'. by eapply raw_kept.
Qed.

Lemma reachable_inv (d : dataset) : reachable d -> exists n, inv n d.
Proof.
  intros (ims & dfs & e & d0 & cs & Hnew & ->).
  apply new_spec in Hnew as [Hinv _].
  eexists. by apply run_all_kept.
Qed.

Lemma inv_cropped_target (n : nat) (d : dataset) :
  inv n d -> _cropped d = Some true ->
  exists tgt, filter_target d = Some (Nd3 tgt) /\ length tgt = n.
Proof.
  intros H Hc. destruct (inv_filter_target n d H) as [Et|Et]; [|done].
  exfalso. inv_open H d. arrays. simplify_eq.
  known cc Hcrop_flag. cache cf; target_facts.
Qed.

Lemma run_all_beam_energy (n : nat) (cs : list call) (d : dataset) :
  inv n d -> Forall (fun c => forall val, c <> AssignEnergy val) cs ->
  _beam_energy (run_all cs d) = _beam_energy d.
Proof.
  revert d. induction cs as [|c cs IH]; intros d H Hcs; cbn [run_all].
  - reflexivity.
  - apply Forall_cons in Hcs as [Hc Hcs].
    destruct (run_kept n d c H) as [(Hinv & _) Hb].
    rewrite IH by assumption. by apply Hb.
Qed.

Lemma filtered_is_target (d : dataset) (a : ndarray) :
  Filtered d = Some a -> filter_target d = Some a.
Proof.
  unfold filter_target, Filtered, array_of.
  by destruct (_images_filtered d) as [[|l]|].
Qed.

(** [filter] over all indices: Filtered and Current View become the
    filtered input stack. *)
Lemma filter_all_spec (n : nat) (d : dataset) (args : bandpass_args)
    (base tgt : stack) :
  inv n d ->
  filter_base d = Some (Nd3 base) -> filter_target d = Some (Nd3 tgt) ->
  exists d',
    filter args IdxNone d = Ret tt d' /\ inv n d' /\
    same_inputs d d' /\ others_kept d d' /\
    _images_cropped d' = _images_cropped d /\
    _cropped d' = _cropped d /\ _preprocessed d' = _preprocessed d /\
    _filtered d' = Some true /\
    (forall f, _filters d = Some f ->
               _filters d' = Some (record_bandpass args f)) /\
    Filtered d' = Some (Nd3 (bandpassed args base)) /\
    CurrentView d' = Some (Nd3 (bandpassed args base)).
Proof.
  intros H Eb Et.
  destruct (inv_filter_base n d H) as (base' & Eb' & Hbase).
  rewrite Eb in Eb'. injection Eb' as <-.
  destruct (inv_filter_target n d H) as [Et'|(tgt' & Et' & Htgt)];
    [congruence|].
  rewrite Et in Et'. injection Et' as <-.
  destruct (inv_view n d H) as (v & Ev & Hv).
  subst n.
  destruct (filter_spec (length base) d args IdxNone
              (map Z.of_nat (seq 0 (length base))) (seq 0 (length base))
              base tgt v H eq_refl (norm_indices_seq _) Eb Et Ev)
    as (d' & Hrun & Hinv & Hsame & Hk & _ & Hc & Hp & Hcf & _ & Hf & Hfi &
        HF & HV).
  exists d'. repeat (split; [assumption|]).
  rewrite selected_seq in HF, HV.
  rewrite <- Htgt in HF. rewrite <- Hv in HV.
  rewrite put_seq in HF, HV
    by (rewrite length_bandpassed; congruence).
  by split.
Qed.

Lemma inv_unfiltered (n : nat) (d : dataset) : inv n d -> inv n (unfiltered d).
Proof.
  intros [H1 H2 H3 H4 H5 H6 H7 H8 H9]. unfold unfiltered.
  split; unfold frozen in *; fields; try assumption.
  - destruct H3 as (l & ? & ? & ? & ?). exists l. by repeat split.
  - destruct H4 as (b & c & ? & ? & Hc & ?). exists b, c.
    repeat split; try assumption.
    destruct c; [done|]. destruct Hc as (? & ? & ?). by repeat split.
  - destruct H5 as (b & c & ? & ? & Hc & ?). exists b, c.
    repeat split; try assumption.
    destruct c; [done|]. destruct Hc as (? & ? & ?). by repeat split.
  - by exists false, CNone.
Qed.

Lemma inv_n_images (n : nat) (d : dataset) :
  inv n d -> n_images (CurrentView d) = Some n.
Proof.
  intros H. destruct (inv_view n d H) as (v & -> & <-). reflexivity.
Qed.

(** *** The cropped flag, once set *)

Lemma run_all_app (cs cs' : list call) (d : dataset) :
  run_all (cs ++ cs') d = run_all cs' (run_all cs d).
Proof.
  revert d. induction cs as [|c cs IH]; intros d; cbn [run_all app];
    [reflexivity|apply IH].
Qed.

(** A call of the transform stage sets the flag, and no call clears it. *)
Lemma run_cropped (n : nat) (d : dataset) (c : call) :
  inv n d -> _cropped d = Some true \/ is_transform c = true ->
  _cropped (final (run c d)) = Some true.
Proof.
  intros H Hc.
  destruct (inv_records n d H) as (t & f & bf & sh & Et & Ef & Ebf & Esh).
  destruct (inv_transform_base n d H) as (tb & Etb & _).
  destruct c as [h m fast kw| |args idx| |idx image|ims|dfs|val|t'];
    cbn [run is_transform] in *.
  - destruct (inv_raw n d H) as (raw & Er & _).
    by destruct (preprocess_spec n d h m fast kw raw t f bf H Er Et Ef Ebf)
      as (d' & -> & _ & _ & _ & _ & Hc' & _).
  - by destruct (apply_transforms_spec n d t f bf tb H Et Ef Ebf Etb)
      as (d' & -> & _ & _ & _ & _ & _ & _ & _ & _ & Hc' & _).
  - destruct Hc as [Hc|]; [|discriminate].
    destruct (indices_of n idx) as [e|ix] eqn:Eix.
    { destruct idx; try discriminate. by rewrite filter_bad_idx. }
    destruct (norm_indices n ix) as [e|ks] eqn:Eks.
    { by rewrite (filter_index_error n d args idx ix e). }
    destruct (inv_filter_target n d H) as [Etg|(tgt & Etg & _)].
    + destruct (filter_no_target n d args idx ix ks H Eix Eks Etg)
        as (d' & -> & _ & _ & _ & _ & _ & _ & _ & Hc' & _).
      cbn [final]. congruence.
    + destruct (inv_filter_base n d H) as (base & Eb & _).
      destruct (inv_view n d H) as (v & Ev & _).
      destruct (filter_spec n d args idx ix ks base tgt v H Eix Eks Eb Etg
                  Ev)
        as (d' & -> & _ & _ & _ & _ & _ & _ & Hc' & _).
      cbn [final]. congruence.
  - rewrite (reset_transforms_eq d sh Esh).
    by destruct (apply_transforms_spec n _ (default_transforms sh) f bf tb
                   (inv_set_transforms n d _ H) eq_refl Ef Ebf Etb)
      as (d' & -> & _ & _ & _ & _ & _ & _ & _ & _ & Hc' & _).
  - destruct Hc as [Hc|]; [|discriminate].
    by destruct (select_ROI_spec n d idx image H) as [[e ->]|[t' ->]].
  - destruct Hc as [Hc|]; [|discriminate].
    destruct (decide (length (promote ims) = n)) as [Hn|Hn].
    + destruct (set_images_spec n d ims H Hn)
        as (d' & -> & _ & _ & _ & _ & Hc').
      cbn [final]. congruence.
    + by rewrite (set_images_mismatch ims d n (inv_n_defvals n d H) Hn).
  - destruct Hc as [Hc|]; [|discriminate].
    destruct (set_defvals dfs d) as [[] d'|e d'] eqn:Hrun.
    + destruct (len_defvals (promote_defvals dfs)) as [e|m] eqn:Hlen.
      * exfalso. revert Hrun. inv_open H d.
        methods; rewrite bind_ret_r; go. rewrite Hlen. go. discriminate.
      * destruct (decide (m = n)) as [->|Hne].
        -- destruct (set_defvals_spec n d dfs H Hlen)
             as (d'' & Hrun' & _ & _ & _ & _ & _ & Hc').
           rewrite Hrun in Hrun'. simplify_eq. cbn [final]. congruence.
        -- rewrite (set_defvals_mismatch dfs d m n Hlen) in Hrun;
             [discriminate| |assumption].
           by apply inv_n_images.
    + by apply set_defvals_atomic in Hrun as ->.
  - destruct Hc as [Hc|]; [|discriminate].
    unfold set_energy. destruct (numeric val) as [q|];
      [destruct (Qle_bool q 0);
       [|unfold bind, lift; destruct (float val q) as [e'|x]]|];
      assumption.
  - destruct Hc as [Hc|]; [|discriminate]. assumption.
Qed.

Lemma run_all_cropped (n : nat) (cs : list call) (d : dataset) :
  inv n d -> _cropped d = Some true ->
  _cropped (run_all cs d) = Some true.
Proof.
  revert d. induction cs as [|c cs IH]; intros d H Hc; cbn [run_all];
    [assumption|].
  destruct (run_kept n d c H) as [(Hinv & _) _].
  apply IH; [assumption|]. apply (run_cropped n); auto.
Qed.

Lemma settled_reachable (d : dataset) : settled d -> reachable d.
Proof.
  intros (d0 & c & cs & (ims & dfs & e & d00 & cs0 & Hnew & ->) & _ & _ &
          ->).
  exists ims, dfs, e, d00, (cs0 ++ c :: cs).
  split; [assumption|]. by rewrite run_all_app.
Qed.

Lemma settled_cropped (d : dataset) : settled d -> _cropped d = Some true.
Proof.
  intros (d0 & c & cs & Hr & Hc & _ & ->).
  destruct (reachable_inv d0 Hr) as [n H]. cbn [run_all].
  destruct (run_kept n d0 c H) as [(Hinv & _) _].
  apply (run_all_cropped n); [assumption|]. apply (run_cropped n); auto.
Qed.

(** *** What a call leaves of the caches *)

Lemma same_inputs_raw (d d' : dataset) (a : ndarray) :
  same_inputs d d' -> grown d d' -> Raw d = Some a -> Raw d' = Some a.
Proof.
  intros (_ & Ho & _) Hg. unfold Raw. rewrite Ho.
  destruct (_orig_images d); [|discriminate]. by apply grown_lookup.
Qed.

Lemma frozen_kept (n : nat) (d d' : dataset) (c : cache) :
  frozen n d c -> others_kept d d' ->
  array_of d' (Some c) = array_of d (Some c).
Proof.
  destruct c as [|l]; [reflexivity|].
  intros ((s & Hs & _) & Hi & Hf) Hk. cbn [array_of].
  rewrite Hs. by apply Hk.
Qed.

Lemma preprocessed_kept (n : nat) (d d' : dataset) :
  inv n d -> others_kept d d' ->
  _orig_images_preprocessed d' = _orig_images_preprocessed d ->
  Preprocessed d' = Preprocessed d.
Proof.
  intros H Hk Hc. unfold Preprocessed. rewrite Hc.
  destruct H as [_ _ _ (b & c & _ & -> & Hfr & _) _ _ _ _ _].
  by eapply frozen_kept.
Qed.

Lemma cropped_kept (n : nat) (d d' : dataset) :
  inv n d -> others_kept d d' ->
  _images_cropped d' = _images_cropped d ->
  Cropped d' = Cropped d.
Proof.
  intros H Hk Hc. unfold Cropped. rewrite Hc.
  destruct H as [_ _ _ _ (b & c & _ & -> & Hfr & _) _ _ _ _].
  by eapply frozen_kept.
Qed.

Lemma latest_filtered (d : dataset) :
  _filtered d = Some true -> latest d = Filtered d.
Proof. unfold latest. by intros ->. Qed.

Lemma latest_cropped (d : dataset) :
  _filtered d = Some false -> _cropped d = Some true ->
  latest d = Cropped d.
Proof. unfold latest. by intros -> ->. Qed.

(** After [apply_transforms] Current View is the cache the flags name. *)
Lemma apply_transforms_latest (n : nat) (d : dataset) :
  inv n d ->
  exists d', apply_transforms d = Ret tt d' /\ CurrentView d' = latest d'.
Proof.
  intros H.
  destruct (inv_records n d H) as (t & f & bf & sh & Et & Ef & Ebf & _).
  destruct (inv_transform_base n d H) as (base & Eb & _).
  destruct (apply_transforms_spec n d t f bf base H Et Ef Ebf Eb)
    as (d' & Hrun & _ & _ & _ & _ & _ & Hf' & _ & _ & Hc' & Hcrop & Hview &
        Hfilt).
  exists d'. split; [assumption|].
  destruct bf.
  - rewrite latest_filtered by assumption. congruence.
  - rewrite latest_cropped by assumption. congruence.
Qed.

(** With valid indices, [filter] on a dataset whose transform stage has
    run returns, and what it writes is known slot by slot. *)
Lemma filter_cropped_spec (n : nat) (d : dataset) (args : bandpass_args)
    (idx : index_like) (ix : list Z) (ks : list nat) :
  inv n d -> _cropped d = Some true ->
  indices_of n idx = inr ix -> norm_indices n ix = inr ks ->
  exists d' crop tgt view F V,
    Cropped d = Some (Nd3 crop) /\ filter_target d = Some (Nd3 tgt) /\
    CurrentView d = Some (Nd3 view) /\
    filter args idx d = Ret tt d' /\ inv n d' /\ others_kept d d' /\
    same_inputs d d' /\
    _orig_images_preprocessed d' = _orig_images_preprocessed d /\
    _images_cropped d' = _images_cropped d /\
    _filtered d' = Some true /\
    Filtered d' = Some (Nd3 F) /\ CurrentView d' = Some (Nd3 V) /\
    (forall k, k ∈ ks ->
       F !! k = Some (_bandpass_filter (default [] (crop !! k)) args) /\
       V !! k = Some (_bandpass_filter (default [] (crop !! k)) args)) /\
    (forall k, k ∉ ks -> F !! k = tgt !! k /\ V !! k = view !! k).
Proof.
  intros H Hc Eix Eks.
  destruct (inv_filter_base n d H) as (crop & Eb & _).
  destruct (inv_cropped_target n d H Hc) as (tgt & Et & Htgt).
  destruct (inv_view n d H) as (view & Ev & Hview).
  destruct (filter_spec n d args idx ix ks crop tgt view H Eix Eks Eb Et Ev)
    as (d' & Hrun & Hinv & Hsame & Hk & Hp & Hcc & _ & _ & _ & Hf & _ &
        HF & HV).
  rewrite bandpassed_selected in HF, HV.
  pose proof (norm_indices_lt n ix ks Eks) as Hlt.
  exists d', crop, tgt, view. do 2 eexists.
  split. { revert Eb. unfold filter_base. by rewrite Hc. }
  do 9 (split; [eassumption|]).
  split; [exact HF|]. split; [exact HV|]. split.
  - intros k Hin. split; apply put_lookup_in; try assumption.
    + by rewrite Htgt.
    + by rewrite Hview.
  - intros k Hnin. split; by apply put_lookup_notin.
Qed.

(** An image of another shape than the original: [ValueError], nothing
    done. *)
Lemma select_ROI_mismatch (d : dataset) (idx : Z)
    (im : list (list px)) (sh : nat * nat) :
  _orig_shape d = Some sh -> shape_eqb (shape im) sh = false ->
  select_ROI idx (Some im) d = Raise ValueError d.
Proof.
  intros Hsh Hne. unfold select_ROI.
  rewrite !bind_bind, bind_attr, Hsh, Hne. reflexivity.
Qed.

(** [select_ROI] without an image, on an index out of range. *)
Lemma norm_index_error (n : nat) (i : Z) (e : exn) :
  norm_index n i = inl e -> e = IndexError.
Proof. unfold norm_index. zcases; intros; by simplify_eq. Qed.

Lemma select_ROI_bad_index (n : nat) (d : dataset) (idx : Z) (e : exn) :
  inv n d -> norm_index n idx = inl e ->
  select_ROI idx None d = Raise IndexError d.
Proof.
  intros H Hk. pose proof (norm_index_error _ _ _ Hk) as ->.
  inv_open H d. arrays.
  methods; rewrite bind_ret_r; go.
  destruct pre; [known cp Hpre_flag|]; go.
  all: unfold getitem.
  all: match goal with
       | |- context [norm_index (length ?s) _] =>
           replace (length s) with (length v) by congruence
       end.
  all: rewrite Hk; go; reflexivity.
Qed.

(** Once the transform stage has run, a [filter] that raises has done
    nothing: it raises for its [idx], before any assignment. *)
Lemma filter_cropped_atomic (n : nat) (d d' : dataset)
    (args : bandpass_args) (idx : index_like) (e : exn) :
  inv n d -> _cropped d = Some true ->
  filter args idx d = Raise e d' -> d' = d.
Proof.
  intros H Hc Hrun.
  destruct (indices_of n idx) as [e'|ix] eqn:Eix.
  { destruct idx; try discriminate. rewrite filter_bad_idx in Hrun.
    congruence. }
  destruct (norm_indices n ix) as [e'|ks] eqn:Eks.
  { rewrite (filter_index_error n d args idx ix e') in Hrun by assumption.
    congruence. }
  destruct (filter_cropped_spec n d args idx ix ks H Hc Eix Eks)
    as (d'' & crop & tgt & view & F & V & _ & _ & _ & Hret & _).
  congruence.
Qed.

(** * The claims *)

(** C1. After construction and any sequence of calls (stage methods and
    assignments alike, failed or not) the array behind [images] has as many
    images as there are defocus values; and assigning images, or defocus
    values, of another length raises [ValueError] and leaves the dataset
    as it was. *)
Theorem C1_images_and_defvals_agree (ims : array_like) (dfs : defvals_like)
    (e : pyval) (d0 : dataset) (cs : list call) :
  new ims dfs e = Ret tt d0 ->
  let d := run_all cs d0 in
  (exists n, n_images (CurrentView d) = Some n /\ n_defvals d = Some n) /\
  (forall ims',
     Some (length (promote ims')) <> n_defvals d ->
     set_images ims' d = Raise ValueError d) /\
  (forall dfs' m,
     len_defvals (promote_defvals dfs') = inr m ->
     Some m <> n_images (CurrentView d) ->
     set_defvals dfs' d = Raise ValueError d).
Proof.
  intros Hnew d. apply new_spec in Hnew as [Hinv _].
  destruct (run_all_kept _ cs d0 Hinv) as (Hd & _). fold d in Hd.
  destruct (inv_view _ d Hd) as (v & Ev & Hv).
  pose proof (inv_n_defvals _ d Hd) as Hn.
  split; [|split].
  - eexists. split; [|exact Hn]. unfold n_images. by rewrite Ev, Hv.
  - intros ims' Hne. eapply set_images_mismatch; [exact Hn|congruence].
  - intros dfs' m Hm Hne.
    eapply set_defvals_mismatch; [exact Hm| |].
    + unfold n_images. rewrite Ev. reflexivity.
    + intros ->. apply Hne. unfold n_images. by rewrite Ev.
Qed.

(** C7. Raw is the stack given at construction, and after any sequence
    of calls [_orig_images] refers to the same array with the same
    images. *)
Theorem C7_raw_is_never_mutated (ims : array_like) (dfs : defvals_like)
    (e : pyval) (d0 : dataset) (cs : list call) :
  new ims dfs e = Ret tt d0 ->
  Raw d0 = Some (Nd3 (promote ims)) /\
  _orig_images (run_all cs d0) = _orig_images d0 /\
  Raw (run_all cs d0) = Raw d0.
Proof.
  intros Hnew. apply new_spec in Hnew as (Hinv & Hraw & _).
  split; [assumption|]. by apply (run_all_kept _ cs d0 Hinv).
Qed.

(** C9. Construction without defocus values raises [TypeError]: the
    setter of [defvals] takes the length of [None], whatever the images
    are. By then [images] is set and [defvals] is not. *)
Theorem C9_construction_needs_defvals (ims : array_like) (e : pyval) :
  len_defvals DvNone = inl TypeError /\
  exists d',
    new ims DvNone e = Raise TypeError d' /\
    CurrentView d' = Some (Nd3 (promote ims)) /\ _defvals d' = None.
Proof.
  split; [reflexivity|].
  methods; rewrite bind_ret_r; unfold blank; go.
  eexists. split; [reflexivity|]. arrays; flat.
  cbn [app length]. split; reflexivity.
Qed.

(** C10. The constructor keeps [beam_energy] in a plain attribute and
    leaves [_beam_energy] unset: reading [energy] raises [AttributeError],
    also after any calls that do not assign [energy]. The setter returns
    exactly for a number above zero that has a float, and [energy] then
    returns that float: a float as it was given, an integer below [2^53]
    exactly. *)
Theorem C10_energy_unset_after_construction (ims : array_like)
    (dfs : defvals_like) (e : pyval) (d0 : dataset) (cs : list call) :
  new ims dfs e = Ret tt d0 ->
  beam_energy d0 = Some e /\ _beam_energy d0 = None /\
  energy d0 = Raise AttributeError d0 /\
  (Forall (fun c => forall val, c <> AssignEnergy val) cs ->
   energy (run_all cs d0) = Raise AttributeError (run_all cs d0)) /\
  (forall val d',
     set_energy val (run_all cs d0) = Ret tt d' ->
     exists q x,
       numeric val = Some q /\ Qle_bool q 0 = false /\
       float val q = inr x /\ energy d' = Ret x d') /\
  (forall val q x,
     numeric val = Some q -> Qle_bool q 0 = false -> float val q = inr x ->
     exists d',
       set_energy val (run_all cs d0) = Ret tt d' /\ energy d' = Ret x d') /\
  (forall q,
     Qle_bool q 0 = false ->
     exists d',
       set_energy (PyFloat q) (run_all cs d0) = Ret tt d' /\
       energy d' = Ret q d') /\
  (forall z,
     0 < z < 2 ^ 53 ->
     exists d',
       set_energy (PyInt z) (run_all cs d0) = Ret tt d' /\
       energy d' = Ret (inject_Z z) d').
Proof.
  intros Hnew.
  apply new_spec in Hnew as (Hinv & _ & _ & _ & _ & Hbe & Hb & _).
  do 2 (split; [assumption|]).
  split. { unfold energy, attr. by rewrite Hb. }
  split.
  { intros Hcs. unfold energy, attr.
    by rewrite (run_all_beam_energy _ cs d0 Hinv Hcs), Hb. }
  split.
  { intros val d' Hset.
    destruct (set_energy_returned _ _ _ Hset) as (q & x & Hq & Hpos & Hx & ->).
    by exists q, x. }
  split.
  { intros val q x Hq Hpos Hx. eexists. split.
    - by apply (set_energy_accepts _ q x).
    - reflexivity. }
  split.
  - intros q Hpos. eexists. split; [by apply set_energy_float|reflexivity].
  - intros z Hz. eexists. split; [by apply set_energy_int|reflexivity].
Qed.

(** C3. On a dataset whose filter stage has run, with [f] the recorded
    options: after the transform parameters are changed to any [t],
    [apply_transforms()] leaves Filtered and Current View equal to the new
    Cropped stack filtered with the recorded arguments. Calling
    [filter] with those arguments over all indices afterwards changes
    neither; and it gives the same two arrays when called on the new crop
    of the dataset taken without the replay. *)
Theorem C3_apply_transforms_replays_filter (d : dataset) (f : filters)
    (t : transforms) :
  reachable d -> _filtered d = Some true -> _filters d = Some f ->
  exists d2 crop,
    apply_transforms (set__transforms (Some t) d) = Ret tt d2 /\
    Cropped d2 = Some (Nd3 crop) /\
    Filtered d2 = Some (Nd3 (bandpassed (recorded f) crop)) /\
    CurrentView d2 = Some (Nd3 (bandpassed (recorded f) crop)) /\
    (exists d3,
       filter (recorded f) IdxNone d2 = Ret tt d3 /\
       Filtered d3 = Filtered d2 /\ CurrentView d3 = CurrentView d2) /\
    (exists c2 c3,
       apply_transforms (unfiltered (set__transforms (Some t) d))
         = Ret tt c2 /\
       Cropped c2 = Some (Nd3 crop) /\
       filter (recorded f) IdxNone c2 = Ret tt c3 /\
       Filtered c3 = Filtered d2 /\ CurrentView c3 = CurrentView d2).
Proof.
  intros Hr Hflt Hf. destruct (reachable_inv d Hr) as [n H].
  destruct (inv_transform_base n d H) as (base & Eb & _).
  pose proof (inv_set_transforms n d t H) as H1.
  destruct (apply_transforms_spec n _ t f true base H1 eq_refl Hf Hflt Eb)
    as (d2 & Hrun & Hinv2 & _ & _ & _ & _ & _ & _ & _ & Hc2 & Hcrop2 &
        Hview2 & Hfilt2).
  exists d2, (transformed t base).
  repeat (split; [assumption|]).
  assert (Eb2 : filter_base d2 = Some (Nd3 (transformed t base))).
  { unfold filter_base. by rewrite Hc2. }
  split.
  - destruct (filter_all_spec n d2 (recorded f) _ _ Hinv2 Eb2
                (filtered_is_target _ _ Hfilt2))
      as (d3 & Hrun3 & _ & _ & _ & _ & _ & _ & _ & _ & HF & HV).
    exists d3. split; [assumption|]. split; congruence.
  - pose proof (inv_unfiltered n _ H1) as H1'.
    destruct (apply_transforms_spec n _ t f false base H1' eq_refl Hf
                eq_refl Eb)
      as (c2 & Hrunc & Hinvc & _ & _ & _ & _ & _ & _ & _ & Hcc & Hcropc &
          Hviewc & Hfiltc).
    assert (Ebc : filter_base c2 = Some (Nd3 (transformed t base))).
    { unfold filter_base. by rewrite Hcc. }
    assert (Etc : filter_target c2 =
                  Some (Nd3 (map zeros_like_image (transformed t base)))).
    { unfold filter_target. rewrite Hfiltc. cbn. by rewrite Hcropc. }
    destruct (filter_all_spec n c2 (recorded f) _ _ Hinvc Ebc Etc)
      as (c3 & Hrun3 & _ & _ & _ & _ & _ & _ & _ & _ & HF & HV).
    exists c2, c3. repeat (split; [assumption|]). split; congruence.
Qed.

(** C8. [preprocess] starts by making Current View a copy of Raw, and
    the Preprocessed cache it leaves is Raw cleaned with the arguments
    given. Called a second time with the same arguments it does the same
    from the same Raw, so Preprocessed holds the same images and not the
    images cleaned twice. *)
Theorem C8_preprocess_twice_rebuilds_from_raw (d : dataset) (h : bool)
    (m : option Z) (fast : bool) (kw : kwargs) :
  reachable d ->
  exists raw d0 d1 d1' d2,
    Raw d = Some (Nd3 raw) /\
    view_from_raw d = Ret tt d0 /\ CurrentView d0 = Raw d /\
    preprocess h m fast kw d = preprocess_view h m fast kw d0 /\
    preprocess h m fast kw d = Ret tt d1 /\
    Raw d1 = Raw d /\
    Preprocessed d1 = Some (Nd3 (cleaned h m fast kw raw)) /\
    view_from_raw d1 = Ret tt d1' /\ CurrentView d1' = Raw d /\
    preprocess h m fast kw d1 = preprocess_view h m fast kw d1' /\
    preprocess h m fast kw d1 = Ret tt d2 /\
    Raw d2 = Raw d /\
    Preprocessed d2 = Some (Nd3 (cleaned h m fast kw raw)) /\
    Preprocessed d2 = Preprocessed d1.
Proof.
  intros Hr. destruct (reachable_inv d Hr) as [n H].
  destruct (inv_raw n d H) as (raw & Er & _).
  destruct (inv_records n d H) as (t & f & bf & sh & Et & Ef & Ebf & _).
  destruct (view_from_raw_spec n d H) as (d0 & Hv0 & _ & _ & _ & Hcv0 & _).
  destruct (preprocess_spec n d h m fast kw raw t f bf H Er Et Ef Ebf)
    as (d1 & Hrun1 & Hinv1 & Hsame1 & Hg1 & _ & _ & Hf1 & Hfi1 & Ht1 &
        Hp1 & _).
  pose proof (same_inputs_raw d d1 _ Hsame1 Hg1 Er) as Er1.
  destruct (view_from_raw_spec n d1 Hinv1)
    as (d1' & Hv1 & _ & _ & _ & Hcv1 & _).
  destruct (preprocess_spec n d1 h m fast kw raw t _ bf Hinv1 Er1 Ht1 Hfi1
              Hf1)
    as (d2 & Hrun2 & _ & Hsame2 & Hg2 & _ & _ & _ & _ & _ & Hp2 & _).
  pose proof (same_inputs_raw d1 d2 _ Hsame2 Hg2 Er1) as Er2.
  exists raw, d0, d1, d1', d2.
  repeat split; try assumption; try congruence.
  - unfold preprocess, bind. by rewrite Hv0.
  - unfold preprocess, bind. by rewrite Hv1.
Qed.

(** C6. On a constructed dataset [preprocess], [apply_transforms] and
    [reset_transforms] return with Current View equal to the cache the
    stage flags name as the latest; so does [filter] over all indices on a
    settled dataset (the transform stage has run, [images] was not
    assigned since). After [filter] on some of the indices, Current View
    and Filtered hold the same image at each index that was selected; at
    the others each keeps what it held. *)
Theorem C6_view_is_latest_cache (d : dataset) :
  reachable d ->
  (forall h m fast kw,
     exists d',
       preprocess h m fast kw d = Ret tt d' /\ CurrentView d' = latest d') /\
  (exists d', apply_transforms d = Ret tt d' /\ CurrentView d' = latest d') /\
  (exists d', reset_transforms d = Ret tt d' /\ CurrentView d' = latest d') /\
  (settled d ->
   forall args,
     exists d',
       filter args IdxNone d = Ret tt d' /\ CurrentView d' = latest d') /\
  (settled d ->
   forall args idx n ix ks,
     n_images (CurrentView d) = Some n ->
     indices_of n idx = inr ix -> norm_indices n ix = inr ks ->
     exists d' tgt view F V,
       filter_target d = Some (Nd3 tgt) /\
       CurrentView d = Some (Nd3 view) /\
       filter args idx d = Ret tt d' /\
       latest d' = Some (Nd3 F) /\ CurrentView d' = Some (Nd3 V) /\
       (forall k, k ∈ ks -> V !! k = F !! k) /\
       (forall k, k ∉ ks -> F !! k = tgt !! k /\ V !! k = view !! k)).
Proof.
  intros Hr. destruct (reachable_inv d Hr) as [n H].
  destruct (inv_records n d H) as (t & f & bf & sh & Et & Ef & Ebf & Esh).
  split; [|split; [|split; [|split]]].
  - intros h m fast kw. destruct (inv_raw n d H) as (raw & Er & _).
    destruct (preprocess_spec n d h m fast kw raw t f bf H Er Et Ef Ebf)
      as (d' & Hrun & _ & _ & _ & _ & Hc' & Hf' & _ & _ & _ & Hcrop &
          Hview & Hfilt).
    exists d'. split; [assumption|].
    destruct bf.
    + rewrite latest_filtered by assumption. congruence.
    + rewrite latest_cropped by assumption. congruence.
  - by apply (apply_transforms_latest n).
  - rewrite (reset_transforms_eq d sh Esh).
    apply (apply_transforms_latest n). by apply inv_set_transforms.
  - intros Hs args. pose proof (settled_cropped d Hs) as Hc.
    destruct (inv_filter_base n d H) as (base & Eb & _).
    destruct (inv_cropped_target n d H Hc) as (tgt & Etg & _).
    destruct (filter_all_spec n d args base tgt H Eb Etg)
      as (d' & Hrun & _ & _ & _ & _ & _ & _ & Hf' & _ & HF & HV).
    exists d'. split; [assumption|].
    rewrite latest_filtered by assumption. congruence.
  - intros Hs args idx n' ix ks Hn Eix Eks.
    pose proof (settled_cropped d Hs) as Hc.
    rewrite (inv_n_images n d H) in Hn. injection Hn as <-.
    destruct (filter_cropped_spec n d args idx ix ks H Hc Eix Eks)
      as (d' & crop & tgt & view & F & V & _ & Etg & Ev & Hrun & _ & _ & _ &
          _ & _ & Hf' & HF & HV & Hin & Hnin).
    exists d', tgt, view, F, V.
    repeat (split; [assumption|]).
    split. { by rewrite latest_filtered. }
    split; [assumption|]. split; [|assumption].
    intros k Hk. destruct (Hin k Hk) as [-> ->]. reflexivity.
Qed.

(** C4. On a constructed dataset, a failing call leaves the dataset as
    it was when it is an assignment to [images], [defvals] or [energy],
    or a stage method that fails at entry: [select_ROI] whenever it
    raises, which it does with [ValueError] for an image of another shape
    than the original and with [IndexError] for an index out of range;
    [filter] with its [TypeError] for an [idx] that is no index, and
    whenever it raises on a settled dataset.
    Construction with a number of defocus values that is not the number
    of images raises [ValueError] in the setter of [defvals]: by then
    [images], Raw and the three empty caches are attributes of the
    object, the defocus values, the beam energy and the stage flags are
    not. *)
Theorem C4_failed_calls_and_what_they_leave (d : dataset)
    (ims : array_like) (dfs : defvals_like) (be : pyval) (m : nat) :
  reachable d ->
  len_defvals (promote_defvals dfs) = inr m -> m <> length (promote ims) ->
  (forall ims' e d', set_images ims' d = Raise e d' -> d' = d) /\
  (forall dfs' e d', set_defvals dfs' d = Raise e d' -> d' = d) /\
  (forall val e d', set_energy val d = Raise e d' -> d' = d) /\
  (forall idx im sh,
     _orig_shape d = Some sh -> shape_eqb (shape im) sh = false ->
     select_ROI idx (Some im) d = Raise ValueError d) /\
  (forall idx n e,
     n_defvals d = Some n -> norm_index n idx = inl e ->
     select_ROI idx None d = Raise IndexError d) /\
  (forall idx image e d', select_ROI idx image d = Raise e d' -> d' = d) /\
  (forall args, filter args IdxOther d = Raise TypeError d) /\
  (settled d ->
   forall args idx e d', filter args idx d = Raise e d' -> d' = d) /\
  exists d',
    new ims dfs be = Raise ValueError d' /\
    Raw d' = Some (Nd3 (promote ims)) /\
    CurrentView d' = Some (Nd3 (promote ims)) /\
    _orig_images_preprocessed d' = Some CNone /\
    _images_cropped d' = Some CNone /\ _images_filtered d' = Some CNone /\
    _defvals d' = None /\ beam_energy d' = None /\
    _preprocessed d' = None /\ _cropped d' = None /\ _filtered d' = None.
Proof.
  intros Hr Hm Hne. destruct (reachable_inv d Hr) as [n H].
  split. { intros ims' e d'. apply set_images_atomic. }
  split. { intros dfs' e d'. apply set_defvals_atomic. }
  split. { intros val e d'. apply set_energy_atomic. }
  split. { intros idx im sh. apply select_ROI_mismatch. }
  split.
  { intros idx n' e Hn Hidx.
    rewrite (inv_n_defvals n d H) in Hn. injection Hn as <-.
    by apply (select_ROI_bad_index n d idx e). }
  split.
  { intros idx image e d' Hrun.
    destruct (select_ROI_spec n d idx image H) as [[e' He]|[t' Ht]];
      congruence. }
  split. { intros args. apply filter_bad_idx. }
  split.
  { intros Hs args idx e d'.
    apply (filter_cropped_atomic n); [assumption|by apply settled_cropped]. }
  by apply new_mismatch with (m := m).
Qed.

(** C2. On a dataset as constructed (no stage has run), [filter] with
    valid indices raises [IndexError]: [np.zeros_like(self._images_cropped)]
    of [None] is a 0-dimensional array, and the assignment to
    [_images_filtered[indices]] fails. By then the filtered flag is set and
    the arguments are recorded; [_images_filtered] holds the 0-dimensional
    array, and nothing was written to Current View. *)
Theorem C2_filter_before_transforms_raises (ims : array_like)
    (dfs : defvals_like) (e : pyval) (d0 : dataset) (args : bandpass_args)
    (idx : index_like) (ix : list Z) (ks : list nat) :
  new ims dfs e = Ret tt d0 ->
  indices_of (length (promote ims)) idx = inr ix ->
  norm_indices (length (promote ims)) ix = inr ks ->
  exists d',
    filter args idx d0 = Raise IndexError d' /\
    _filtered d0 = Some false /\ _filtered d' = Some true /\
    _images_filtered d0 = Some CNone /\ Filtered d' = Some Nd0 /\
    (forall f, _filters d0 = Some f ->
               _filters d' = Some (record_bandpass args f)) /\
    CurrentView d' = CurrentView d0.
Proof.
  intros Hnew Eix Eks.
  apply new_spec in Hnew
    as (Hinv & _ & Hv & _ & _ & _ & _ & _ & _ & Hf0 & _ & Hc0 & Hif0).
  assert (Et : filter_target d0 = Some Nd0).
  { unfold filter_target, Cropped. by rewrite Hif0, Hc0. }
  destruct (filter_no_target _ d0 args idx ix ks Hinv Eix Eks Et)
    as (d' & Hrun & _ & _ & Hg & Hi & _ & _ & _ & _ & _ & Hf' & Hfi & HF).
  exists d'. repeat (split; [assumption|]).
  rewrite Hv. unfold CurrentView in *. rewrite Hi.
  destruct (_images d0); [|discriminate]. by eapply grown_lookup.
Qed.

(** C5. The constructor stores its [beam_energy] argument as it is, in the
    attribute [beam_energy], whatever the value; assigning that value to
    [energy] raises [TypeError] when it is no number and [ValueError] when
    it is not above zero. Of a number above zero the setter stores the
    float: a float as it is, an integer below [2^53] exactly; an integer
    of [2^1024] or more raises [OverflowError]. *)
Theorem C5_constructor_takes_any_energy (ims : array_like)
    (dfs : defvals_like) (e : pyval) :
  len_defvals (promote_defvals dfs) = inr (length (promote ims)) ->
  exists d0,
    new ims dfs e = Ret tt d0 /\
    beam_energy d0 = Some e /\ _beam_energy d0 = None /\
    (numeric e = None -> set_energy e d0 = Raise TypeError d0) /\
    (forall q, numeric e = Some q -> Qle_bool q 0 = true ->
               set_energy e d0 = Raise ValueError d0) /\
    (forall q x,
       numeric e = Some q -> Qle_bool q 0 = false -> float e q = inr x ->
       set_energy e d0 = Ret tt (set__beam_energy (Some x) d0)) /\
    (forall q err,
       numeric e = Some q -> Qle_bool q 0 = false -> float e q = inl err ->
       set_energy e d0 = Raise err d0) /\
    (forall q, e = PyFloat q -> Qle_bool q 0 = false ->
               set_energy e d0 = Ret tt (set__beam_energy (Some q) d0)) /\
    (forall z, e = PyInt z -> 0 < z < 2 ^ 53 ->
               set_energy e d0
               = Ret tt (set__beam_energy (Some (inject_Z z)) d0)) /\
    (forall z, e = PyInt z -> 2 ^ 1024 <= z ->
               set_energy e d0 = Raise OverflowError d0).
Proof.
  intros Hn. destruct (new_ok ims dfs e Hn) as [d0 Hnew].
  exists d0. split; [assumption|].
  apply new_spec in Hnew as (_ & _ & _ & _ & _ & Hbe & Hb & _).
  do 2 (split; [assumption|]).
  split; [apply set_energy_not_numeric|].
  split; [intros q; apply set_energy_not_positive|].
  split; [intros q x; apply set_energy_accepts|].
  split; [intros q err; apply set_energy_no_float|].
  split; [intros q ->; apply set_energy_float|].
  split; [intros z ->; apply set_energy_int|].
  intros z ->. apply set_energy_overflow.
Qed.

(** X1. On a settled dataset (the transform stage has run, [images] was not
    assigned since) [filter] with valid indices writes, at each index
    selected, the filtered image of Cropped into Filtered and into Current
    View; every other slot of the two arrays keeps what it held (zeros in a
    Filtered that was absent), and Raw, Preprocessed and Cropped are as
    before. *)
Theorem filter_writes_selected_only (d : dataset) (args : bandpass_args)
    (idx : index_like) (n : nat) (ix : list Z) (ks : list nat) :
  settled d ->
  n_images (CurrentView d) = Some n ->
  indices_of n idx = inr ix -> norm_indices n ix = inr ks ->
  exists d' crop tgt view F V,
    Cropped d = Some (Nd3 crop) /\ filter_target d = Some (Nd3 tgt) /\
    CurrentView d = Some (Nd3 view) /\
    (_images_filtered d = Some CNone -> tgt = map zeros_like_image crop) /\
    filter args idx d = Ret tt d' /\
    Filtered d' = Some (Nd3 F) /\ CurrentView d' = Some (Nd3 V) /\
    (forall k, k ∈ ks ->
       F !! k = Some (_bandpass_filter (default [] (crop !! k)) args) /\
       V !! k = Some (_bandpass_filter (default [] (crop !! k)) args)) /\
    (forall k, k ∉ ks -> F !! k = tgt !! k /\ V !! k = view !! k) /\
    Raw d' = Raw d /\ Preprocessed d' = Preprocessed d /\
    Cropped d' = Cropped d.
Proof.
  intros Hs Hn Eix Eks. pose proof (settled_cropped d Hs) as Hc.
  destruct (reachable_inv d (settled_reachable d Hs)) as [n' H].
  rewrite (inv_n_images n' d H) in Hn. injection Hn as ->.
  destruct (filter_cropped_spec n d args idx ix ks H Hc Eix Eks)
    as (d' & crop & tgt & view & F & V & Ecrop & Etg & Ev & Hrun & _ & Hk &
        (_ & Ho & _) & Hp & Hcc & _ & HF & HV & Hin & Hnin).
  exists d', crop, tgt, view, F, V.
  do 3 (split; [assumption|]).
  split.
  { intros Hnone. revert Etg. unfold filter_target.
    rewrite Hnone, Ecrop. cbn [zeros_like]. congruence. }
  do 5 (split; [assumption|]).
  split; [by eapply raw_kept|].
  split; [by eapply preprocessed_kept|by eapply cropped_kept].
Qed.

(** X2. [select_ROI] on a constructed dataset either raises and leaves
    the dataset as it was, or returns having assigned [_transforms] and
    nothing else: no array is touched and [apply_transforms] is not
    run. *)
Theorem select_ROI_edits_transforms_only (d : dataset) (idx : Z)
    (image : option (list (list px))) :
  reachable d ->
  (exists e, select_ROI idx image d = Raise e d) \/
  (exists t' d',
     select_ROI idx image d = Ret tt d' /\
     d' = set__transforms (Some t') d /\
     CurrentView d' = CurrentView d /\ Cropped d' = Cropped d /\
     Filtered d' = Filtered d /\ _cropped d' = _cropped d).
Proof.
  intros Hr. destruct (reachable_inv d Hr) as [n H].
  destruct (select_ROI_spec n d idx image H) as [[e He]|[t' Ht]].
  - left. by exists e.
  - right. exists t', (set__transforms (Some t') d).
    repeat split; [assumption|..]; reflexivity.
Qed.

(** X3. [apply_transforms] on a constructed dataset returns; it starts
    from Preprocessed when the preprocessed flag is set and from Raw
    otherwise, rotates each image when the angle is not zero, then crops;
    the result is the new Cropped, the cropped flag is set, and Raw and
    Preprocessed are as before. *)
Theorem apply_transforms_crops_the_base (d : dataset) :
  reachable d ->
  exists t base d',
    _transforms d = Some t /\ transform_base d = Some (Nd3 base) /\
    apply_transforms d = Ret tt d' /\
    Cropped d' = Some (Nd3 (transformed t base)) /\
    _cropped d' = Some true /\ _transforms d' = Some t /\
    Raw d' = Raw d /\ Preprocessed d' = Preprocessed d.
Proof.
  intros Hr. destruct (reachable_inv d Hr) as [n H].
  destruct (inv_records n d H) as (t & f & bf & sh & Et & Ef & Ebf & _).
  destruct (inv_transform_base n d H) as (base & Eb & _).
  destruct (apply_transforms_spec n d t f bf base H Et Ef Ebf Eb)
    as (d' & Hrun & _ & (_ & Ho & _) & Hg & Hp & _ & _ & _ & Ht' & Hc' &
        Hcrop & _).
  exists t, base, d'. repeat (split; [assumption|]).
  pose proof (grown_others_kept d d' Hg) as Hk.
  split; [by eapply raw_kept|by eapply preprocessed_kept].
Qed.

(** * More of the code *)

(** ** [filter], called again *)

Lemma recorded_record_bandpass (a : bandpass_args) (f : filters) :
  recorded (record_bandpass a f) = a.
Proof. by destruct a. Qed.

(** [filter] on a dataset whose transform stage has run, slot by slot. *)
Lemma filter_slots (n : nat) (d : dataset) (args : bandpass_args)
    (idx : index_like) (ix : list Z) (ks : list nat) :
  inv n d -> _cropped d = Some true ->
  indices_of n idx = inr ix -> norm_indices n ix = inr ks ->
  exists d' crop tgt view F V,
    Cropped d = Some (Nd3 crop) /\ filter_target d = Some (Nd3 tgt) /\
    CurrentView d = Some (Nd3 view) /\
    filter args idx d = Ret tt d' /\ inv n d' /\
    _cropped d' = Some true /\ Cropped d' = Some (Nd3 crop) /\
    Filtered d' = Some (Nd3 F) /\ CurrentView d' = Some (Nd3 V) /\
    length F = n /\ length V = n /\
    (forall k, F !! k = slot_after args crop ks tgt k) /\
    (forall k, V !! k = slot_after args crop ks view k).
Proof.
  intros H Hc Eix Eks.
  destruct (filter_cropped_spec n d args idx ix ks H Hc Eix Eks)
    as (d' & crop & tgt & view & F & V & Ecrop & Etg & Ev & Hrun & Hinv &
        Hk & _ & _ & Hcc & Hf' & HF & HV & Hin & Hnin).
  exists d', crop, tgt, view, F, V.
  do 5 (split; [assumption|]).
  assert (Hc' : _cropped d' = Some true).
  { pose proof (run_cropped n d (Filter args idx) H (or_introl Hc)) as Hr.
    cbn [run] in Hr. by rewrite Hrun in Hr. }
  split; [assumption|].
  split. { rewrite <- Ecrop. by eapply cropped_kept. }
  do 2 (split; [assumption|]).
  split.
  { destruct (inv_cropped_target n d' Hinv Hc') as (t' & Et' & Ht').
    rewrite (filtered_is_target _ _ HF) in Et'. congruence. }
  split.
  { destruct (inv_view n d' Hinv) as (v' & Ev' & Hv'). congruence. }
  split; intros k; unfold slot_after; destruct (decide (k ∈ ks)) as [Hi|Hi].
  - by destruct (Hin k Hi).
  - by destruct (Hnin k Hi).
  - by destruct (Hin k Hi).
  - by destruct (Hnin k Hi).
Qed.

Lemma slots_eq (n : nat) (a b : stack) :
  length a = n -> length b = n ->
  (forall k, (k < n)%nat -> a !! k = b !! k) -> a = b.
Proof.
  intros Ha Hb H. apply list_eq. intros k.
  destruct (decide (k < n)%nat) as [Hk|Hk]; [by apply H|].
  rewrite !lookup_ge_None_2 by lia. reflexivity.
Qed.

(** Two calls of [filter], slot by slot. *)
Lemma filter_filter_slots (n : nat) (d : dataset) (a1 a2 : bandpass_args)
    (idx1 idx2 : index_like) (ix1 ix2 : list Z) (ks1 ks2 : list nat) :
  inv n d -> _cropped d = Some true ->
  indices_of n idx1 = inr ix1 -> norm_indices n ix1 = inr ks1 ->
  indices_of n idx2 = inr ix2 -> norm_indices n ix2 = inr ks2 ->
  exists d1 d2 crop tgt view F V,
    Cropped d = Some (Nd3 crop) /\ filter_target d = Some (Nd3 tgt) /\
    CurrentView d = Some (Nd3 view) /\
    filter a1 idx1 d = Ret tt d1 /\ filter a2 idx2 d1 = Ret tt d2 /\
    inv n d2 /\ _cropped d2 = Some true /\
    Filtered d2 = Some (Nd3 F) /\ CurrentView d2 = Some (Nd3 V) /\
    length F = n /\ length V = n /\
    (forall k, F !! k =
       if decide (k ∈ ks2)
       then Some (_bandpass_filter (default [] (crop !! k)) a2)
       else slot_after a1 crop ks1 tgt k) /\
    (forall k, V !! k =
       if decide (k ∈ ks2)
       then Some (_bandpass_filter (default [] (crop !! k)) a2)
       else slot_after a1 crop ks1 view k).
Proof.
  intros H Hc E1 K1 E2 K2.
  destruct (filter_slots n d a1 idx1 ix1 ks1 H Hc E1 K1)
    as (d1 & crop & tgt & view & F1 & V1 & Ecrop & Etg & Ev & Hrun1 & Hinv1 &
        Hc1 & Ecrop1 & HF1 & HV1 & _ & _ & HsF1 & HsV1).
  destruct (filter_slots n d1 a2 idx2 ix2 ks2 Hinv1 Hc1 E2 K2)
    as (d2 & crop' & tgt' & view' & F2 & V2 & Ecrop' & Etg' & Ev' & Hrun2 &
        Hinv2 & Hc2 & _ & HF2 & HV2 & HlF & HlV & HsF2 & HsV2).
  rewrite (filtered_is_target _ _ HF1) in Etg'.
  assert (crop' = crop) as -> by congruence.
  assert (tgt' = F1) as -> by congruence.
  assert (view' = V1) as -> by congruence.
  exists d1, d2, crop, tgt, view, F2, V2.
  do 11 (split; [assumption|]).
  split; intros k.
  - rewrite HsF2. unfold slot_after at 1.
    destruct (decide (k ∈ ks2)); [reflexivity|apply HsF1].
  - rewrite HsV2. unfold slot_after at 1.
    destruct (decide (k ∈ ks2)); [reflexivity|apply HsV1].
Qed.

Lemma norm_indices_app (n : nat) (ix1 ix2 : list Z) (ks1 ks2 : list nat) :
  norm_indices n ix1 = inr ks1 -> norm_indices n ix2 = inr ks2 ->
  norm_indices n (ix1 ++ ix2) = inr (ks1 ++ ks2).
Proof.
  revert ks1. induction ix1 as [|i ix1 IH]; intros ks1 H1 H2; cbn in *.
  - by simplify_eq.
  - destruct (norm_index n i) as [e|k]; [discriminate|].
    destruct (norm_indices n ix1) as [e|ks] eqn:Hks; [discriminate|].
    simplify_eq. by rewrite (IH ks eq_refl H2).
Qed.

(** X4. [filter] reads Cropped, never what an earlier call wrote: after
    two calls on a settled dataset, each index of the second call holds
    Cropped filtered with the arguments of the second call, each other
    index of the first call holds Cropped filtered with the arguments of
    the first, and every other slot of Filtered and of Current View is as
    it was. *)
Theorem filter_again_replaces (d : dataset) (a1 a2 : bandpass_args)
    (idx1 idx2 : index_like) (n : nat) (ix1 ix2 : list Z)
    (ks1 ks2 : list nat) :
  settled d -> n_images (CurrentView d) = Some n ->
  indices_of n idx1 = inr ix1 -> norm_indices n ix1 = inr ks1 ->
  indices_of n idx2 = inr ix2 -> norm_indices n ix2 = inr ks2 ->
  exists d1 d2 crop tgt view F V,
    Cropped d = Some (Nd3 crop) /\ filter_target d = Some (Nd3 tgt) /\
    CurrentView d = Some (Nd3 view) /\
    filter a1 idx1 d = Ret tt d1 /\ filter a2 idx2 d1 = Ret tt d2 /\
    Filtered d2 = Some (Nd3 F) /\ CurrentView d2 = Some (Nd3 V) /\
    forall k,
      (k ∈ ks2 ->
       F !! k = Some (_bandpass_filter (default [] (crop !! k)) a2) /\
       V !! k = Some (_bandpass_filter (default [] (crop !! k)) a2)) /\
      (k ∉ ks2 -> k ∈ ks1 ->
       F !! k = Some (_bandpass_filter (default [] (crop !! k)) a1) /\
       V !! k = Some (_bandpass_filter (default [] (crop !! k)) a1)) /\
      (k ∉ ks2 -> k ∉ ks1 -> F !! k = tgt !! k /\ V !! k = view !! k).
Proof.
  intros Hs Hn E1 K1 E2 K2. pose proof (settled_cropped d Hs) as Hc.
  destruct (reachable_inv d (settled_reachable d Hs)) as [n' H].
  rewrite (inv_n_images n' d H) in Hn. injection Hn as ->.
  destruct (filter_filter_slots n d a1 a2 idx1 idx2 ix1 ix2 ks1 ks2 H Hc E1
              K1 E2 K2)
    as (d1 & d2 & crop & tgt & view & F & V & Ecrop & Etg & Ev & Hrun1 &
        Hrun2 & _ & _ & HF & HV & _ & _ & HsF & HsV).
  exists d1, d2, crop, tgt, view, F, V.
  do 7 (split; [assumption|]).
  intros k. specialize (HsF k). specialize (HsV k). unfold slot_after in *.
  repeat split; intros; repeat case_decide; try contradiction; assumption.
Qed.

(** X5. The same [filter] call twice on a settled dataset: the second
    call returns and leaves Filtered, Current View and Cropped as the
    first call left them. *)
Theorem filter_twice_is_filter_once (d : dataset) (args : bandpass_args)
    (idx : index_like) (n : nat) (ix : list Z) (ks : list nat) :
  settled d -> n_images (CurrentView d) = Some n ->
  indices_of n idx = inr ix -> norm_indices n ix = inr ks ->
  exists d1 d2,
    filter args idx d = Ret tt d1 /\ filter args idx d1 = Ret tt d2 /\
    Filtered d2 = Filtered d1 /\ CurrentView d2 = CurrentView d1 /\
    Cropped d2 = Cropped d1.
Proof.
  intros Hs Hn Eix Eks. pose proof (settled_cropped d Hs) as Hc.
  destruct (reachable_inv d (settled_reachable d Hs)) as [n' H].
  rewrite (inv_n_images n' d H) in Hn. injection Hn as ->.
  destruct (filter_slots n d args idx ix ks H Hc Eix Eks)
    as (d1 & crop & tgt & view & F1 & V1 & Ecrop & Etg & Ev & Hrun1 & Hinv1 &
        Hc1 & Ecrop1 & HF1 & HV1 & HlF1 & HlV1 & HsF1 & HsV1).
  destruct (filter_slots n d1 args idx ix ks Hinv1 Hc1 Eix Eks)
    as (d2 & crop' & tgt' & view' & F2 & V2 & Ecrop' & Etg' & Ev' & Hrun2 &
        Hinv2 & Hc2 & Ecrop2 & HF2 & HV2 & HlF & HlV & HsF2 & HsV2).
  rewrite (filtered_is_target _ _ HF1) in Etg'.
  assert (crop' = crop) as -> by congruence.
  assert (tgt' = F1) as -> by congruence.
  assert (view' = V1) as -> by congruence.
  exists d1, d2. do 2 (split; [assumption|]).
  assert (F2 = F1) as ->.
  { apply (slots_eq n); try assumption. intros k _.
    rewrite HsF2. unfold slot_after. case_decide; [|reflexivity].
    rewrite HsF1. unfold slot_after. by case_decide. }
  assert (V2 = V1) as ->.
  { apply (slots_eq n); try assumption. intros k _.
    rewrite HsV2. unfold slot_after. case_decide; [|reflexivity].
    rewrite HsV1. unfold slot_after. by case_decide. }
  repeat split; congruence.
Qed.

(** X6. [filter] over one list of indices and then over another, with
    the same arguments, leaves Filtered and Current View as one call over
    the two lists put together does. *)
Theorem filter_in_two_calls (d : dataset) (args : bandpass_args)
    (n : nat) (ix1 ix2 : list Z) (ks1 ks2 : list nat) :
  settled d -> n_images (CurrentView d) = Some n ->
  norm_indices n ix1 = inr ks1 -> norm_indices n ix2 = inr ks2 ->
  exists d1 d2 d12,
    filter args (IdxList ix1) d = Ret tt d1 /\
    filter args (IdxList ix2) d1 = Ret tt d2 /\
    filter args (IdxList (ix1 ++ ix2)) d = Ret tt d12 /\
    Filtered d2 = Filtered d12 /\ CurrentView d2 = CurrentView d12.
Proof.
  intros Hs Hn K1 K2. pose proof (settled_cropped d Hs) as Hc.
  destruct (reachable_inv d (settled_reachable d Hs)) as [n' H].
  rewrite (inv_n_images n' d H) in Hn. injection Hn as ->.
  destruct (filter_filter_slots n d args args (IdxList ix1) (IdxList ix2)
              ix1 ix2 ks1 ks2 H Hc eq_refl K1 eq_refl K2)
    as (d1 & d2 & crop & tgt & view & F & V & Ecrop & Etg & Ev & Hrun1 &
        Hrun2 & _ & _ & HF & HV & HlF & HlV & HsF & HsV).
  destruct (filter_slots n d args (IdxList (ix1 ++ ix2)) (ix1 ++ ix2)
              (ks1 ++ ks2) H Hc eq_refl (norm_indices_app n _ _ _ _ K1 K2))
    as (d12 & crop' & tgt' & view' & F' & V' & Ecrop' & Etg' & Ev' & Hrun12 &
        _ & _ & _ & HF' & HV' & HlF' & HlV' & HsF' & HsV').
  assert (crop' = crop) as -> by congruence.
  assert (tgt' = tgt) as -> by congruence.
  assert (view' = view) as -> by congruence.
  exists d1, d2, d12. do 3 (split; [assumption|]).
  assert (F = F') as ->.
  { apply (slots_eq n); try assumption. intros k _.
    rewrite HsF, HsF'. unfold slot_after.
    repeat case_decide; try reflexivity; exfalso;
      match goal with
      | H : context [_ ∈ _ ++ _] |- _ => rewrite elem_of_app in H; tauto
      end. }
  assert (V = V') as ->.
  { apply (slots_eq n); try assumption. intros k _.
    rewrite HsV, HsV'. unfold slot_after.
    repeat case_decide; try reflexivity; exfalso;
      match goal with
      | H : context [_ ∈ _ ++ _] |- _ => rewrite elem_of_app in H; tauto
      end. }
  split; congruence.
Qed.

(** X7. The [filter] call that fails on a dataset as constructed has set
    the filtered flag and recorded its arguments, so the next
    [apply_transforms] filters every image with them: Filtered and
    Current View become the whole Cropped stack filtered with the
    arguments of the failed call, whatever indices that call named. *)
Theorem failed_filter_is_replayed (ims : array_like) (dfs : defvals_like)
    (e : pyval) (d0 : dataset) (args : bandpass_args) (idx : index_like)
    (ix : list Z) (ks : list nat) :
  new ims dfs e = Ret tt d0 ->
  indices_of (length (promote ims)) idx = inr ix ->
  norm_indices (length (promote ims)) ix = inr ks ->
  exists t d1 d2,
    _transforms d0 = Some t /\
    filter args idx d0 = Raise IndexError d1 /\
    apply_transforms d1 = Ret tt d2 /\
    Cropped d2 = Some (Nd3 (transformed t (promote ims))) /\
    Filtered d2 =
      Some (Nd3 (bandpassed args (transformed t (promote ims)))) /\
    CurrentView d2 =
      Some (Nd3 (bandpassed args (transformed t (promote ims)))).
Proof.
  intros Hnew Eix Eks.
  apply new_spec in Hnew
    as (Hinv & Hraw & Hv & _ & _ & _ & _ & Hp0 & _ & Hf0 & _ & Hc0 & Hif0).
  destruct (inv_records _ d0 Hinv) as (t & f & bf & sh & Et & Ef & _ & _).
  assert (Et0 : filter_target d0 = Some Nd0).
  { unfold filter_target, Cropped. by rewrite Hif0, Hc0. }
  destruct (filter_no_target _ d0 args idx ix ks Hinv Eix Eks Et0)
    as (d1 & Hrun & Hinv1 & Hsame & Hg & Hi & _ & _ & Hp1 & _ & Ht1 & Hf1 &
        Hfi & _).
  assert (Eb1 : transform_base d1 = Some (Nd3 (promote ims))).
  { unfold transform_base. rewrite Hp1, Hp0.
    by apply (same_inputs_raw d0 d1). }
  destruct (apply_transforms_spec _ d1 t _ true _ Hinv1
              (eq_trans Ht1 Et) (Hfi f Ef) Hf1 Eb1)
    as (d2 & Hrun2 & _ & _ & _ & _ & _ & _ & _ & _ & _ & Hcrop & Hview &
        Hfilt).
  rewrite recorded_record_bandpass in Hview, Hfilt.
  exists t, d1, d2. repeat split; assumption.
Qed.

(** ** Construction and [preprocess] *)

(** X8. The constructor returns exactly when the defocus values, a
    number counting as one value, are as many as the images, a 2-D image
    counting as one. *)
Theorem construction_returns_iff (ims : array_like) (dfs : defvals_like)
    (e : pyval) :
  (exists d, new ims dfs e = Ret tt d) <->
  len_defvals (promote_defvals dfs) = inr (length (promote ims)).
Proof.
  split.
  - intros [d Hnew]. by apply new_spec in Hnew as (_ & _ & _ & _ & Hlen & _).
  - apply new_ok.
Qed.

(** X9. [preprocess] on a constructed dataset runs the whole pipeline
    again from Raw: Preprocessed is Raw cleaned, Cropped is that stack
    transformed, and Current View is Cropped, filtered with the recorded
    arguments when the filter stage had run. The options of the call are
    recorded and the recorded filter arguments are kept. *)
Theorem preprocess_reruns_the_pipeline (d : dataset) (h : bool)
    (m : option Z) (fast : bool) (kw : kwargs) :
  reachable d ->
  exists raw t f bf d',
    Raw d = Some (Nd3 raw) /\ _transforms d = Some t /\
    _filters d = Some f /\ _filtered d = Some bf /\
    preprocess h m fast kw d = Ret tt d' /\
    Preprocessed d' = Some (Nd3 (cleaned h m fast kw raw)) /\
    Cropped d' =
      Some (Nd3 (transformed t (cleaned h m fast kw raw))) /\
    CurrentView d' =
      Some (Nd3 (if bf
                 then bandpassed (recorded f)
                        (transformed t (cleaned h m fast kw raw))
                 else transformed t (cleaned h m fast kw raw))) /\
    _preprocessed d' = Some true /\ _cropped d' = Some true /\
    _filtered d' = Some bf /\ _transforms d' = Some t /\
    exists f',
      _filters d' = Some f' /\ hotpix f' = h /\ median f' = m /\
      recorded f' = recorded f.
Proof.
  intros Hr. destruct (reachable_inv d Hr) as [n H].
  destruct (inv_raw n d H) as (raw & Er & _).
  destruct (inv_records n d H) as (t & f & bf & sh & Et & Ef & Ebf & _).
  destruct (preprocess_spec n d h m fast kw raw t f bf H Er Et Ef Ebf)
    as (d' & Hrun & _ & _ & _ & Hp & Hc & Hf & Hfi & Ht & HP & HC & HV & _).
  exists raw, t, f, bf, d'. do 12 (split; [assumption|]).
  exists (record_preprocess h m f). by repeat split.
Qed.

(** ** The crop of [apply_transforms] *)

Lemma py_slice_lookup {A : Type} (lo hi : Z) (l : list A) (i : nat) :
  0 <= lo -> 0 <= hi ->
  py_slice lo hi l !! i =
  if decide (Z.of_nat i < hi - lo) then l !! (Z.to_nat lo + i)%nat else None.
Proof.
  intros Hlo Hhi. unfold py_slice, slice_bound.
  destruct (Z.ltb_spec lo 0) as [?|_]; [lia|].
  destruct (Z.ltb_spec hi 0) as [?|_]; [lia|].
  set (n := Z.of_nat (length l)).
  case_decide as Hi.
  - destruct (decide (Z.to_nat lo + i < length l)%nat) as [Hin|Hout].
    + rewrite lookup_take_lt by lia. rewrite lookup_drop.
      f_equal. lia.
    + rewrite (lookup_ge_None_2 l) by lia.
      destruct (decide (i < Z.to_nat (Z.min hi n - Z.min lo n))%nat).
      * rewrite lookup_take_lt by lia. rewrite lookup_drop.
        apply lookup_ge_None_2. lia.
      * apply lookup_take_ge. lia.
  - apply lookup_take_ge. lia.
Qed.

Lemma py_slice_all {A : Type} (hi : Z) (l : list A) :
  Z.of_nat (length l) <= hi -> py_slice 0 hi l = l.
Proof.
  intros Hhi. unfold py_slice, slice_bound.
  destruct (Z.ltb_spec 0 0) as [?|_]; [lia|].
  destruct (Z.ltb_spec hi 0) as [?|_]; [lia|].
  rewrite Z.min_r by lia. rewrite Z.min_l by lia.
  cbn [Z.to_nat drop]. apply take_ge. lia.
Qed.

Lemma py_slice_empty {A : Type} (lo hi : Z) (l : list A) :
  0 <= lo -> 0 <= hi -> hi <= lo -> py_slice lo hi l = [].
Proof.
  intros Hlo Hhi Hle. unfold py_slice, slice_bound.
  destruct (Z.ltb_spec lo 0) as [?|_]; [lia|].
  destruct (Z.ltb_spec hi 0) as [?|_]; [lia|].
  replace (Z.to_nat _) with 0%nat by lia. reflexivity.
Qed.

Lemma transformed_lookup (t : transforms) (s : stack) (k : nat) :
  transformed t s !! k = (fun im => crop t (rotated t im)) <$> s !! k.
Proof.
  unfold transformed, rotated.
  destruct (negb (Qeq_bool (rotation t) 0)).
  - rewrite !list_lookup_fmap. by destruct (s !! k).
  - by rewrite list_lookup_fmap.
Qed.

Lemma length_transformed (t : transforms) (s : stack) :
  length (transformed t s) = length s.
Proof.
  unfold transformed. destruct (negb _); by rewrite ?length_map.
Qed.

Lemma crop_pixel (t : transforms) (im : list (list px)) (i j : nat) :
  0 <= top t -> 0 <= bottom t -> 0 <= left t -> 0 <= right t ->
  pixel (crop t im) i j =
  if decide (Z.of_nat i < bottom t - top t /\
             Z.of_nat j < right t - left t)
  then pixel im (Z.to_nat (top t) + i) (Z.to_nat (left t) + j)
  else None.
Proof.
  intros Ht Hb Hl Hr. unfold pixel, crop.
  rewrite list_lookup_fmap, py_slice_lookup by assumption.
  destruct (decide (Z.of_nat i < bottom t - top t)) as [Hi|Hi].
  - destruct (im !! (Z.to_nat (top t) + i)%nat) as [row|]; cbn.
    + rewrite py_slice_lookup by assumption.
      repeat case_decide; try reflexivity; tauto.
    + by case_decide.
  - cbn. case_decide; [tauto|reflexivity].
Qed.

Lemma crop_all (t : transforms) (im : list (list px)) :
  top t = 0 -> left t = 0 -> Z.of_nat (length im) <= bottom t ->
  Forall (fun row => Z.of_nat (length row) <= right t) im ->
  crop t im = im.
Proof.
  intros Ht Hl Hb Hr. unfold crop. rewrite Ht, Hl.
  rewrite py_slice_all by assumption. clear Hb.
  induction Hr as [|row im Hrow Him IH]; [reflexivity|]. cbn.
  rewrite py_slice_all by assumption. by rewrite IH.
Qed.

Lemma transformed_all (t : transforms) (s : stack) :
  Qeq_bool (rotation t) 0%Q = true -> top t = 0 -> left t = 0 ->
  Forall (fun im =>
            Z.of_nat (length im) <= bottom t /\
            Forall (fun row => Z.of_nat (length row) <= right t) im)
         s ->
  transformed t s = s.
Proof.
  intros Hrot Htop Hleft Hall. unfold transformed. rewrite Hrot. cbn [negb].
  induction Hall as [|im s' [Hb Hrw] _ IH]; [reflexivity|]. cbn.
  rewrite crop_all by assumption. by rewrite IH.
Qed.

Lemma crop_empty (t : transforms) (im : list (list px)) :
  0 <= top t -> 0 <= bottom t -> bottom t <= top t -> crop t im = [].
Proof.
  intros Ht Hb Hle. unfold crop. by rewrite py_slice_empty.
Qed.

Lemma transformed_empty (t : transforms) (s : stack) :
  0 <= top t -> 0 <= bottom t -> bottom t <= top t ->
  transformed t s = replicate (length s) [].
Proof.
  intros Ht Hb Hle. unfold transformed.
  destruct (negb _); rewrite ?map_map;
    (induction s as [|im s IH]; [reflexivity|]; cbn;
     rewrite crop_empty by assumption; by rewrite IH).
Qed.

(** X10. With a rectangle of bounds that are not negative,
    [apply_transforms] makes Cropped the window of the rectangle: pixel
    (i, j) of a cropped image is pixel (top + i, left + j) of the image
    it starts from (rotated when the angle is not zero) for i below
    bottom - top and j below right - left, and there is no pixel beyond;
    bounds past the frame are clamped, not an error. *)
Theorem apply_transforms_crops_the_window (d : dataset) (t : transforms) :
  reachable d -> _transforms d = Some t ->
  0 <= top t -> 0 <= bottom t -> 0 <= left t -> 0 <= right t ->
  exists base d' crop,
    transform_base d = Some (Nd3 base) /\
    apply_transforms d = Ret tt d' /\
    Cropped d' = Some (Nd3 crop) /\ length crop = length base /\
    forall k im,
      base !! k = Some im ->
      exists c,
        crop !! k = Some c /\
        forall i j,
          pixel c i j =
          if decide (Z.of_nat i < bottom t - top t /\
                     Z.of_nat j < right t - left t)
          then pixel (rotated t im) (Z.to_nat (top t) + i)
                 (Z.to_nat (left t) + j)
          else None.
Proof.
  intros Hr Et Htop Hbot Hleft Hright.
  destruct (reachable_inv d Hr) as [n H].
  destruct (inv_records n d H) as (t' & f & bf & sh & Et' & Ef & Ebf & _).
  assert (t' = t) as -> by congruence.
  destruct (inv_transform_base n d H) as (base & Eb & _).
  destruct (apply_transforms_spec n d t f bf base H Et Ef Ebf Eb)
    as (d' & Hrun & _ & _ & _ & _ & _ & _ & _ & _ & _ & Hcrop & _).
  exists base, d', (transformed t base).
  do 3 (split; [assumption|]). split; [apply length_transformed|].
  intros k im Hk. exists (crop t (rotated t im)). split.
  - by rewrite transformed_lookup, Hk.
  - intros i j. by apply crop_pixel.
Qed.

(** X11. With no rotation and a rectangle from (0, 0) that covers every
    image, [apply_transforms] makes Cropped equal to the stack it starts
    from, and Current View too when the filter stage has not run. *)
Theorem apply_transforms_full_frame (d : dataset) (t : transforms)
    (base : stack) :
  reachable d -> _transforms d = Some t ->
  transform_base d = Some (Nd3 base) ->
  Qeq_bool (rotation t) 0%Q = true -> top t = 0 -> left t = 0 ->
  Forall (fun im =>
            Z.of_nat (length im) <= bottom t /\
            Forall (fun row => Z.of_nat (length row) <= right t) im)
         base ->
  exists d',
    apply_transforms d = Ret tt d' /\
    Cropped d' = Some (Nd3 base) /\
    (_filtered d = Some false -> CurrentView d' = Some (Nd3 base)).
Proof.
  intros Hr Et Eb Hrot Htop Hleft Hall.
  destruct (reachable_inv d Hr) as [n H].
  destruct (inv_records n d H) as (t' & f & bf & sh & Et' & Ef & Ebf & _).
  assert (t' = t) as -> by congruence.
  destruct (apply_transforms_spec n d t f bf base H Et Ef Ebf Eb)
    as (d' & Hrun & _ & _ & _ & _ & _ & _ & _ & _ & _ & Hcrop & Hview & _).
  rewrite (transformed_all t base) in Hcrop, Hview by assumption.
  exists d'. repeat split; try assumption.
  intros Hf. assert (bf = false) as -> by congruence. assumption.
Qed.

(** X12. A rectangle whose bottom is not below its top is no error:
    on a dataset whose filter stage has not run, [apply_transforms]
    returns, and Cropped and Current View hold one image without rows for
    each defocus value. *)
Theorem apply_transforms_empty_rectangle (d : dataset) (t : transforms) :
  reachable d -> _transforms d = Some t -> _filtered d = Some false ->
  0 <= top t -> 0 <= bottom t -> bottom t <= top t ->
  exists n d',
    n_defvals d = Some n /\
    apply_transforms d = Ret tt d' /\
    Cropped d' = Some (Nd3 (replicate n [])) /\
    CurrentView d' = Some (Nd3 (replicate n [])).
Proof.
  intros Hr Et Ebf Htop Hbot Hle.
  destruct (reachable_inv d Hr) as [n H].
  destruct (inv_records n d H) as (t' & f & bf & sh & Et' & Ef & Ebf' & _).
  assert (t' = t) as -> by congruence.
  assert (bf = false) as -> by congruence.
  destruct (inv_transform_base n d H) as (base & Eb & Hlen).
  destruct (apply_transforms_spec n d t f false base H Et Ef Ebf Eb)
    as (d' & Hrun & Hinv & _ & _ & _ & _ & _ & _ & _ & _ & Hcrop & Hview &
        _).
  exists n, d'. split; [by apply inv_n_defvals|]. split; [assumption|].
  rewrite Hcrop, Hview, <- Hlen. by rewrite transformed_empty.
Qed.

(** ** Assignment to [images] between two stages *)

(** The [images] setter, when the lengths agree: one new array, and no
    other attribute assigned. *)
Lemma set_images_frame (n : nat) (d : dataset) (ims : array_like) :
  inv n d -> length (promote ims) = n ->
  exists d',
    set_images ims d = Ret tt d' /\ inv n d' /\ grown d d' /\
    CurrentView d' = Some (Nd3 (promote ims)) /\
    _orig_images d' = _orig_images d /\
    _orig_images_preprocessed d' = _orig_images_preprocessed d /\
    _images_cropped d' = _images_cropped d /\
    _images_filtered d' = _images_filtered d /\
    _preprocessed d' = _preprocessed d /\ _cropped d' = _cropped d /\
    _filtered d' = _filtered d /\ _transforms d' = _transforms d /\
    _filters d' = _filters d.
Proof.
  intros H Hn. inv_open H d. arrays.
  methods; rewrite bind_ret_r; repeat step.
  len_test; repeat step.
  unfold ret; (eexists; split; [reflexivity|]).
  split; [inv_solve|].
  unfold grown; arrays; flat.
  repeat split; try reflexivity; solve [lk | grow].
Qed.

Lemma filtered_kept_grown (n : nat) (d d' : dataset) :
  inv n d -> grown d d' -> _images_filtered d' = _images_filtered d ->
  Filtered d' = Filtered d.
Proof.
  intros H Hg Hc. unfold Filtered. rewrite Hc.
  destruct H as [_ _ _ _ _ (b & c & _ & -> & Hfl) _ _ _].
  destruct c as [|l]; [reflexivity|]. cbn [array_of].
  destruct Hfl as (_ & [[Hl _]|(s & Hl & _)] & _); rewrite Hl;
    by eapply grown_lookup.
Qed.

Lemma unfiltered_has_no_cache (n : nat) (d : dataset) :
  inv n d -> _filtered d = Some false -> _images_filtered d = Some CNone.
Proof.
  intros H Hf.
  destruct H as [_ _ _ _ _ (b & c & Hb & Hc & Hfl) _ _ _].
  destruct c as [|l]; [assumption|].
  destruct Hfl as (-> & _). congruence.
Qed.

(** X13. Images the caller assigns do not enter the pipeline: the
    assignment replaces Current View and leaves Raw, Preprocessed,
    Cropped and Filtered as they were, and the next [apply_transforms]
    leaves Cropped, Filtered and Current View exactly as it would have
    without the assignment. *)
Theorem assigned_images_are_overwritten (d : dataset) (ims : array_like)
    (n : nat) :
  reachable d -> n_defvals d = Some n -> length (promote ims) = n ->
  exists d1 d2 d2',
    set_images ims d = Ret tt d1 /\
    CurrentView d1 = Some (Nd3 (promote ims)) /\
    Raw d1 = Raw d /\ Preprocessed d1 = Preprocessed d /\
    Cropped d1 = Cropped d /\ Filtered d1 = Filtered d /\
    apply_transforms d1 = Ret tt d2 /\
    apply_transforms d = Ret tt d2' /\
    Cropped d2 = Cropped d2' /\ Filtered d2 = Filtered d2' /\
    CurrentView d2 = CurrentView d2'.
Proof.
  intros Hr Hn Hlen. destruct (reachable_inv d Hr) as [n' H].
  rewrite (inv_n_defvals n' d H) in Hn. injection Hn as ->.
  destruct (set_images_frame n d ims H Hlen)
    as (d1 & Hrun1 & Hinv1 & Hg & Hv1 & Ho & Hp & Hc & Hfc & Hpf & Hcf &
        Hff & Ht & Hfi).
  pose proof (grown_others_kept d d1 Hg) as Hk.
  destruct (inv_records n d H) as (t & f & bf & sh & Et & Ef & Ebf & _).
  destruct (inv_transform_base n d H) as (base & Eb & _).
  assert (HP1 : Preprocessed d1 = Preprocessed d)
    by by eapply preprocessed_kept.
  assert (HR1 : Raw d1 = Raw d) by by eapply raw_kept.
  assert (Eb1 : transform_base d1 = Some (Nd3 base)).
  { revert Eb. unfold transform_base. by rewrite Hpf, HP1, HR1. }
  destruct (apply_transforms_spec n d1 t f bf base Hinv1
              (eq_trans Ht Et) (eq_trans Hfi Ef) (eq_trans Hff Ebf) Eb1)
    as (d2 & Hrun2 & _ & _ & _ & _ & _ & _ & _ & _ & _ & HC2 & HV2 & HF2).
  destruct (apply_transforms_spec n d t f bf base H Et Ef Ebf Eb)
    as (d2' & Hrun2' & _ & _ & _ & _ & _ & _ & _ & _ & _ & HC2' & HV2' &
        HF2').
  exists d1, d2, d2'.
  split; [assumption|]. split; [assumption|].
  do 2 (split; [assumption|]).
  split; [by eapply cropped_kept|].
  split; [by eapply filtered_kept_grown|].
  do 2 (split; [assumption|]).
  split; [congruence|]. split; [|congruence].
  destruct bf; [congruence|].
  unfold Filtered. rewrite HF2, HF2', Hfc.
  by rewrite (unfiltered_has_no_cache n d H Ebf).
Qed.

(** ** The image [select_ROI] shows, and the [image] property *)

(** [select_ROI] without an image: the image at [idx] of Preprocessed, or
    of Raw while [preprocess] has not run, filtered with the recorded
    arguments when the filter stage has run. *)
Lemma select_ROI_on_index (n : nat) (d : dataset) (idx : Z) (k : nat)
    (base : stack) (t : transforms) (f : filters) (bf : bool) :
  inv n d -> norm_index n idx = inr k ->
  transform_base d = Some (Nd3 base) ->
  _transforms d = Some t -> _filters d = Some f -> _filtered d = Some bf ->
  select_ROI idx None d =
  Ret tt
    (set__transforms
       (Some (_select_ROI
                (if bf
                 then _bandpass_filter (default [] (base !! k)) (recorded f)
                 else default [] (base !! k)) t)) d).
Proof.
  intros H Hk Eb Et Ef Ebf. inv_open H d. arrays. simplify_eq.
  methods; rewrite bind_ret_r; go.
  destruct pre; [known cp Hpre_flag|]; simplify_eq; go.
  all: unfold getitem.
  all: match goal with
       | |- context [norm_index (length ?s) _] =>
           replace (length s) with (length v) by congruence
       end.
  all: rewrite Hk; go.
  all: destruct bf; go; reflexivity.
Qed.

Lemma select_ROI_given_image (d : dataset) (idx : Z) (im : list (list px))
    (sh : nat * nat) (t : transforms) :
  _orig_shape d = Some sh -> shape_eqb (shape im) sh = true ->
  _transforms d = Some t ->
  select_ROI idx (Some im) d =
  Ret tt (set__transforms (Some (_select_ROI im t)) d).
Proof.
  intros Hsh Heq Ht. unfold select_ROI.
  rewrite !bind_bind, bind_attr, Hsh, Heq, bind_ret, bind_attr, Ht.
  reflexivity.
Qed.

(** X14. The image [select_ROI] hands to the ROI primitive: an image
    given by the caller as it is when its shape is the original one;
    otherwise the image at [idx] of Preprocessed, or of Raw while
    [preprocess] has not run, filtered with the recorded arguments when
    the filter stage has run; never an image of Cropped or of Current
    View. An [idx] out of range raises [IndexError] and nothing is
    done. *)
Theorem select_ROI_shows_the_uncropped_image (d : dataset) (idx : Z) :
  reachable d ->
  exists n base t f bf,
    n_defvals d = Some n /\ transform_base d = Some (Nd3 base) /\
    _transforms d = Some t /\ _filters d = Some f /\
    _filtered d = Some bf /\
    (forall e, norm_index n idx = inl e ->
               select_ROI idx None d = Raise IndexError d) /\
    (forall k,
       norm_index n idx = inr k ->
       exists im,
         base !! k = Some im /\
         select_ROI idx None d =
         Ret tt
           (set__transforms
              (Some (_select_ROI
                       (if bf then _bandpass_filter im (recorded f) else im)
                       t)) d)) /\
    (forall im sh,
       _orig_shape d = Some sh -> shape_eqb (shape im) sh = true ->
       select_ROI idx (Some im) d =
       Ret tt (set__transforms (Some (_select_ROI im t)) d)).
Proof.
  intros Hr. destruct (reachable_inv d Hr) as [n H].
  destruct (inv_records n d H) as (t & f & bf & sh & Et & Ef & Ebf & _).
  destruct (inv_transform_base n d H) as (base & Eb & Hlen).
  exists n, base, t, f, bf.
  split; [by apply inv_n_defvals|]. do 4 (split; [assumption|]).
  split; [|split].
  - intros e He. by apply (select_ROI_bad_index n d idx e).
  - intros k Hk. pose proof (norm_index_lt _ _ _ Hk) as Hlt.
    destruct (lookup_lt_is_Some_2 base k) as [im Him]; [lia|].
    exists im. split; [assumption|].
    rewrite (select_ROI_on_index n d idx k base t f bf) by assumption.
    by rewrite Him.
  - intros im sh' Hsh Heq. by apply (select_ROI_given_image d idx im sh').
Qed.

(** The [image] property on a constructed dataset. *)
Lemma image_spec (n : nat) (d : dataset) :
  inv n d ->
  exists view,
    CurrentView d = Some (Nd3 view) /\
    image_ d =
    match view with
    | [] => Raise IndexError d
    | im :: _ => Ret im d
    end.
Proof.
  intros H. inv_open H d. arrays. exists v.
  split; [first [assumption | congruence | by rewrite Hv]|].
  unfold image_. methods. go.
  unfold getitem, norm_index. destruct v as [|im v']; cbn [length].
  - cbn. go. reflexivity.
  - zcases; try lia. cbn. go. reflexivity.
Qed.

(** X15. The [image] property is the first image of Current View,
    whatever the stage, and reading it changes nothing; on a dataset
    without images it raises [IndexError]. After [filter] on index 0 of a
    settled dataset it is the first image of Cropped, filtered. *)
Theorem image_is_the_first_of_the_view (d : dataset) :
  reachable d ->
  exists v,
    CurrentView d = Some (Nd3 v) /\
    (v = [] -> image_ d = Raise IndexError d) /\
    (forall im, v !! 0%nat = Some im -> image_ d = Ret im d) /\
    (settled d -> v <> [] ->
     forall args,
       exists crop c d',
         Cropped d = Some (Nd3 crop) /\ crop !! 0%nat = Some c /\
         filter args (IdxInt 0) d = Ret tt d' /\
         image_ d' = Ret (_bandpass_filter c args) d').
Proof.
  intros Hr. destruct (reachable_inv d Hr) as [n H].
  destruct (inv_view n d H) as (v & Ev & Hv).
  exists v. split; [assumption|].
  assert (Him : image_ d =
                match v with [] => Raise IndexError d | im :: _ => Ret im d end).
  { destruct (image_spec n d H) as (v0 & Ev0 & Him).
    by assert (v0 = v) as <- by congruence. }
  split; [|split].
  - intros ->. assumption.
  - intros im Hl. destruct v as [|im' v']; [discriminate|].
    cbn in Hl. by simplify_eq.
  - intros Hs Hne args. pose proof (settled_cropped d Hs) as Hc.
    assert (Hpos : (0 < n)%nat) by (destruct v; [done|cbn in Hv; lia]).
    assert (Hk : norm_indices n [0] = inr [0%nat]).
    { pose proof (norm_index_nat n 0 Hpos) as Hn0.
      change (Z.of_nat 0) with 0 in Hn0. cbn [norm_indices].
      by rewrite Hn0. }
    destruct (filter_slots n d args (IdxInt 0) [0] [0%nat] H Hc eq_refl Hk)
      as (d' & crop & tgt & view & F & V & Ecrop & _ & _ & Hrun & Hinv' & _ &
          _ & _ & HV & _ & HlV & _ & HsV).
    assert (Hlc : length crop = n).
    { destruct (inv_filter_base n d H) as (b & Eb & Hb).
      revert Eb. unfold filter_base. rewrite Hc. congruence. }
    destruct (lookup_lt_is_Some_2 crop 0) as [c Hc0]; [lia|].
    exists crop, c, d'. do 3 (split; [assumption|]).
    destruct (image_spec n d' Hinv') as (V0 & EV0 & ->).
    assert (V0 = V) as -> by congruence.
    specialize (HsV 0%nat). unfold slot_after in HsV.
    rewrite decide_True in HsV by (apply list_elem_of_here).
    rewrite Hc0 in HsV. destruct V as [|im V']; [discriminate|].
    cbn in HsV. by simplify_eq.
Qed.

End Proofs.

(** * The loader *)

Section LoaderProofs.
Context {E : Externals} {R : Readers}.

Lemma passes_on_spec (kw : pydict) :
  passes_on
    (delete "simulated"%string
       (delete "data_files"%string
          (delete "beam_energy"%string
             (delete "scale"%string (delete "defvals"%string kw)))))
    = true <->
  forall k, is_Some (kw !! k) -> k ∈ keywords.
Proof.
  unfold passes_on. rewrite bool_decide_eq_true. split.
  - intros Hempty k [v Hk].
    destruct (decide (k ∈ keywords)) as [|Hnot]; [assumption|exfalso].
    pose proof (f_equal (fun m : pydict => m !! k) Hempty) as Hl.
    cbn beta in Hl. unfold keywords in Hnot.
    rewrite !not_elem_of_cons in Hnot.
    destruct Hnot as (? & ? & ? & ? & ? & ? & _).
    rewrite !lookup_delete_ne in Hl by congruence.
    rewrite Hk in Hl. by rewrite lookup_empty in Hl.
  - intros Hall. apply map_eq. intros k. rewrite lookup_empty.
    destruct (decide (k ∈ keywords)) as [Hin|Hnot].
    + unfold keywords in Hin. rewrite !elem_of_cons in Hin.
      destruct Hin as [->|[->|[->|[->|[->|[->|Hin]]]]]];
        [..|by apply elem_of_nil in Hin];
        repeat first [ apply lookup_delete_eq
                     | rewrite lookup_delete_ne by done ].
    + destruct (_ !! k) as [v|] eqn:Hk; [|reflexivity].
      exfalso. apply Hnot, Hall. exists v.
      repeat (apply lookup_delete_Some in Hk as [_ Hk]). assumption.
Qed.

Lemma get_dict_or (a b : pydict) (k : string) (dflt : pyobj) :
  default dflt (dict_or a b !! k) =
  match b !! k with
  | Some v => v
  | None => default dflt (a !! k)
  end.
Proof.
  unfold dict_or. rewrite lookup_union.
  by destruct (b !! k), (a !! k).
Qed.

(** [load] once the images and the metadata are there. *)
Lemma load_after_resolve (images : images_arg) (metadata : metadata_arg)
    (kw pm mdata : pydict) (a : array_like) :
  parsed metadata = inr pm -> resolve images metadata = inr (a, mdata) ->
  load images metadata kw =
  let defvals :=
    default (get mdata "defocus_values") (kw !! "defvals"%string) in
  match defvals with
  | ONone => inl (Builtin ValueError)
  | _ =>
      if passes_on
           (delete "simulated"%string
              (delete "data_files"%string
                 (delete "beam_energy"%string
                    (delete "scale"%string (delete "defvals"%string kw)))))
      then inr {| arg_images := a;
                  arg_scale :=
                    default (get mdata "scale") (kw !! "scale"%string);
                  arg_defvals := defvals;
                  arg_beam_energy :=
                    default (get mdata "beam_energy")
                      (kw !! "beam_energy"%string);
                  arg_data_files := resolved_files kw mdata;
                  arg_simulated :=
                    default (get_or mdata "simulated" (OBool false))
                      (kw !! "simulated"%string);
                  arg_verbose := kw !! "verbose"%string |}
      else inl (Builtin TypeError)
  end.
Proof.
  intros Hp Hr. unfold load. rewrite Hp, Hr. cbn [and_then]. unfold pop.
  rewrite !lookup_delete_ne by done.
  unfold resolved_files, get_or, get.
  destruct (kw !! "data_files"%string), (mdata !! "data_files"%string);
    reflexivity.
Qed.

Lemma load_returned (images : images_arg) (metadata : metadata_arg)
    (kw : pydict) (args : init_args) :
  load images metadata kw = inr args ->
  exists pm a mdata,
    parsed metadata = inr pm /\ resolve images metadata = inr (a, mdata).
Proof.
  unfold load. destruct (parsed metadata) as [e|pm]; [discriminate|].
  cbn [and_then].
  destruct (resolve images metadata) as [e|[a mdata]]; [discriminate|].
  intros _. by exists pm, a, mdata.
Qed.

(** X16. When [load] gets as far as calling the class, the defocus
    values it passes are not [None] and are those of the [defvals]
    keyword when there is one, every keyword it was given is one of
    [defvals], [scale], [beam_energy], [data_files], [simulated] and
    [verbose], and [verbose] is passed on as given. When the constructor
    then returns, Raw holds the images [load] passed, there are as many
    images as defocus values, and [energy] raises [AttributeError],
    whatever beam energy the keywords or the metadata gave. *)
Theorem load_returns_only_with_defvals (images : images_arg)
    (metadata : metadata_arg) (kw : pydict) (args : init_args) :
  load images metadata kw = inr args ->
  arg_defvals args <> ONone /\
  (forall v, kw !! "defvals"%string = Some v -> arg_defvals args = v) /\
  (forall k, is_Some (kw !! k) -> k ∈ keywords) /\
  arg_verbose args = kw !! "verbose"%string /\
  forall d,
    construct args = Some (Ret tt d) ->
    Raw d = Some (Nd3 (promote (arg_images args))) /\
    n_images (CurrentView d) = n_defvals d /\
    energy d = Raise AttributeError d.
Proof.
  intros Hload.
  destruct (load_returned _ _ _ _ Hload) as (pm & a & mdata & Hp & Hr).
  rewrite (load_after_resolve _ _ _ _ _ _ Hp Hr) in Hload.
  cbv zeta in Hload.
  destruct (default _ (kw !! "defvals"%string)) as [| | | | | |] eqn:Hdv;
    [discriminate|..].
  all: destruct (passes_on _) eqn:Hpass; [|discriminate].
  all: pose proof (proj1 (passes_on_spec kw) Hpass) as Hkeys.
  all: injection Hload as <-; cbn [arg_defvals arg_verbose arg_images
                                   arg_beam_energy].
  all: split; [discriminate|].
  all: split; [intros v Hv; rewrite Hv in Hdv; by cbn in Hdv|].
  all: do 2 (split; [done|]).
  all: intros d Ho; unfold construct in Ho;
    cbn [arg_defvals arg_beam_energy arg_images as_defvals] in Ho.
  all: destruct (as_pyval _) as [e|]; cbn [mbind option_bind] in Ho;
    [|discriminate].
  all: try discriminate.
  all: injection Ho as Hd.
  all: apply new_spec in Hd as (Hinv & Hraw & _ & _ & _ & _ & Hb & _).
  all: split; [assumption|].
  all: split;
    [rewrite (inv_n_images _ d Hinv); symmetry; by apply inv_n_defvals|].
  all: unfold energy, attr; by rewrite Hb.
Qed.

(** X17. [load] of an image file with a metadata dictionary: each
    argument of the class call is the keyword when there is one, else the
    value of the dictionary, else the value of the file's own metadata
    (for [simulated], else [False]); [data_files] falls back on
    [data_files] and then on [filepath] of the merged metadata. Defocus
    values that resolve to [None] raise [ValueError]; otherwise a keyword
    that is none of the six raises [TypeError]. *)
Theorem load_prefers_keywords_then_metadata (p : string)
    (m kw fm pm : pydict) (a : array_like) :
  _parse_mdata (MetaDict m) = inr pm -> read_image p = inr (a, fm) ->
  let defvals := resolved kw m fm "defvals" "defocus_values" ONone in
  (defvals = ONone ->
   load (ImagesPath p) (MetaDict m) kw = inl (Builtin ValueError)) /\
  (defvals <> ONone ->
   (exists k, is_Some (kw !! k) /\ k ∉ keywords) ->
   load (ImagesPath p) (MetaDict m) kw = inl (Builtin TypeError)) /\
  (defvals <> ONone ->
   (forall k, is_Some (kw !! k) -> k ∈ keywords) ->
   load (ImagesPath p) (MetaDict m) kw =
   inr {| arg_images := a;
          arg_scale := resolved kw m fm "scale" "scale" ONone;
          arg_defvals := defvals;
          arg_beam_energy :=
            resolved kw m fm "beam_energy" "beam_energy" ONone;
          arg_data_files := resolved_files kw (dict_or fm m);
          arg_simulated :=
            resolved kw m fm "simulated" "simulated" (OBool false);
          arg_verbose := kw !! "verbose"%string |}).
Proof.
  intros Hp Hr defvals.
  assert (Hparsed : parsed (MetaDict m) = inr pm).
  { unfold parsed. by rewrite Hp. }
  assert (Hres : resolve (ImagesPath p) (MetaDict m)
                 = inr (a, dict_or fm m)).
  { unfold resolve. by rewrite Hr. }
  rewrite (load_after_resolve _ _ kw _ _ _ Hparsed Hres). cbv zeta.
  unfold get, get_or. rewrite !get_dict_or.
  fold (resolved kw m fm "defvals" "defocus_values" ONone). fold defvals.
  assert (Hres' : forall kk key dflt,
            default (match m !! key with
                     | Some v => v
                     | None => default dflt (fm !! key)
                     end) (kw !! kk) = resolved kw m fm kk key dflt).
  { intros kk key dflt. unfold resolved. by destruct (kw !! kk). }
  rewrite !Hres'. fold defvals.
  split; [|split].
  - intros ->. reflexivity.
  - intros Hdv [k [Hk Hnot]].
    destruct (passes_on _) eqn:Hpass.
    + exfalso. apply Hnot. by apply (proj1 (passes_on_spec kw) Hpass).
    + by destruct defvals.
  - intros Hdv Hkeys. rewrite (proj2 (passes_on_spec kw) Hkeys).
    by destruct defvals.
Qed.

(** X18. [load] of an array: an array without a first item raises
    [IndexError]; otherwise the arguments come from the keywords and then
    from the parsed metadata alone, defocus values that resolve to [None]
    raise [ValueError], and a keyword that is none of the six raises
    [TypeError]. *)
Theorem load_of_an_array (a : array_like) (metadata : metadata_arg)
    (kw pm : pydict) :
  parsed metadata = inr pm ->
  let defvals := resolved kw pm ∅ "defvals" "defocus_values" ONone in
  (has_first_item a = false ->
   load (ImagesArray a) metadata kw = inl (Builtin IndexError)) /\
  (has_first_item a = true -> defvals = ONone ->
   load (ImagesArray a) metadata kw = inl (Builtin ValueError)) /\
  (has_first_item a = true -> defvals <> ONone ->
   (exists k, is_Some (kw !! k) /\ k ∉ keywords) ->
   load (ImagesArray a) metadata kw = inl (Builtin TypeError)) /\
  (has_first_item a = true -> defvals <> ONone ->
   (forall k, is_Some (kw !! k) -> k ∈ keywords) ->
   load (ImagesArray a) metadata kw =
   inr {| arg_images := a;
          arg_scale := resolved kw pm ∅ "scale" "scale" ONone;
          arg_defvals := defvals;
          arg_beam_energy :=
            resolved kw pm ∅ "beam_energy" "beam_energy" ONone;
          arg_data_files := resolved_files kw pm;
          arg_simulated :=
            resolved kw pm ∅ "simulated" "simulated" (OBool false);
          arg_verbose := kw !! "verbose"%string |}).
Proof.
  intros Hparsed defvals. split.
  { intros Hno. unfold load. rewrite Hparsed. cbn [and_then].
    unfold resolve. by rewrite Hno. }
  assert (Hres : has_first_item a = true ->
                 resolve (ImagesArray a) metadata = inr (a, pm)).
  { intros Hyes. unfold resolve. by rewrite Hyes, Hparsed. }
  assert (Hres' : forall kk key dflt,
            default (default dflt (pm !! key)) (kw !! kk)
            = resolved kw pm ∅ kk key dflt).
  { intros kk key dflt. unfold resolved. rewrite lookup_empty.
    by destruct (kw !! kk), (pm !! key). }
  split; [|split].
  all: intros Hyes.
  all: rewrite (load_after_resolve _ _ kw _ _ _ Hparsed (Hres Hyes)).
  all: cbv zeta; unfold get, get_or; rewrite !Hres'; fold defvals.
  - intros ->. reflexivity.
  - intros Hdv [k [Hk Hnot]].
    destruct (passes_on _) eqn:Hpass.
    + exfalso. apply Hnot. by apply (proj1 (passes_on_spec kw) Hpass).
    + by destruct defvals.
  - intros Hdv Hkeys. rewrite (proj2 (passes_on_spec kw) Hkeys).
    by destruct defvals.
Qed.

(** X19. What [load] gives up on before it looks at the keywords: a
    failure of the metadata parser is raised as it is, whatever the
    images; a list of paths raises [NotImplementedError] and an empty
    list [IndexError]; and with an image file, metadata that is neither a
    dictionary nor a path raises [ValueError] although it was parsed. *)
Theorem load_fails_early (metadata : metadata_arg) (kw : pydict) :
  (forall images e,
     metadata <> MetaNone -> _parse_mdata metadata = inl e ->
     load images metadata kw = inl (Builtin e)) /\
  (forall pm p ps,
     parsed metadata = inr pm ->
     load (ImagesPaths (p :: ps)) metadata kw = inl NotImplementedError) /\
  (forall pm,
     parsed metadata = inr pm ->
     load (ImagesPaths []) metadata kw = inl (Builtin IndexError)) /\
  (forall pm p a fm,
     _parse_mdata MetaOther = inr pm -> read_image p = inr (a, fm) ->
     load (ImagesPath p) MetaOther kw = inl (Builtin ValueError)).
Proof.
  repeat split.
  - intros images e Hne He. unfold load, parsed.
    destruct metadata; [done|..]; by rewrite He.
  - intros pm p ps Hp. unfold load. by rewrite Hp.
  - intros pm Hp. unfold load. by rewrite Hp.
  - intros pm p a fm Hp Hr. unfold load, parsed. rewrite Hp.
    cbn [builtin and_then]. unfold resolve. by rewrite Hr.
Qed.

End LoaderProofs.

(** * The scenario, run *)

(** C1 on the scenario: after the calls of [demo_calls] there are as many
    images as defocus values. *)
Lemma C1_on_the_scenario :
  new (Stack demo_stack) demo_defvals PyNone = Ret tt demo_new /\
  exists n,
    n_images (CurrentView (run_all demo_calls demo_new)) = Some n /\
    n_defvals (run_all demo_calls demo_new) = Some n.
Proof.
  assert (H : new (Stack demo_stack) demo_defvals PyNone = Ret tt demo_new)
    by (vm_compute; reflexivity).
  split; [exact H|].
  exact (proj1 (C1_images_and_defvals_agree _ _ _ _ demo_calls H)).
Defined.

(** C7 on the scenario: Raw after the calls of [demo_calls]. *)
Lemma C7_on_the_scenario :
  new (Stack demo_stack) demo_defvals PyNone = Ret tt demo_new /\
  Raw (run_all demo_calls demo_new) = Raw demo_new.
Proof.
  assert (H : new (Stack demo_stack) demo_defvals PyNone = Ret tt demo_new)
    by (vm_compute; reflexivity).
  split; [exact H|].
  exact (proj2 (proj2 (C7_raw_is_never_mutated _ _ _ _ demo_calls H))).
Defined.

(** C10 on the scenario: [energy] right after construction. *)
Lemma C10_on_the_scenario :
  new (Stack demo_stack) demo_defvals PyNone = Ret tt demo_new /\
  energy demo_new = Raise AttributeError demo_new.
Proof.
  assert (H : new (Stack demo_stack) demo_defvals PyNone = Ret tt demo_new)
    by (vm_compute; reflexivity).
  split; [exact H|].
  exact (proj1 (proj2 (proj2
           (C10_energy_unset_after_construction _ _ _ _ [] H)))).
Defined.

(** C3 on the scenario: the filtered dataset, given [demo_transforms]. *)
Lemma C3_on_the_scenario :
  reachable demo_filtered /\
  _filtered demo_filtered = Some true /\
  _filters demo_filtered = Some demo_filters /\
  exists d2 crop,
    apply_transforms (set__transforms (Some demo_transforms) demo_filtered)
      = Ret tt d2 /\
    Cropped d2 = Some (Nd3 crop) /\
    Filtered d2 = Some (Nd3 (bandpassed (recorded demo_filters) crop)).
Proof.
  assert (Hr : reachable demo_filtered).
  { exists (Stack demo_stack), demo_defvals, PyNone, demo_new,
      [ApplyTransforms; Filter demo_args IdxNone].
    split; vm_compute; reflexivity. }
  assert (Hf : _filtered demo_filtered = Some true) by reflexivity.
  assert (Hfi : _filters demo_filtered = Some demo_filters) by reflexivity.
  do 3 (split; [assumption|]).
  destruct (C3_apply_transforms_replays_filter demo_filtered demo_filters
              demo_transforms Hr Hf Hfi)
    as (d2 & crop & Hrun & Hc & HF & _).
  exists d2, crop. repeat split; assumption.
Defined.

(** C8 on the scenario: hot pixel removal and a median filter of size 3,
    twice. *)
Lemma C8_on_the_scenario :
  reachable demo_new /\
  exists d1 d2,
    preprocess (E := Demo) true (Some 3) false tt demo_new = Ret tt d1 /\
    preprocess (E := Demo) true (Some 3) false tt d1 = Ret tt d2 /\
    Preprocessed d2 = Preprocessed d1.
Proof.
  assert (Hr : reachable demo_new).
  { exists (Stack demo_stack), demo_defvals, PyNone, demo_new, [].
    split; vm_compute; reflexivity. }
  split; [exact Hr|].
  destruct (C8_preprocess_twice_rebuilds_from_raw (E := Demo) demo_new true
              (Some 3) false tt Hr)
    as (raw & d0 & d1 & d1' & d2 & _ & _ & _ & _ & H1 & _ & _ & _ & _ & _ &
        H2 & _ & _ & HP).
  exists d1, d2. repeat split; assumption.
Defined.

(** C6 on the scenario: [apply_transforms] on the cropped dataset. *)
Lemma C6_on_the_scenario :
  reachable demo_cropped /\
  exists d',
    apply_transforms demo_cropped = Ret tt d' /\ CurrentView d' = latest d'.
Proof.
  assert (Hr : reachable demo_cropped).
  { exists (Stack demo_stack), demo_defvals, PyNone, demo_new,
      [ApplyTransforms].
    split; vm_compute; reflexivity. }
  split; [exact Hr|].
  exact (proj1 (proj2 (C6_view_is_latest_cache demo_cropped Hr))).
Defined.

(** The filter stage on the image of index 1 alone: Filtered is zero at
    the indices 0 and 2, where Current View keeps the cropped images. *)
Lemma C6_subset_filter_view_is_not_filtered :
  filter demo_args (IdxInt 1) demo_cropped = Ret tt demo_subset /\
  _filtered demo_subset = Some true /\
  latest demo_subset = Filtered demo_subset /\
  Filtered demo_subset =
    Some (@Nd3 Demo
            [ [[0; 0]; [0; 0]]; [[6; 7]; [8; 9]]; [[0; 0]; [0; 0]] ]) /\
  CurrentView demo_subset =
    Some (@Nd3 Demo
            [ [[1; 2]; [3; 4]]; [[6; 7]; [8; 9]]; [[9; 10]; [11; 12]] ]) /\
  CurrentView demo_subset <> latest demo_subset.
Proof.
  repeat split; try (vm_compute; reflexivity).
  vm_compute. discriminate.
Qed.

(** C4 on the scenario: the cropped dataset, and a constructor call with
    two defocus values for the three images. *)
Lemma C4_on_the_scenario :
  reachable demo_cropped /\
  len_defvals (promote_defvals demo_defvals_short) = inr 2%nat /\
  2%nat <> length (promote (Stack demo_stack)) /\
  (forall args, filter args IdxOther demo_cropped
                 = Raise TypeError demo_cropped) /\
  exists d',
    new (Stack demo_stack) demo_defvals_short PyNone = Raise ValueError d' /\
    Raw d' = Some (Nd3 demo_stack).
Proof.
  assert (Hr : reachable demo_cropped).
  { exists (Stack demo_stack), demo_defvals, PyNone, demo_new,
      [ApplyTransforms].
    split; vm_compute; reflexivity. }
  assert (Hm : len_defvals (promote_defvals demo_defvals_short) = inr 2%nat)
    by reflexivity.
  assert (Hne : 2%nat <> length (promote (Stack demo_stack)))
    by (cbn; lia).
  do 3 (split; [assumption|]).
  destruct (C4_failed_calls_and_what_they_leave demo_cropped
              (Stack demo_stack) demo_defvals_short PyNone 2 Hr Hm Hne)
    as (_ & _ & _ & _ & _ & _ & Hfilter & _ & d' & Hnew & Hraw & _).
  split; [exact Hfilter|].
  exists d'. split; assumption.
Defined.

(** Two failing calls that leave state behind. Three images and two
    defocus values: the constructor raises [ValueError] with [images] and
    Raw set on the object, and the three caches set to [None]. [filter]
    on the image of index 1 of the dataset as constructed, a stage method
    failing after its entry: it raises [IndexError] with the filtered
    flag set, its arguments recorded and [_images_filtered] created. *)
Lemma C4_failed_calls_leave_state_behind :
  new (Stack demo_stack) demo_defvals_short PyNone
    = Raise ValueError demo_failed /\
  Raw demo_failed = Some (Nd3 demo_stack) /\
  CurrentView demo_failed = Some (Nd3 demo_stack) /\
  _orig_images_preprocessed demo_failed = Some CNone /\
  _images_cropped demo_failed = Some CNone /\
  _images_filtered demo_failed = Some CNone /\
  demo_failed <> blank /\
  new (Stack demo_stack) demo_defvals PyNone = Ret tt demo_new /\
  filter demo_args (IdxInt 1) demo_new = Raise IndexError demo_slipped /\
  _filtered demo_new = Some false /\ _filtered demo_slipped = Some true /\
  _filters demo_new = Some (@base_filters Demo) /\
  _filters demo_slipped = Some demo_filters /\
  demo_filters <> @base_filters Demo /\
  _images_filtered demo_new = Some CNone /\
  Filtered demo_slipped = Some Nd0 /\
  demo_slipped <> demo_new.
Proof.
  repeat split; try (vm_compute; reflexivity).
  all: vm_compute; discriminate.
Qed.

(** C2 on the scenario: [filter] on the image of index 1 of the dataset as
    constructed. *)
Lemma C2_on_the_scenario :
  new (Stack demo_stack) demo_defvals PyNone = Ret tt demo_new /\
  indices_of (length (promote (Stack demo_stack))) (IdxInt 1) = inr [1] /\
  norm_indices (length (promote (Stack demo_stack))) [1] = inr [1%nat] /\
  exists d',
    filter demo_args (IdxInt 1) demo_new = Raise IndexError d' /\
    _filtered d' = Some true /\ Filtered d' = Some Nd0.
Proof.
  assert (H : new (Stack demo_stack) demo_defvals PyNone = Ret tt demo_new)
    by (vm_compute; reflexivity).
  assert (Hix : indices_of (length (promote (Stack demo_stack))) (IdxInt 1)
                = inr [1]) by reflexivity.
  assert (Hks : norm_indices (length (promote (Stack demo_stack))) [1]
                = inr [1%nat]) by reflexivity.
  do 3 (split; [assumption|]).
  destruct (C2_filter_before_transforms_raises _ _ _ _ demo_args _ _ _
              H Hix Hks)
    as (d' & Hrun & _ & Hf & _ & HF & _).
  exists d'. repeat split; assumption.
Defined.

(** C5 on the scenario: construction with a beam energy of -5. *)
Lemma C5_on_the_scenario :
  len_defvals (promote_defvals demo_defvals)
    = inr (length (promote (Stack demo_stack))) /\
  exists d0 : @dataset Demo,
    new (Stack demo_stack) demo_defvals (PyInt (-5)) = Ret tt d0 /\
    beam_energy d0 = Some (PyInt (-5)) /\
    set_energy (PyInt (-5)) d0 = Raise ValueError d0.
Proof.
  assert (Hn : len_defvals (promote_defvals demo_defvals)
               = inr (length (promote (E := Demo) (Stack demo_stack))))
    by reflexivity.
  split; [exact Hn|].
  destruct (C5_constructor_takes_any_energy (Stack demo_stack)
              demo_defvals (PyInt (-5)) Hn)
    as (d0 & Hnew & Hbe & _ & _ & Hneg & _).
  exists d0. split; [exact Hnew|]. split; [exact Hbe|].
  apply (Hneg (-5 # 1)%Q); reflexivity.
Defined.

(** The setter of [energy] on two large integers: [2^53 + 1] is stored
    as [2^53], and [10^400] raises [OverflowError]. *)
Lemma set_energy_on_large_integers :
  set_energy (PyInt (2 ^ 53 + 1)) demo_new
    = Ret tt (set__beam_energy (Some (inject_Z (2 ^ 53))) demo_new) /\
  set_energy (PyInt (10 ^ 400)) demo_new = Raise OverflowError demo_new.
Proof. split; vm_compute; reflexivity. Qed.

(** X1 on the scenario: [filter] on the image of index 1 of the cropped
    dataset. *)
Lemma filter_writes_selected_only_on_the_scenario :
  settled demo_cropped /\
  exists d' F V,
    filter demo_args (IdxInt 1) demo_cropped = Ret tt d' /\
    Filtered d' = Some (Nd3 F) /\ CurrentView d' = Some (Nd3 V) /\
    (forall k, k ∉ [1%nat] ->
       F !! k = ([ [[0; 0]; [0; 0]]; [[0; 0]; [0; 0]]; [[0; 0]; [0; 0]] ]
                   : list (list (list Z))) !! k /\
       V !! k = demo_stack !! k).
Proof.
  assert (Hs : settled demo_cropped).
  { exists demo_new, ApplyTransforms, []. repeat split.
    exists (Stack demo_stack), demo_defvals, PyNone, demo_new, [].
    split; vm_compute; reflexivity. }
  split; [exact Hs|].
  destruct (filter_writes_selected_only demo_cropped demo_args (IdxInt 1)
              3 [1] [1%nat] Hs eq_refl eq_refl eq_refl)
    as (d' & crop & tgt & view & F & V & Hc & Ht & Hv & _ & Hrun & HF & HV &
        _ & Hnin & _).
  exists d', F, V. do 3 (split; [assumption|]).
  injection Ht as <-. injection Hv as <-. exact Hnin.
Defined.

(** X2 on the scenario: [select_ROI] on the first image of the cropped
    dataset. *)
Lemma select_ROI_edits_transforms_only_on_the_scenario :
  reachable demo_cropped /\
  ((exists e, select_ROI 0 None demo_cropped = Raise e demo_cropped) \/
   (exists t',
      select_ROI 0 None demo_cropped
        = Ret tt (set__transforms (Some t') demo_cropped))).
Proof.
  assert (Hr : reachable demo_cropped).
  { exists (Stack demo_stack), demo_defvals, PyNone, demo_new,
      [ApplyTransforms].
    split; vm_compute; reflexivity. }
  split; [exact Hr|].
  destruct (select_ROI_edits_transforms_only demo_cropped 0 None Hr)
    as [He|(t' & d' & Hrun & -> & _)].
  - left. exact He.
  - right. exists t'. exact Hrun.
Defined.

(** X3 on the scenario: [apply_transforms] on the dataset as
    constructed. *)
Lemma apply_transforms_crops_the_base_on_the_scenario :
  reachable demo_new /\
  exists t base d',
    _transforms demo_new = Some t /\
    transform_base demo_new = Some (Nd3 base) /\
    apply_transforms demo_new = Ret tt d' /\
    Cropped d' = Some (Nd3 (transformed t base)).
Proof.
  assert (Hr : reachable demo_new).
  { exists (Stack demo_stack), demo_defvals, PyNone, demo_new, [].
    split; vm_compute; reflexivity. }
  split; [exact Hr|].
  destruct (apply_transforms_crops_the_base demo_new Hr)
    as (t & base & d' & Ht & Hb & Hrun & Hc & _).
  exists t, base, d'. repeat split; assumption.
Defined.

(** * More of the code, on the scenario *)

Lemma demo_new_reachable : reachable demo_new.
Proof.
  exists (Stack demo_stack), demo_defvals, PyNone, demo_new, [].
  split; vm_compute; reflexivity.
Qed.

Lemma demo_cropped_reachable : reachable demo_cropped.
Proof.
  exists (Stack demo_stack), demo_defvals, PyNone, demo_new,
    [ApplyTransforms].
  split; vm_compute; reflexivity.
Qed.

Lemma demo_cropped_settled : settled demo_cropped.
Proof.
  exists demo_new, ApplyTransforms, []. repeat split.
  exact demo_new_reachable.
Qed.

Lemma demo_roi_reachable : reachable demo_roi.
Proof.
  exists (Stack demo_stack), demo_defvals, PyNone, demo_new,
    [AssignTransforms demo_transforms].
  split; vm_compute; reflexivity.
Qed.

Lemma demo_flat_reachable : reachable demo_flat.
Proof.
  exists (Stack demo_stack), demo_defvals, PyNone, demo_new,
    [AssignTransforms demo_no_rows].
  split; vm_compute; reflexivity.
Qed.

(** X4 on the scenario: [filter] on the images 0 and 1 of the cropped
    dataset, then on image 1 with other arguments. *)
Lemma filter_again_replaces_on_the_scenario :
  settled demo_cropped /\
  exists d1 d2 F V,
    filter demo_args (IdxList [0; 1]) demo_cropped = Ret tt d1 /\
    filter demo_args_2 (IdxInt 1) d1 = Ret tt d2 /\
    Filtered d2 = Some (Nd3 F) /\ CurrentView d2 = Some (Nd3 V) /\
    F !! 1%nat
      = Some (_bandpass_filter (default [] (demo_stack !! 1%nat))
                demo_args_2) /\
    F !! 0%nat
      = Some (_bandpass_filter (default [] (demo_stack !! 0%nat))
                demo_args) /\
    V !! 2%nat = demo_stack !! 2%nat.
Proof.
  split; [exact demo_cropped_settled|].
  destruct (filter_again_replaces demo_cropped demo_args demo_args_2
              (IdxList [0; 1]) (IdxInt 1) 3 [0; 1] [1] [0%nat; 1%nat]
              [1%nat] demo_cropped_settled eq_refl eq_refl eq_refl eq_refl
              eq_refl)
    as (d1 & d2 & crop & tgt & view & F & V & Hc & Ht & Hv & H1 & H2 & HF &
        HV & Hk).
  exists d1, d2, F, V. do 4 (split; [assumption|]).
  injection Hc as <-. injection Hv as <-.
  split; [|split].
  - destruct (Hk 1%nat) as (Hin & _ & _).
    apply Hin. repeat constructor.
  - destruct (Hk 0%nat) as (_ & Hin & _).
    apply Hin; [|repeat constructor].
    rewrite !not_elem_of_cons. split; [discriminate|apply not_elem_of_nil].
  - destruct (Hk 2%nat) as (_ & _ & Hout).
    apply Hout; rewrite !not_elem_of_cons;
      repeat split; try discriminate; apply not_elem_of_nil.
Defined.

(** X5 on the scenario: [filter] over every image of the cropped
    dataset, twice. *)
Lemma filter_twice_is_filter_once_on_the_scenario :
  settled demo_cropped /\
  exists d1 d2,
    filter demo_args IdxNone demo_cropped = Ret tt d1 /\
    filter demo_args IdxNone d1 = Ret tt d2 /\
    Filtered d2 = Filtered d1 /\ CurrentView d2 = CurrentView d1 /\
    Cropped d2 = Cropped d1.
Proof.
  split; [exact demo_cropped_settled|].
  exact (filter_twice_is_filter_once demo_cropped demo_args IdxNone 3
           [0; 1; 2] [0%nat; 1%nat; 2%nat] demo_cropped_settled eq_refl
           eq_refl eq_refl).
Defined.

(** X6 on the scenario: [filter] on image 0 and then on the last image,
    and on both at once. *)
Lemma filter_in_two_calls_on_the_scenario :
  settled demo_cropped /\
  exists d1 d2 d12,
    filter demo_args (IdxList [0]) demo_cropped = Ret tt d1 /\
    filter demo_args (IdxList [-1]) d1 = Ret tt d2 /\
    filter demo_args (IdxList [0; -1]) demo_cropped = Ret tt d12 /\
    Filtered d2 = Filtered d12 /\ CurrentView d2 = CurrentView d12.
Proof.
  split; [exact demo_cropped_settled|].
  exact (filter_in_two_calls demo_cropped demo_args 3 [0] [-1] [0%nat]
           [2%nat] demo_cropped_settled eq_refl eq_refl eq_refl).
Defined.

(** X7 on the scenario: [filter] on image 1 of the dataset as
    constructed, then [apply_transforms]. *)
Lemma failed_filter_is_replayed_on_the_scenario :
  new (Stack demo_stack) demo_defvals PyNone = Ret tt demo_new /\
  exists d1 d2,
    filter demo_args (IdxInt 1) demo_new = Raise IndexError d1 /\
    apply_transforms d1 = Ret tt d2 /\
    CurrentView d2 = Some (Nd3 (bandpassed demo_args demo_stack)).
Proof.
  assert (H : new (Stack demo_stack) demo_defvals PyNone = Ret tt demo_new)
    by (vm_compute; reflexivity).
  split; [exact H|].
  destruct (failed_filter_is_replayed (Stack demo_stack) demo_defvals
              PyNone demo_new demo_args (IdxInt 1) [1] [1%nat] H eq_refl
              eq_refl)
    as (t & d1 & d2 & Ht & Hf & Ha & _ & _ & Hv).
  exists d1, d2. do 2 (split; [assumption|]).
  injection Ht as <-. exact Hv.
Defined.

(** X9 on the scenario: [preprocess] on the cropped dataset. *)
Lemma preprocess_reruns_the_pipeline_on_the_scenario :
  reachable demo_cropped /\
  exists d',
    preprocess (E := Demo) true (Some 3) false tt demo_cropped = Ret tt d' /\
    Preprocessed d'
      = Some (Nd3 (cleaned (E := Demo) true (Some 3) false tt demo_stack)).
Proof.
  split; [exact demo_cropped_reachable|].
  destruct (preprocess_reruns_the_pipeline (E := Demo) demo_cropped true
              (Some 3) false tt demo_cropped_reachable)
    as (raw & t & f & bf & d' & Hraw & _ & _ & _ & Hrun & Hp & _).
  exists d'. split; [assumption|].
  injection Hraw as <-. exact Hp.
Defined.

(** X10 on the scenario: [apply_transforms] with the rectangle of one row
    after a rotation. *)
Lemma apply_transforms_crops_the_window_on_the_scenario :
  reachable demo_roi /\
  exists d' crop,
    apply_transforms demo_roi = Ret tt d' /\
    Cropped d' = Some (Nd3 crop) /\
    exists c,
      crop !! 0%nat = Some c /\
      pixel c 0 1
        = pixel (rotated (E := Demo) demo_transforms [[1; 2]; [3; 4]]) 0 1 /\
      pixel c 1 0 = None.
Proof.
  split; [exact demo_roi_reachable|].
  destruct (apply_transforms_crops_the_window demo_roi demo_transforms
              demo_roi_reachable eq_refl
              ltac:(vm_compute; discriminate) ltac:(vm_compute; discriminate)
              ltac:(vm_compute; discriminate) ltac:(vm_compute; discriminate))
    as (base & d' & crop & Hb & Hrun & Hc & _ & Hpx).
  exists d', crop. do 2 (split; [assumption|]).
  injection Hb as <-.
  destruct (Hpx 0%nat (hd [] demo_stack) eq_refl) as (c & Hc0 & Hc1).
  exists c. split; [assumption|].
  split; [exact (Hc1 0%nat 1%nat)|exact (Hc1 1%nat 0%nat)].
Defined.

(** X11 on the scenario: [apply_transforms] on the dataset as
    constructed. *)
Lemma apply_transforms_full_frame_on_the_scenario :
  reachable demo_new /\
  exists d',
    apply_transforms demo_new = Ret tt d' /\
    Cropped d' = Some (Nd3 demo_stack) /\
    CurrentView d' = Some (Nd3 demo_stack).
Proof.
  split; [exact demo_new_reachable|].
  assert (Hall : Forall (fun im : list (list Z) =>
                   Z.of_nat (length im) <= 2 /\
                   Forall (fun row => Z.of_nat (length row) <= 2) im)
                 demo_stack).
  { repeat first [apply Forall_nil | apply Forall_cons | split];
      vm_compute; discriminate. }
  destruct (apply_transforms_full_frame demo_new
              (default_transforms (2%nat, 2%nat)) demo_stack
              demo_new_reachable eq_refl eq_refl eq_refl eq_refl eq_refl
              Hall)
    as (d' & Hrun & Hc & Hv).
  exists d'. do 2 (split; [assumption|]). exact (Hv eq_refl).
Defined.

(** X12 on the scenario: [apply_transforms] with a rectangle without
    rows. *)
Lemma apply_transforms_empty_rectangle_on_the_scenario :
  reachable demo_flat /\
  exists d',
    apply_transforms demo_flat = Ret tt d' /\
    Cropped d' = Some (Nd3 [[]; []; []]) /\
    CurrentView d' = Some (Nd3 [[]; []; []]).
Proof.
  split; [exact demo_flat_reachable|].
  destruct (apply_transforms_empty_rectangle demo_flat demo_no_rows
              demo_flat_reachable eq_refl eq_refl
              ltac:(vm_compute; discriminate) ltac:(vm_compute; discriminate)
              ltac:(vm_compute; discriminate))
    as (n & d' & Hn & Hrun & Hc & Hv).
  injection Hn as <-.
  exists d'. repeat split; assumption.
Defined.

(** X13 on the scenario: the images of the cropped dataset assigned in
    reverse order, then [apply_transforms]. *)
Lemma assigned_images_are_overwritten_on_the_scenario :
  reachable demo_cropped /\
  exists d1 d2,
    set_images (Stack (rev demo_stack)) demo_cropped = Ret tt d1 /\
    CurrentView d1 = Some (Nd3 (rev demo_stack)) /\
    apply_transforms d1 = Ret tt d2 /\
    CurrentView d2
      = CurrentView (final (apply_transforms demo_cropped)).
Proof.
  split; [exact demo_cropped_reachable|].
  destruct (assigned_images_are_overwritten demo_cropped
              (Stack (rev demo_stack)) 3 demo_cropped_reachable eq_refl
              eq_refl)
    as (d1 & d2 & d2' & H1 & Hv1 & _ & _ & _ & _ & H2 & H2' & _ & _ & Hv).
  exists d1, d2. do 3 (split; [assumption|]).
  rewrite H2'. exact Hv.
Defined.

(** X14 on the scenario: [select_ROI] on the cropped dataset. *)
Lemma select_ROI_shows_the_uncropped_image_on_the_scenario :
  reachable demo_cropped /\
  select_ROI 5 None demo_cropped = Raise IndexError demo_cropped /\
  select_ROI (-1) None demo_cropped
    = Ret tt
        (set__transforms
           (Some (@_select_ROI Demo [[9; 10]; [11; 12]]
                    (default_transforms (2%nat, 2%nat))))
           demo_cropped).
Proof.
  split; [exact demo_cropped_reachable|].
  split.
  - destruct (select_ROI_shows_the_uncropped_image demo_cropped 5
                demo_cropped_reachable)
      as (n & base & t & f & bf & Hn & _ & _ & _ & _ & Hbad & _).
    injection Hn as <-. exact (Hbad IndexError eq_refl).
  - destruct (select_ROI_shows_the_uncropped_image demo_cropped (-1)
                demo_cropped_reachable)
      as (n & base & t & f & bf & Hn & Hb & Ht & _ & Hbf & _ & Hok & _).
    injection Hn as <-. injection Hb as <-. injection Ht as <-.
    injection Hbf as <-.
    destruct (Hok 2%nat eq_refl) as (im & Him & Hrun).
    injection Him as <-. exact Hrun.
Defined.

(** X15 on the scenario: the [image] property of the cropped dataset. *)
Lemma image_is_the_first_of_the_view_on_the_scenario :
  reachable demo_cropped /\
  image_ demo_cropped = Ret [[1; 2]; [3; 4]] demo_cropped.
Proof.
  split; [exact demo_cropped_reachable|].
  destruct (image_is_the_first_of_the_view demo_cropped
              demo_cropped_reachable)
    as (v & Hv & _ & Him & _).
  injection Hv as <-. exact (Him _ eq_refl).
Defined.

(** X16 on the scenario: [load] of the image file with the metadata
    dictionary and the keywords. *)
Lemma load_returns_only_with_defvals_on_the_scenario :
  load (R := DemoReaders) (ImagesPath "stack.tif") (MetaDict demo_metadata)
    demo_kwargs = inr demo_loaded /\
  arg_defvals demo_loaded <> ONone /\
  forall d,
    construct demo_loaded = Some (Ret tt d) ->
    energy d = Raise AttributeError d.
Proof.
  assert (H : load (R := DemoReaders) (ImagesPath "stack.tif")
                (MetaDict demo_metadata) demo_kwargs = inr demo_loaded)
    by (vm_compute; reflexivity).
  split; [exact H|].
  destruct (load_returns_only_with_defvals (R := DemoReaders) _ _ _ _ H)
    as (Hd & _ & _ & _ & Hc).
  split; [exact Hd|].
  intros d Hd'. exact (proj2 (proj2 (Hc d Hd'))).
Defined.

(** X17 on the scenario: the same call, argument by argument. *)
Lemma load_prefers_keywords_then_metadata_on_the_scenario :
  _parse_mdata (Readers := DemoReaders) (MetaDict demo_metadata)
    = inr demo_metadata /\
  read_image (Readers := DemoReaders) "stack.tif"
    = inr (Stack demo_stack, demo_file_metadata) /\
  load (R := DemoReaders) (ImagesPath "stack.tif") (MetaDict demo_metadata)
    demo_kwargs = inr demo_loaded.
Proof.
  do 2 (split; [reflexivity|]).
  destruct (load_prefers_keywords_then_metadata (R := DemoReaders)
              "stack.tif" demo_metadata demo_kwargs demo_file_metadata
              demo_metadata (Stack demo_stack) eq_refl eq_refl)
    as (_ & _ & Hok).
  etrans; [apply Hok|by vm_compute].
  - vm_compute. discriminate.
  - intros k [v Hk]. revert Hk. unfold demo_kwargs.
    rewrite !lookup_insert_Some, lookup_empty.
    intros [[<- _]|[_ [[<- _]|[_ ?]]]]; [..|discriminate];
      unfold keywords; rewrite !elem_of_cons; tauto.
Defined.

(** X18 on the scenario: [load] of the stack itself, with the defocus
    values as a keyword. *)
Lemma load_of_an_array_on_the_scenario :
  parsed (R := DemoReaders) MetaNone = inr ∅ /\
  load (R := DemoReaders) (ImagesArray (Stack demo_stack)) MetaNone ∅
    = inl (Builtin ValueError) /\
  load (R := DemoReaders) (ImagesArray (Stack [])) MetaNone demo_kwargs
    = inl (Builtin IndexError).
Proof.
  split; [reflexivity|].
  split.
  - destruct (load_of_an_array (R := DemoReaders) (Stack demo_stack)
                MetaNone ∅ ∅ eq_refl)
      as (_ & Hnone & _).
    apply Hnone; by vm_compute.
  - destruct (load_of_an_array (R := DemoReaders) (Stack []) MetaNone
                demo_kwargs ∅ eq_refl)
      as (Hempty & _).
    apply Hempty. reflexivity.
Defined.

End DefocusedDataset.

